(** * Stock Analysis Pro: a shallow embedding of [chatbot/app.py]

    The program fetches price history and company metadata for a ticker
    (get_stock_data, memoised by Streamlit's cache_data), tabulates company
    fundamentals (display_company_info) and prints a templated report built on
    two rolling means (generate_investment_analysis).

    Python values are embedded as an inductive type, Python floats as the
    kernel's binary64 floats, dictionaries as finite maps, exceptions as an
    explicit outcome type, and the calls made to the data provider as a trace
    threaded through a small state-and-exception monad. *)

From Stdlib Require Import ZArith List Ascii String DecimalString Floats Lia Bool.
From stdpp Require Import base option gmap strings.
From Stdlib Require DecimalPos DecimalN.
Import ListNotations.

Local Open Scope string_scope.
Local Open Scope Z_scope.
Local Open Scope list_scope.

(** ** Python values and exceptions *)

Module Py.

(** The loosely typed scalars found in a provider record. *)
Inductive value :=
| VNone
| VBool (b : bool)
| VInt (z : Z)
| VFloat (x : float)
| VStr (s : string).

(** Exception types that matter to the program: [AttributeError] is what
    hasattr absorbs; [KeyboardInterrupt] stands for the BaseException
    subclasses that [except Exception] does not catch; [ProviderError] is any
    other Exception subclass raised inside the provider library, and
    [StreamlitError] any Exception subclass raised inside Streamlit. *)
Inductive exn_type :=
| AttributeError
| ValueError
| TypeError
| OverflowError
| KeyError
| ProviderError
| StreamlitError
| KeyboardInterrupt.

Record exn := Exn { exn_class : exn_type; exn_str : string }.

(** isinstance(e, Exception) *)
Definition is_Exception (e : exn) : bool :=
  match exn_class e with
  | KeyboardInterrupt => false
  | _ => true
  end.

(** isinstance(e, AttributeError) *)
Definition is_AttributeError (e : exn) : bool :=
  match exn_class e with
  | AttributeError => true
  | _ => false
  end.

(** What evaluating a Python expression yields. *)
Inductive outcome (A : Type) :=
| Returns (a : A)
| Raises (e : exn).
Arguments Returns {A} a.
Arguments Raises {A} e.

Definition obind {A B} (o : outcome A) (k : A -> outcome B) : outcome B :=
  match o with
  | Returns a => k a
  | Raises e => Raises e
  end.

(** bool(v) *)
Definition truthy (v : value) : bool :=
  match v with
  | VNone => false
  | VBool b => b
  | VInt z => negb (Z.eqb z 0)
  | VFloat x => negb (PrimFloat.eqb x 0%float)
  | VStr s => negb (String.eqb s "")
  end.

(** bool(d.get(k)): an absent key reads as None. *)
Definition truthy_get (d : gmap string value) (k : string) : bool :=
  match d !! k with
  | Some v => truthy v
  | None => false
  end.

(** [x in s] on strings. *)
Fixpoint contains (sub s : string) : bool :=
  String.prefix sub s ||
  match s with
  | EmptyString => false
  | String _ s' => contains sub s'
  end.

End Py.
Import Py.

Notation "x <- o ;;; k" := (obind o (fun x => k))
  (at level 100, o at next level, right associativity).

(** ** Data model *)

(** One row of the price history the provider returns. *)
Record Quote := mkQuote {
  timestamp : Z;
  Open : float;
  High : float;
  Low : float;
  Close : float;
  Volume : Z
}.

(** A price-history DataFrame: its rows in index order. *)
Definition DataFrame := list Quote.

(** An auxiliary table (financial statements, recommendations), opaque here. *)
Definition Table := list (list value).

(** DataFrame.empty *)
Definition empty {A} (df : list A) : bool :=
  match df with
  | [] => true
  | _ :: _ => false
  end.

(** The dictionary get_stock_data returns: [{'error': msg}] or the five-key
    dictionary whose 'error' entry is None. *)
Inductive FetchResult :=
| Failure (error : string)
| Success (history : DataFrame) (info : gmap string value)
          (financials recommendations : Table).

(** ** The data provider *)

(** What the provider answers during one run of get_stock_data.  Reading an
    attribute of the Ticker object is a property access that may raise. *)
Record Provider := mkProvider {
  Ticker_history : string -> string -> outcome DataFrame;
  yf_download : string -> string -> outcome DataFrame;
  Ticker_info : string -> outcome (gmap string value);
  Ticker_financials : string -> outcome Table;
  Ticker_recommendations : string -> outcome Table
}.

(** The calls that reach the provider, in the order they are made. *)
Inductive call :=
| CallHistory (symbol period : string)
| CallDownload (symbol period : string)
| CallGetattr (symbol attr : string).

(** Computations that log provider calls and may raise. *)
Definition M (A : Type) : Type := list call -> outcome A * list call.

Definition ret {A} (a : A) : M A := fun tr => (Returns a, tr).

Definition bind {A B} (m : M A) (k : A -> M B) : M B :=
  fun tr =>
    match m tr with
    | (Returns a, tr') => k a tr'
    | (Raises e, tr') => (Raises e, tr')
    end.

(** Ask the provider: the call is logged, its outcome becomes ours. *)
Definition ask {A} (c : call) (o : outcome A) : M A :=
  fun tr => (o, tr ++ [c]).

(** [try: body / except Exception as e: handler e] *)
Definition try_except_Exception {A} (body : M A) (handler : exn -> M A) : M A :=
  fun tr =>
    match body tr with
    | (Returns a, tr') => (Returns a, tr')
    | (Raises e, tr') =>
        if is_Exception e then handler e tr' else (Raises e, tr')
    end.

Notation "x <-- m ;; k" := (bind m (fun x => k))
  (at level 100, m at next level, right associativity).

(** [getattr(stock, attr) if hasattr(stock, attr) else default]: hasattr reads
    the attribute and answers False exactly when the read raises
    AttributeError; any other exception leaves hasattr.  When hasattr answers
    True the attribute is read again. *)
Definition getattr_if_hasattr {A} (symbol attr : string) (o : outcome A)
    (default : A) : M A :=
  fun tr =>
    match ask (CallGetattr symbol attr) o tr with
    | (Returns _, tr') => ask (CallGetattr symbol attr) o tr'
    | (Raises e, tr') =>
        if is_AttributeError e then (Returns default, tr') else (Raises e, tr')
    end.

Definition no_data_message (symbol : string) : string :=
  "⚠️ No stock data found for '" +:+ symbol +:+
  "'. Ensure the symbol is correct and try again.".

Definition api_error_message (e : exn) : string :=
  "⚠️ API Error: " +:+ exn_str e.

(** get_stock_data, without its cache decorator. *)
Definition get_stock_data (yf : Provider) (symbol period : string) : M FetchResult :=
  try_except_Exception
    (hist <-- ask (CallHistory symbol period) (Ticker_history yf symbol period) ;;
     hist <-- (if empty hist
               then ask (CallDownload symbol period) (yf_download yf symbol period)
               else ret hist) ;;
     if empty hist then ret (Failure (no_data_message symbol))
     else
       info <-- getattr_if_hasattr symbol "info" (Ticker_info yf symbol) ∅ ;;
       financials <-- getattr_if_hasattr symbol "financials"
                        (Ticker_financials yf symbol) [] ;;
       recommendations <-- getattr_if_hasattr symbol "recommendations"
                             (Ticker_recommendations yf symbol) [] ;;
       ret (Success hist info financials recommendations))
    (fun e => ret (Failure (api_error_message e))).

(** ** Python string conversion and the format mini-language *)

Module Fmt.

(** str(z) for an int. *)
Definition str_int (z : Z) : string := NilZero.string_of_int (Z.to_int z).

(** Decimal digits of a natural number. *)
Definition digits (n : Z) : string := NilZero.string_of_uint (N.to_uint (Z.to_N n)).

(** Thousands grouping, on the digits taken least significant first: a comma
    after every third digit that is followed by another one. *)
Fixpoint group3 (rev_digits : list ascii) : list ascii :=
  match rev_digits with
  | a :: b :: c :: rest =>
      match rest with
      | [] => [a; b; c]
      | _ :: _ => a :: b :: c :: ","%char :: group3 rest
      end
  | short => short
  end.

Definition insert_commas (ds : string) : string :=
  string_of_list_ascii (rev (group3 (rev (list_ascii_of_string ds)))).

Definition sign_str (negative : bool) : string := if negative then "-" else "".

(** format(z, ',') for an int. *)
Definition format_int_comma (z : Z) : string :=
  sign_str (z <? 0) +:+ insert_commas (digits (Z.abs z)).

(** The integer nearest to [num / den], ties to even ([den] positive). *)
Definition round_half_even (num den : Z) : Z :=
  let q := num / den in
  let r := num mod den in
  match 2 * r ?= den with
  | Lt => q
  | Gt => q + 1
  | Eq => if Z.even q then q else q + 1
  end.

(** Hundredths of [m * 2^e], correctly rounded. *)
Definition hundredths (m e : Z) : Z :=
  if 0 <=? e then m * 2 ^ e * 100 else round_half_even (m * 100) (2 ^ (- e)).

Definition two_digits (n : Z) : string :=
  digits (n / 10) +:+ digits (n mod 10).

(** format(x, '.2f') for a float. *)
Definition format_float_2f (x : float) : string :=
  match Prim2SF x with
  | S754_nan => "nan"
  | S754_infinity s => sign_str s +:+ "inf"
  | S754_zero s => sign_str s +:+ "0.00"
  | S754_finite s m e =>
      let h := hundredths (Z.pos m) e in
      sign_str s +:+ digits (h / 100) +:+ "." +:+ two_digits (h mod 100)
  end.

(** float(z) for an int: correctly rounded; OverflowError beyond the range. *)
Definition float_of_int (z : Z) : outcome float :=
  let x := SF2Prim (binary_normalize prec emax z 0 false) in
  if is_infinity x
  then Raises (Exn OverflowError "int too large to convert to float")
  else Returns x.

(** *** repr of a float: the shortest decimal that reads back as the float *)

(** Compare [a * 10^p10] with [b * 2^p2]. *)
Definition compare_dec_bin (a p10 b p2 : Z) : comparison :=
  (a * 10 ^ Z.max p10 0 * 2 ^ Z.max (- p2) 0 ?=
   b * 2 ^ Z.max p2 0 * 10 ^ Z.max (- p10) 0).

(** Does the decimal [c * 10^s] round (to nearest, ties to even) to the
    binary64 number [m * 2^e]?  The bounds are the midpoints to the two
    neighbouring floats; the lower neighbour is half as far when [m] is the
    lowest mantissa of a binade. *)
Definition rounds_to (m e c s : Z) : bool :=
  let '(lo, lo_e) :=
    if (m =? 2 ^ 52) && (-1074 <? e) then (4 * m - 1, e - 2) else (2 * m - 1, e - 1) in
  let above :=
    match compare_dec_bin c s lo lo_e with
    | Gt => true
    | Eq => Z.even m
    | Lt => false
    end in
  let below :=
    match compare_dec_bin c s (2 * m + 1) (e - 1) with
    | Lt => true
    | Eq => Z.even m
    | Gt => false
    end in
  above && below.

(** The largest [p] with [10^p <= m * 2^e]. *)
Definition floor_log10 (m e : Z) : Z :=
  let est := (Z.log2 m + e) * 1233 / 4096 in
  let fits p := match compare_dec_bin 1 p m e with Gt => false | _ => true end in
  if fits (est + 2) then est + 2
  else if fits (est + 1) then est + 1
  else if fits est then est
  else if fits (est - 1) then est - 1
  else est - 2.

(** The nearest decimal with [n] significant digits, as [(c, s)] for
    [c * 10^s], and the one on the other side of the float. *)
Definition nearest_decimals (m e p n : Z) : (Z * Z) * Z :=
  let s := p - n + 1 in
  let num := m * 2 ^ Z.max e 0 * 10 ^ Z.max (- s) 0 in
  let den := 2 ^ Z.max (- e) 0 * 10 ^ Z.max s 0 in
  let near := round_half_even num den in
  let other := if near =? num / den then num / den + 1 else num / den in
  ((near, other), s).

Fixpoint shortest_from (fuel : nat) (m e p n : Z) : Z * Z :=
  let '((near, other), s) := nearest_decimals m e p n in
  match fuel with
  | O => (near, s)
  | S fuel' =>
      if rounds_to m e near s then (near, s)
      else if rounds_to m e other s then (other, s)
      else shortest_from fuel' m e p (n + 1)
  end.

Fixpoint strip_zeros (fuel : nat) (c s : Z) : Z * Z :=
  match fuel with
  | O => (c, s)
  | S fuel' => if (c mod 10 =? 0) && negb (c =? 0)
               then strip_zeros fuel' (c / 10) (s + 1) else (c, s)
  end.

(** Shortest digits of [m * 2^e]: seventeen always suffice. *)
Definition shortest_digits (m e : Z) : Z * Z :=
  let '(c, s) := shortest_from 16 m e (floor_log10 m e) 1 in
  strip_zeros 17 c s.

Definition zeros (n : Z) : string := string_of_list_ascii (repeat "0"%char (Z.to_nat n)).

Definition pad2 (s : string) : string :=
  if (String.length s <? 2)%nat then "0" +:+ s else s.

(** The sign, the leading digits and the remainder of repr(x). *)
Definition repr_parts (x : float) : string * string * string :=
  match Prim2SF x with
  | S754_nan => ("", "", "nan")
  | S754_infinity s => (sign_str s, "", "inf")
  | S754_zero s => (sign_str s, "0", ".0")
  | S754_finite s m e =>
      let '(c, q) := shortest_digits (Z.pos m) e in
      let ds := digits c in
      let k := Z.of_nat (String.length ds) in
      let decpt := q + k in
      if (decpt <=? -4) || (16 <? decpt) then
        (sign_str s, String.substring 0 1 ds,
         (if k =? 1 then "" else "." +:+ String.substring 1 (Z.to_nat (k - 1)) ds)
         +:+ "e" +:+ (if decpt - 1 <? 0 then "-" else "+")
         +:+ pad2 (digits (Z.abs (decpt - 1))))
      else if decpt <=? 0 then
        (sign_str s, "0", "." +:+ zeros (- decpt) +:+ ds)
      else if k <=? decpt then
        (sign_str s, ds +:+ zeros (decpt - k), ".0")
      else
        (sign_str s, String.substring 0 (Z.to_nat decpt) ds,
         "." +:+ String.substring (Z.to_nat decpt) (Z.to_nat (k - decpt)) ds)
  end.

(** repr(x), which is also str(x) and format(x, ''). *)
Definition float_repr (x : float) : string :=
  let '(sign, lead, rest) := repr_parts x in sign +:+ lead +:+ rest.

(** format(x, ',') for a float: repr with the leading digits grouped. *)
Definition format_float_comma (x : float) : string :=
  let '(sign, lead, rest) := repr_parts x in sign +:+ insert_commas lead +:+ rest.

End Fmt.

(** ** Operations on loosely typed values *)

(** str(v), which is also what an f-string field without a format does. *)
Definition str (v : value) : string :=
  match v with
  | VNone => "None"
  | VBool true => "True"
  | VBool false => "False"
  | VInt z => Fmt.str_int z
  | VFloat x => Fmt.float_repr x
  | VStr s => s
  end.

(** format(v, ','): strings and None reject the thousands separator. *)
Definition format_comma (v : value) : outcome string :=
  match v with
  | VNone =>
      Raises (Exn TypeError "unsupported format string passed to NoneType.__format__")
  | VBool b => Returns (Fmt.format_int_comma (if b then 1 else 0))
  | VInt z => Returns (Fmt.format_int_comma z)
  | VFloat x => Returns (Fmt.format_float_comma x)
  | VStr _ => Raises (Exn ValueError "Cannot specify ',' with 's'.")
  end.

(** format(v, '.2f'): an int is converted to a float first. *)
Definition format_2f (v : value) : outcome string :=
  match v with
  | VNone =>
      Raises (Exn TypeError "unsupported format string passed to NoneType.__format__")
  | VBool b => x <- Fmt.float_of_int (if b then 1 else 0) ;;; Returns (Fmt.format_float_2f x)
  | VInt z => x <- Fmt.float_of_int z ;;; Returns (Fmt.format_float_2f x)
  | VFloat x => Returns (Fmt.format_float_2f x)
  | VStr _ => Raises (Exn ValueError "Unknown format code 'f' for object of type 'str'")
  end.

Fixpoint repeat_string (n : nat) (s : string) : string :=
  match n with
  | O => ""
  | S n' => s +:+ repeat_string n' s
  end.

(** v * 100 *)
Definition times_100 (v : value) : outcome value :=
  match v with
  | VNone =>
      Raises (Exn TypeError "unsupported operand type(s) for *: 'NoneType' and 'int'")
  | VBool b => Returns (VInt ((if b then 1 else 0) * 100))
  | VInt z => Returns (VInt (z * 100))
  | VFloat x => Returns (VFloat (x * 100)%float)
  | VStr s => Returns (VStr (repeat_string 100 s))
  end.

(** d.get(k, default) *)
Definition get (d : gmap string value) (k : string) (default : value) : value :=
  match d !! k with
  | Some v => v
  | None => default
  end.

(** bool(d) for a dict. *)
Definition nonempty_dict (d : gmap string value) : bool := negb (size d =? 0)%nat.

(** ** The cache decorator *)

(** Streamlit's [st.cache_data(ttl=...)] wrapped around a function of
    (symbol, period).  The decorator belongs to the Streamlit library; the
    model follows its documented behaviour: one entry per argument pair,
    holding the value returned and the time it was stored; an entry is served
    while the clock is before its expiry; otherwise the function runs and, if
    it returns, its value replaces the entry, whether it is a success or an
    error dictionary.  A call that raises stores nothing.  The clock is an
    explicit argument, in seconds. *)
Record CacheEntry := mkEntry { stored : FetchResult; created : Z }.

Definition live (ttl now : Z) (en : CacheEntry) : bool := now <? created en + ttl.

Definition cache_data (ttl : Z) (f : string -> string -> M FetchResult)
    (now : Z) (symbol period : string)
    (cache : gmap (string * string) CacheEntry) (tr : list call)
  : outcome FetchResult * gmap (string * string) CacheEntry * list call :=
  match cache !! (symbol, period) with
  | Some en =>
      if live ttl now en then (Returns (stored en), cache, tr)
      else
        match f symbol period tr with
        | (Returns r, tr') => (Returns r, <[(symbol, period) := mkEntry r now]> cache, tr')
        | (Raises e, tr') => (Raises e, cache, tr')
        end
  | None =>
      match f symbol period tr with
      | (Returns r, tr') => (Returns r, <[(symbol, period) := mkEntry r now]> cache, tr')
      | (Raises e, tr') => (Raises e, cache, tr')
      end
  end.

(** get_stock_data as the program calls it: [@st.cache_data(ttl=3600)]. *)
Definition cached_get_stock_data (yf : Provider) :=
  cache_data 3600 (get_stock_data yf).

(** ** Company fundamentals *)

(** What display_company_info returns: a notice, or the one-column DataFrame
    built from the metrics dictionary (its rows in insertion order). *)
Inductive Display :=
| Notice (text : string)
| Metrics (rows : list (string * value)).

Definition market_cap_metric (info : gmap string value) : outcome string :=
  if truthy_get info "marketCap"
  then s <- format_comma (get info "marketCap" (VStr "N/A")) ;;; Returns ("$" +:+ s)
  else Returns "N/A".

Definition dividend_yield_metric (info : gmap string value) : outcome string :=
  if truthy_get info "dividendYield"
  then v <- times_100 (get info "dividendYield" (VInt 0)) ;;;
       s <- format_2f v ;;;
       Returns (s +:+ "%")
  else Returns "0%".

Definition display_company_info (info : gmap string value) : outcome Display :=
  if negb (nonempty_dict info) then Returns (Notice "No company information available")
  else
    market_cap <- market_cap_metric info ;;;
    dividend_yield <- dividend_yield_metric info ;;;
    Returns (Metrics
      [ ("Sector", get info "sector" (VStr "N/A"));
        ("Industry", get info "industry" (VStr "N/A"));
        ("Market Cap", VStr market_cap);
        ("PE Ratio", get info "trailingPE" (VStr "N/A"));
        ("EPS", get info "trailingEps" (VStr "N/A"));
        ("Dividend Yield", VStr dividend_yield) ]).

(** ** Technical indicators and the report *)

(** hist['Close'] *)
Definition closes (hist : DataFrame) : list float := map Close hist.

(** series.rolling(window=w).mean() is pandas' code, not the program's.  The
    model follows pandas 2.x (core/window/rolling.py, core/indexers/objects.py
    and _libs/window/aggregations.pyx): the values are prepared, an infinity
    becoming NaN; every row gets the bounds of its window; and roll_mean
    walks down the rows with one running sum, from which the observation that
    leaves the window is taken and to which the one that enters is added,
    both with Kahan's compensation.  The mean of a row is NaN unless its
    window holds min_periods observations that are not NaN, min_periods
    being the window length by default. *)
Module rolling.

Definition float_of_Z (z : Z) : float :=
  SF2Prim (binary_normalize prec emax z 0 false).

(** signbit(val); asked of numbers only. *)
Definition signbit (x : float) : bool :=
  match Prim2SF x with
  | S754_zero s | S754_infinity s | S754_finite s _ _ => s
  | S754_nan => false
  end.

(** The variables roll_mean carries from row to row. *)
Record state := mkState {
  nobs : Z;
  sum_x : float;
  neg_ct : Z;
  compensation_add : float;
  compensation_remove : float;
  num_consecutive_same_value : Z;
  prev_value : float
}.

(** add_mean: an observation enters the window. *)
Definition add_mean (val : float) (st : state) : state :=
  if (val =? val)%float then
    let y := (val - compensation_add st)%float in
    let t := (sum_x st + y)%float in
    mkState (nobs st + 1) t
            (if signbit val then neg_ct st + 1 else neg_ct st)
            (t - sum_x st - y)%float
            (compensation_remove st)
            (if (val =? prev_value st)%float
             then num_consecutive_same_value st + 1 else 1)
            val
  else st.

(** remove_mean: an observation leaves the window. *)
Definition remove_mean (val : float) (st : state) : state :=
  if (val =? val)%float then
    let y := (- val - compensation_remove st)%float in
    let t := (sum_x st + y)%float in
    mkState (nobs st - 1) t
            (if signbit val then neg_ct st - 1 else neg_ct st)
            (compensation_add st)
            (t - sum_x st - y)%float
            (num_consecutive_same_value st)
            (prev_value st)
  else st.

(** calc_mean: the mean of the window the state stands for.  A window of one
    repeated value gives that value; a mean of the wrong sign is set to
    zero. *)
Definition calc_mean (minp : Z) (st : state) : float :=
  if (minp <=? nobs st) && (0 <? nobs st) then
    let result := (sum_x st / float_of_Z (nobs st))%float in
    if nobs st <=? num_consecutive_same_value st then prev_value st
    else if (neg_ct st =? 0) && (result <? 0)%float then 0%float
    else if (neg_ct st =? nobs st) && (0 <? result)%float then 0%float
    else result
  else nan.

(** _prep_values: an infinity is turned into NaN. *)
Definition prep_values (values : list float) : list float :=
  map (fun x => if is_infinity x then nan else x) values.

(** FixedWindowIndexer.get_window_bounds: row [i] sees the rows from
    [window_start window i] up to, not including, [window_end i]. *)
Definition window_start (window i : nat) : nat := (i + 1 - window)%nat.
Definition window_end (i : nat) : nat := (i + 1)%nat.

(** values[j] for j in range(a, b) *)
Definition slice (values : list float) (a b : nat) : list float :=
  firstn (b - a) (skipn a values).

(** The state as the loop body starts a window from nothing. *)
Definition setup (values : list float) (s : nat) : state :=
  mkState 0 0%float 0 0%float 0%float 0 (nth s values nan).

(** One turn of the loop of roll_mean at row [i]: the window is set up from
    nothing at the first row and whenever it shares no row with the one
    before; otherwise the rows that left are removed and the rows that came
    are added. *)
Definition next_state (values : list float) (window i : nat) (st : state) : state :=
  let s := window_start window i in
  let e := window_end i in
  if (i =? 0)%nat || (window_end (i - 1) <=? s)%nat then
    fold_left (fun st val => add_mean val st) (slice values s e) (setup values s)
  else
    let st := fold_left (fun st val => remove_mean val st)
                (slice values (window_start window (i - 1)) s) st in
    fold_left (fun st val => add_mean val st) (slice values (window_end (i - 1)) e) st.

Fixpoint roll_loop (values : list float) (window : nat) (minp : Z) (rows : list nat)
    (st : state) : list float :=
  match rows with
  | [] => []
  | i :: rows' =>
      let st' := next_state values window i st in
      calc_mean minp st' :: roll_loop values window minp rows' st'
  end.

(** roll_mean(values, start, end, minp), on the bounds of a fixed window. *)
Definition roll_mean (values : list float) (window : nat) (minp : Z) : list float :=
  roll_loop values window minp (seq 0 (length values)) (setup values 0).

End rolling.

(** series.rolling(window=w).mean() *)
Definition rolling_mean (window : nat) (xs : list float) : list float :=
  rolling.roll_mean (rolling.prep_values xs) window (Z.of_nat window).

(** series[-1].  The program reads it only after checking that the history
    is not empty; on an empty series, where Python raises IndexError, the
    model yields NaN. *)
Definition last_value (xs : list float) : float := List.last xs nan.

Definition latest_close (hist : DataFrame) : float := last_value (closes hist).
Definition sma_50 (hist : DataFrame) : float := last_value (rolling_mean 50 (closes hist)).
Definition sma_200 (hist : DataFrame) : float := last_value (rolling_mean 200 (closes hist)).

Definition Bullish : string := "🔼 Bullish".
Definition Bearish : string := "🔽 Bearish".

(** ['🔼 Bullish' if sma_50 > sma_200 else '🔽 Bearish'] *)
Definition outlook (hist : DataFrame) : string :=
  if (sma_200 hist <? sma_50 hist)%float then Bullish else Bearish.

Definition nl : string := String (ascii_of_nat 10) "".

Definition technical_section (symbol : string) (hist : DataFrame) : string :=
  nl +:+ "    Investment Analysis for " +:+ symbol +:+ nl +:+ nl +:+
  "    Current Price: $" +:+ Fmt.format_float_2f (latest_close hist) +:+ "  " +:+ nl +:+
  "    50-Day SMA: $" +:+ Fmt.format_float_2f (sma_50 hist) +:+ "  " +:+ nl +:+
  "    200-Day SMA: $" +:+ Fmt.format_float_2f (sma_200 hist) +:+ "  " +:+ nl +:+ nl +:+
  "    Technical Outlook:  " +:+ nl +:+
  "    " +:+ outlook hist +:+ " crossover signal  " +:+ nl +:+
  "    ".

Definition fundamental_section (info : gmap string value) : outcome string :=
  market_cap <- format_comma (get info "marketCap" (VStr "N/A")) ;;;
  Returns (
    nl +:+ "        Fundamental Analysis:" +:+ nl +:+
    "        - Sector: " +:+ str (get info "sector" (VStr "N/A")) +:+ "  " +:+ nl +:+
    "        - Market Cap: $" +:+ market_cap +:+ "  " +:+ nl +:+
    "        - P/E Ratio: " +:+ str (get info "trailingPE" (VStr "N/A")) +:+ "  " +:+ nl +:+
    "        - ROE: " +:+ str (get info "returnOnEquity" (VStr "N/A")) +:+ "  " +:+ nl +:+
    "        ").

Definition recommendation : string :=
  nl +:+ nl +:+
  "🔔 Recommendation: Always consult with a financial advisor before making investment decisions.".

Definition generate_investment_analysis (symbol : string) (data : FetchResult)
  : outcome string :=
  match data with
  | Failure _ => Raises (Exn KeyError "'history'")
  | Success hist info _ _ =>
      if empty hist then Returns "⚠️ Insufficient data for analysis"
      else
        let analysis := technical_section symbol hist in
        analysis <- (if nonempty_dict info
                     then more <- fundamental_section info ;;; Returns (analysis +:+ more)
                     else Returns analysis) ;;;
        Returns (analysis +:+ recommendation)
  end.

(** ** The candlestick chart *)

(** The part of plotly's graph objects the program uses: a figure is its
    traces and the layout properties set on it. *)
Module go.

Record Candlestick := mkCandlestick {
  x : list Z;
  open : list float;
  high : list float;
  low : list float;
  close : list float;
  name : string
}.

Record Figure := mkFigure {
  data : list Candlestick;
  layout : gmap string value
}.

(** go.Figure() *)
Definition new_figure : Figure := mkFigure [] ∅.

Definition add_trace (fig : Figure) (trace : Candlestick) : Figure :=
  mkFigure (data fig ++ [trace]) (layout fig).

(** fig.update_layout with keyword properties: the given ones override. *)
Definition update_layout (fig : Figure) (properties : gmap string value) : Figure :=
  mkFigure (data fig) (properties ∪ layout fig).

End go.

(** data.index, the timestamps of the rows *)
Definition index (hist : DataFrame) : list Z := map timestamp hist.

Definition create_stock_chart (hist : DataFrame) (symbol : string) : go.Figure :=
  let fig := go.new_figure in
  let fig := go.add_trace fig
               (go.mkCandlestick (index hist) (map Open hist) (map High hist)
                                 (map Low hist) (map Close hist) "Price") in
  go.update_layout fig
    (<["title" := VStr (symbol +:+ " Stock Price")]>
       (<["xaxis_title" := VStr "Date"]>
          (<["yaxis_title" := VStr "Price"]>
             (<["xaxis_rangeslider_visible" := VBool false]>
                (<["height" := VInt 600]> ∅))))).

(** ** The page *)

(** The calls the script makes to Streamlit. *)
Module st.

(** The argument of st.dataframe: what display_company_info returned, or a
    table of the fetch result. *)
Inductive frame :=
| shown (d : Display)
| table (t : Table).

Inductive call :=
| set_page_config (page_title layout : string)
| title (text : string)
| header (text : string)
| text_input (label default : string)
| selectbox (label : string) (options : list string) (index : nat)
| button (label : string)
| error (text : string)
| info (text : string)
| tabs (names : list string)
| plotly_chart (fig : go.Figure)
| subheader (text : string)
| dataframe (f : frame)
| expander (label : string)
| write (text : string)
| markdown (text : string) (unsafe_allow_html : bool).

(** Where a call draws: the page, the sidebar, a tab, or an expander in a
    tab. *)
Inductive place :=
| page
| sidebar
| tab (name : string)
| inside (tab_name expander_label : string).

End st.

(** One run of the script as Streamlit drives it: the state of the widgets,
    and what each drawing call answers. *)
Record Session := mkSession {
  typed : string;
  period_chosen : string;
  analysis_chosen : string;
  clicked : bool;
  draws : st.place -> st.call -> outcome unit
}.

(** What a run of the script works on: the cache of get_stock_data, the calls
    made to the provider, and the calls drawn on the page. *)
Record World := mkWorld {
  cache : gmap (string * string) CacheEntry;
  provider_calls : list call;
  screen : list (st.place * st.call)
}.

Definition Script (A : Type) : Type := World -> outcome A * World.

Definition sret {A} (a : A) : Script A := fun w => (Returns a, w).

Definition sbind {A B} (m : Script A) (k : A -> Script B) : Script B :=
  fun w =>
    match m w with
    | (Returns a, w') => k a w'
    | (Raises e, w') => (Raises e, w')
    end.

Notation "x <~ m ;; k" := (sbind m (fun x => k))
  (at level 100, m at next level, right associativity).
Notation "'exec' m ;; k" := (sbind m (fun _ => k))
  (at level 100, m at next level, right associativity).

(** A drawing call: drawn if Streamlit accepts it. *)
Definition draw (ui : Session) (p : st.place) (c : st.call) : Script unit :=
  fun w =>
    match draws ui p c with
    | Returns _ => (Returns tt, mkWorld (cache w) (provider_calls w) (screen w ++ [(p, c)]))
    | Raises e => (Raises e, w)
    end.

(** A widget: drawn, and answering with its state. *)
Definition widget {A} (ui : Session) (p : st.place) (c : st.call) (state : A) : Script A :=
  exec draw ui p c ;; sret state.

(** A computation of the program that may raise. *)
Definition lift {A} (o : outcome A) : Script A := fun w => (o, w).

(** The cached get_stock_data, on the world's cache and provider. *)
Definition fetch (yf : Provider) (now : Z) (symbol period : string) : Script FetchResult :=
  fun w =>
    let '(o, cache', tr') :=
      cached_get_stock_data yf now symbol period (cache w) (provider_calls w) in
    (o, mkWorld cache' tr' (screen w)).

(** str.upper() on ASCII text.  Bytes outside ASCII are left as they are,
    which is not what Python does to letters outside ASCII. *)
Definition upper_char (c : ascii) : ascii :=
  let n := nat_of_ascii c in
  if (97 <=? n)%nat && (n <=? 122)%nat then ascii_of_nat (n - 32) else c.

Fixpoint upper (s : string) : string :=
  match s with
  | EmptyString => EmptyString
  | String c s' => String (upper_char c) (upper s')
  end.

(** data['error'] *)
Definition error_of (data : FetchResult) : value :=
  match data with
  | Failure msg => VStr msg
  | Success _ _ _ _ => VNone
  end.

(** DataFrame.empty on an auxiliary table: no rows, or no columns. *)
Definition table_empty (t : Table) : bool :=
  match t with
  | [] => true
  | r :: _ => empty r
  end.

(** table.tail(n) *)
Definition tail (n : nat) (t : Table) : Table := skipn (length t - n) t.

Definition periods : list string := ["1d"; "5d"; "1mo"; "3mo"; "6mo"; "1y"; "5y"].
Definition analysis_types : list string := ["Technical"; "Fundamental"; "Full Report"].
Definition tab_names : list string :=
  ["📊 Price Chart"; "🏢 Company Info"; "📈 Investment Analysis"].

Definition style : string :=
  nl +:+ "<style>" +:+ nl +:+
  "    .stDataFrame { " +:+ nl +:+
  "        font-size: 0.9em;" +:+ nl +:+
  "    }" +:+ nl +:+
  "    .st-b7 { " +:+ nl +:+
  "        color: white;" +:+ nl +:+
  "    }" +:+ nl +:+
  "</style>" +:+ nl.

(** Lines 130 to 150: the three tabs of a fetched result. *)
Definition show_report (ui : Session) (symbol : string) (data : FetchResult) : Script unit :=
  exec draw ui st.page (st.tabs tab_names) ;;
  match data with
  | Failure _ => lift (Raises (Exn KeyError "'history'"))
  | Success hist info financials recommendations =>
      exec draw ui (st.tab "📊 Price Chart")
            (st.plotly_chart (create_stock_chart hist symbol)) ;;
      exec draw ui (st.tab "🏢 Company Info") (st.subheader "📄 Company Overview") ;;
      company <~ lift (display_company_info info) ;;
      exec draw ui (st.tab "🏢 Company Info") (st.dataframe (st.shown company)) ;;
      exec (if negb (table_empty financials)
           then exec draw ui (st.tab "🏢 Company Info")
                      (st.expander "📜 Financial Statements") ;;
                exec draw ui (st.inside "🏢 Company Info" "📜 Financial Statements")
                      (st.write "Income Statement") ;;
                draw ui (st.inside "🏢 Company Info" "📜 Financial Statements")
                     (st.dataframe (st.table financials))
           else sret tt) ;;
      analysis <~ lift (generate_investment_analysis symbol data) ;;
      exec draw ui (st.tab "📈 Investment Analysis") (st.markdown analysis false) ;;
      if negb (table_empty recommendations)
      then exec draw ui (st.tab "📈 Investment Analysis")
                 (st.expander "📊 Analyst Recommendations") ;;
           draw ui (st.inside "📈 Investment Analysis" "📊 Analyst Recommendations")
                (st.dataframe (st.table (tail 10 recommendations)))
      else sret tt
  end.

(** Lines 122 to 152: what the Analyze button does. *)
Definition analyze (ui : Session) (yf : Provider) (now : Z) (symbol period : string)
    (pressed : bool) : Script unit :=
  if pressed
  then data <~ fetch yf now symbol period ;;
       if truthy (error_of data)
       then draw ui st.page (st.error (str (error_of data)))
       else show_report ui symbol data
  else draw ui st.page
         (st.info "👈 Enter a stock symbol and click 'Analyze' to get started").

(** The script, from set_page_config to the style sheet. *)
Definition app (ui : Session) (yf : Provider) (now : Z) : Script unit :=
  exec draw ui st.page (st.set_page_config "Stock Analysis Pro" "wide") ;;
  exec draw ui st.page (st.title "📈 Stock Analysis Pro") ;;
  exec draw ui st.sidebar (st.header "⚙️ Settings") ;;
  text <~ widget ui st.sidebar (st.text_input "Stock Symbol" "AAPL") (typed ui) ;;
  let symbol := upper text in
  period <~ widget ui st.sidebar (st.selectbox "Analysis Period" periods 5)
              (period_chosen ui) ;;
  analysis_type <~ widget ui st.sidebar (st.selectbox "Analysis Type" analysis_types 0)
                     (analysis_chosen ui) ;;
  pressed <~ widget ui st.sidebar (st.button "🔍 Analyze") (clicked ui) ;;
  exec analyze ui yf now symbol period pressed ;;
  draw ui st.page (st.markdown style true).

(** ** Sample inputs *)

Definition quote_at (day : Z) (price : float) : Quote :=
  mkQuote day price price price price 1000.

Definition one_day : DataFrame := [quote_at 0 187.5%float].

Definition apple_info : gmap string value :=
  <["sector" := VStr "Technology"]> (<["marketCap" := VInt 2500000000]> ∅).

(** A provider that answers every request. *)
Definition healthy : Provider :=
  mkProvider (fun _ _ => Returns one_day) (fun _ _ => Returns [])
             (fun _ => Returns apple_info) (fun _ => Returns []) (fun _ => Returns []).

(** Only the bulk download knows the symbol. *)
Definition download_only : Provider :=
  mkProvider (fun _ _ => Returns []) (fun _ _ => Returns one_day)
             (fun _ => Returns apple_info) (fun _ => Returns []) (fun _ => Returns []).

(** Neither interface knows the symbol. *)
Definition unlisted : Provider :=
  mkProvider (fun _ _ => Returns []) (fun _ _ => Returns [])
             (fun _ => Returns ∅) (fun _ => Returns []) (fun _ => Returns []).

(** Prices are served, the profile request is refused. *)
Definition rate_limited : Provider :=
  mkProvider (fun _ _ => Returns one_day) (fun _ _ => Returns [])
             (fun _ => Raises (Exn ProviderError "Too Many Requests"))
             (fun _ => Returns []) (fun _ => Returns []).

(** Prices are served, reading the profile trips over a malformed response. *)
Definition malformed_profile : Provider :=
  mkProvider (fun _ _ => Returns one_day) (fun _ _ => Returns [])
             (fun _ => Raises (Exn AttributeError "'NoneType' object has no attribute 'get'"))
             (fun _ => Returns []) (fun _ => Returns []).

(** 250 daily rows that all close at 100.0. *)
Definition flat_year : DataFrame :=
  map (fun day => quote_at (Z.of_nat day) 100%float) (seq 0 250).

(** Profiles for the fundamentals table. *)
Definition only_employees : gmap string value := {["fullTimeEmployees" := VInt 164000]}.
Definition zero_cap : gmap string value := {["marketCap" := VInt 0]}.
Definition big_cap : gmap string value := {["marketCap" := VInt 2500000000]}.
(** The yield is the float Python reads from 0.0123. *)
Definition cap_and_yield : gmap string value :=
  <["marketCap" := VInt 2500000000]> {["dividendYield" := VFloat 0x1.930be0ded288dp-7]}.
Definition named_cap : gmap string value := {["marketCap" := VStr "2.5B"]}.

(** The provider calls of one successful run for AAPL, and the cache it leaves
    when it ran at time 0. *)
Definition aapl_calls : list call :=
  [CallHistory "AAPL" "1y"; CallGetattr "AAPL" "info"; CallGetattr "AAPL" "info";
   CallGetattr "AAPL" "financials"; CallGetattr "AAPL" "financials";
   CallGetattr "AAPL" "recommendations"; CallGetattr "AAPL" "recommendations"].

Definition aapl_cache : gmap (string * string) CacheEntry :=
  <[("AAPL", "1y") := mkEntry (Success one_day apple_info [] []) 0]> ∅.

(** ** Statements about outcomes *)

(** The read raises nothing, or an AttributeError that hasattr absorbs. *)
Definition quiet {A} (o : outcome A) : Prop :=
  match o with
  | Returns _ => True
  | Raises e => is_AttributeError e = true
  end.

(** What [x if hasattr(..) else default] evaluates to on a quiet read. *)
Definition value_or {A} (default : A) (o : outcome A) : A :=
  match o with
  | Returns a => a
  | Raises _ => default
  end.

(** Whatever the read raises is an instance of Exception. *)
Definition raises_Exception {A} (o : outcome A) : Prop :=
  match o with
  | Returns _ => True
  | Raises e => is_Exception e = true
  end.

Definition is_download (c : call) : bool :=
  match c with
  | CallDownload _ _ => true
  | _ => false
  end.

(** The provider calls one guarded attribute read makes: the probe, and the
    read proper when the probe succeeds. *)
Definition attr_reads {A} (symbol attr : string) (o : outcome A) : list call :=
  match o with
  | Returns _ => [CallGetattr symbol attr; CallGetattr symbol attr]
  | Raises _ => [CallGetattr symbol attr]
  end.

Definition metadata_reads (yf : Provider) (symbol : string) : list call :=
  attr_reads symbol "info" (Ticker_info yf symbol) ++
  attr_reads symbol "financials" (Ticker_financials yf symbol) ++
  attr_reads symbol "recommendations" (Ticker_recommendations yf symbol).

(** The success assembled from a history when every metadata read is quiet. *)
Definition assembled (yf : Provider) (symbol : string) (hist : DataFrame) : FetchResult :=
  Success hist
    (value_or ∅ (Ticker_info yf symbol))
    (value_or [] (Ticker_financials yf symbol))
    (value_or [] (Ticker_recommendations yf symbol)).

(** Lines 27 to 38 of the source: the three guarded reads and the assembly. *)
Definition fetch_details (yf : Provider) (symbol : string) (hist : DataFrame)
  : M FetchResult :=
  info <-- getattr_if_hasattr symbol "info" (Ticker_info yf symbol) ∅ ;;
  financials <-- getattr_if_hasattr symbol "financials"
                   (Ticker_financials yf symbol) [] ;;
  recommendations <-- getattr_if_hasattr symbol "recommendations"
                        (Ticker_recommendations yf symbol) [] ;;
  ret (Success hist info financials recommendations).

(** The except clause of get_stock_data. *)
Definition on_Exception (e : exn) : M FetchResult := ret (Failure (api_error_message e)).

(** The read raises [e], and hasattr does not absorb it. *)
Definition loud {A} (o : outcome A) (e : exn) : Prop :=
  o = Raises e /\ is_AttributeError e = false.

(** A computation extends the trace it is given. *)
Definition extends {A} (m : M A) : Prop :=
  forall tr, exists calls, snd (m tr) = tr ++ calls.

(** A success carries rows. *)
Definition well_formed (r : FetchResult) : Prop :=
  match r with
  | Failure _ => True
  | Success hist _ _ _ => hist <> []
  end.

(** No live entry under the key: the decorated function has to run. *)
Definition stale (ttl now : Z) (cache : gmap (string * string) CacheEntry)
    (key : string * string) : Prop :=
  match cache !! key with
  | Some en => live ttl now en = false
  | None => True
  end.

(** Running the decorated function and storing what it returns. *)
Definition run_and_store (f : string -> string -> M FetchResult) (now : Z)
    (symbol period : string) (cache : gmap (string * string) CacheEntry) (tr : list call)
  : outcome FetchResult * gmap (string * string) CacheEntry * list call :=
  match f symbol period tr with
  | (Returns r, tr') => (Returns r, <[(symbol, period) := mkEntry r now]> cache, tr')
  | (Raises e, tr') => (Raises e, cache, tr')
  end.

(** Every stored result is well formed. *)
Definition cache_well_formed (cache : gmap (string * string) CacheEntry) : Prop :=
  map_Forall (fun _ en => well_formed (stored en)) cache.


(** The history the two-tier retrieval settles on. *)
Definition retrieved (yf : Provider) (symbol period : string) (hist : DataFrame) : Prop :=
  hist <> [] /\
  (Ticker_history yf symbol period = Returns hist \/
   (Ticker_history yf symbol period = Returns [] /\
    yf_download yf symbol period = Returns hist)).

(** ** Statements about the fundamentals table *)

(** The row of a metrics table under a label. *)
Fixpoint row (label : string) (rows : list (string * value)) : option value :=
  match rows with
  | [] => None
  | (l, v) :: rest => if String.eqb l label then Some v else row label rest
  end.

(** Each label of the table, the profile key it is read from, and what is
    shown when the key is absent. *)
Definition field_table : list (string * string * value) :=
  [ ("Sector", "sector", VStr "N/A");
    ("Industry", "industry", VStr "N/A");
    ("Market Cap", "marketCap", VStr "N/A");
    ("PE Ratio", "trailingPE", VStr "N/A");
    ("EPS", "trailingEps", VStr "N/A");
    ("Dividend Yield", "dividendYield", VStr "0%") ].

Definition numeric (v : value) : bool :=
  match v with
  | VBool _ | VInt _ | VFloat _ => true
  | VNone | VStr _ => false
  end.

Definition is_float (v : value) : bool :=
  match v with
  | VFloat _ => true
  | _ => false
  end.

(** The entry under [k] is absent, falsy, or of the kind [p]. *)
Definition falsy_or (p : value -> bool) (d : gmap string value) (k : string) : bool :=
  match d !! k with
  | Some v => negb (truthy v) || p v
  | None => true
  end.

Definition is_digit (c : ascii) : bool :=
  (48 <=? nat_of_ascii c)%nat && (nat_of_ascii c <=? 57)%nat.

Definition is_comma (c : ascii) : bool := Ascii.eqb c ","%char.

Definition no_comma (c : ascii) : bool := negb (is_comma c).

(** The string without its commas. *)
Definition remove_commas (s : string) : string :=
  string_of_list_ascii (List.filter (fun c => negb (is_comma c)) (list_ascii_of_string s)).

(** The character [i] places from the right end of the string. *)
Definition from_right (s : string) (i : nat) : option ascii :=
  nth_error (rev (list_ascii_of_string s)) i.

(** A float that is neither NaN nor infinite. *)
Definition finite (x : float) : bool := negb (is_nan x) && negb (is_infinity x).


(** [h] hundredths is a decimal nearest to [m * 2^e]: no other multiple of a
    hundredth is closer. *)
Definition nearest_hundredths (m e h : Z) : Prop :=
  if 0 <=? e then h = m * 2 ^ e * 100
  else 2 * Z.abs (m * 100 - h * 2 ^ (- e)) <= 2 ^ (- e).

(** ** Statements about provider calls and results *)

Definition is_getattr (c : call) : bool :=
  match c with
  | CallGetattr _ _ => true
  | _ => false
  end.

(** One of the five provider reads of a run raises [e]. *)
Definition provider_raises (yf : Provider) (symbol period : string) (e : exn) : Prop :=
  Ticker_history yf symbol period = Raises e
  \/ yf_download yf symbol period = Raises e
  \/ Ticker_info yf symbol = Raises e
  \/ Ticker_financials yf symbol = Raises e
  \/ Ticker_recommendations yf symbol = Raises e.

(** The request is interrupted from the keyboard while prices are fetched. *)
Definition interrupted : Provider :=
  mkProvider (fun _ _ => Raises (Exn KeyboardInterrupt ""))
             (fun _ _ => Returns []) (fun _ => Returns ∅)
             (fun _ => Returns []) (fun _ => Returns []).

(** The connection is down. *)
Definition offline : Provider :=
  mkProvider (fun _ _ => Raises (Exn ProviderError "Connection refused"))
             (fun _ _ => Returns []) (fun _ => Returns ∅)
             (fun _ => Returns []) (fun _ => Returns []).

(** ** Statements about a series of cached calls *)

(** One call of the cached function: what the provider would answer, the
    time, and the arguments. *)
Record Request := mkRequest {
  req_provider : Provider;
  req_now : Z;
  req_symbol : string;
  req_period : string
}.

(** The cached function called once per request, in order, on the same
    cache. *)
Fixpoint serve_all (reqs : list Request)
    (cache : gmap (string * string) CacheEntry) (tr : list call)
  : gmap (string * string) CacheEntry * list call :=
  match reqs with
  | [] => (cache, tr)
  | rq :: rest =>
      let '(_, cache', tr') :=
        cached_get_stock_data (req_provider rq) (req_now rq) (req_symbol rq) (req_period rq)
          cache tr in
      serve_all rest cache' tr'
  end.

(** Every entry sits under a requested key, holds a well-formed result and
    bears the time of one of the requests for that key. *)
Definition entries_from (reqs : list Request)
    (cache : gmap (string * string) CacheEntry) : Prop :=
  forall key en, cache !! key = Some en ->
    well_formed (stored en)
    /\ exists rq, In rq reqs /\ key = (req_symbol rq, req_period rq)
                  /\ created en = req_now rq.

Definition busy_morning : list Request :=
  [ mkRequest healthy 0 "AAPL" "1y";
    mkRequest unlisted 10 "ZZZZ" "1y";
    mkRequest unlisted 20 "AAPL" "1y";
    mkRequest healthy 4000 "AAPL" "5d" ].

(** ** Further statements about the fundamentals table *)

(** The profile keys display_company_info reads. *)
Definition keys_read : list string :=
  ["sector"; "industry"; "marketCap"; "trailingPE"; "trailingEps"; "dividendYield"].

(** The labels whose value is shown as it is stored, with their keys. *)
Definition verbatim_fields : list (string * string) :=
  [("Sector", "sector"); ("Industry", "industry"); ("PE Ratio", "trailingPE");
   ("EPS", "trailingEps")].

(** The entry under the key is text that is not empty. *)
Definition text_entry (d : gmap string value) (k : string) : Prop :=
  exists s, d !! k = Some (VStr s) /\ s <> "".

(** The entry under the key is a nonzero int whose hundredfold is beyond the
    range of a float. *)
Definition huge_int_entry (d : gmap string value) (k : string) : Prop :=
  exists z e, d !! k = Some (VInt z) /\ z <> 0 /\ Fmt.float_of_int (z * 100) = Raises e.

(** Neither formatted field of the table fails on the profile. *)
Definition presentable (d : gmap string value) : Prop :=
  ~ text_entry d "marketCap"
  /\ ~ text_entry d "dividendYield"
  /\ ~ huge_int_entry d "dividendYield".


Definition whole_yield : gmap string value := {["dividendYield" := VInt 2]}.

(** Reading a run of decimal digits back as a number. *)
Definition read_digits (s : string) : option Z :=
  match NilZero.uint_of_string s with
  | Some d => Some (Z.of_N (N.of_uint d))
  | None => None
  end.

Definition huge_yield : gmap string value := {["dividendYield" := VInt (10 ^ 400)]}.
Definition null_sector : gmap string value :=
  <["sector" := VNone]> {["trailingPE" := VFloat 28.5]}.
Definition noisy_cap : gmap string value :=
  <["website" := VStr "https://example.com"]> big_cap.

(** ** Further statements about the report *)

(** The profile has no number under 'marketCap': the key is absent, or holds
    None or text. *)
Definition no_numeric_market_cap (info : gmap string value) : Prop :=
  match info !! "marketCap" with
  | Some v => numeric v = false
  | None => True
  end.

Definition not_nan (x : float) : bool := negb (is_nan x).

(** The last [n] entries of a list. *)
Definition last_n {A} (n : nat) (l : list A) : list A := skipn (length l - n) l.

(** What the running state of roll_mean holds once the rows before row [i]
    have gone through the loop: the number of observations in the window
    that ends there, and the length and the value of the run of equal
    observations that ends there. *)
Definition tracks (window : nat) (values : list float) (i : nat) (st : rolling.state)
  : Prop :=
  rolling.nobs st
    = Z.of_nat (length (List.filter not_nan (last_n window (firstn i values))))
  /\ 0 <= rolling.num_consecutive_same_value st
  /\ forall v k, (1 <= k <= i)%nat -> is_nan v = false ->
       last_n k (firstn i values) = repeat v k ->
       rolling.prev_value st = v
       /\ Z.of_nat k <= rolling.num_consecutive_same_value st.

(** Sixty days that close at 100.0 after the flat year. *)
Definition sixty_days : DataFrame :=
  map (fun day => quote_at (Z.of_nat day) 100%float) (seq 250 60).

(** A year that rose: 200 closes at 100.0, then 50 at 120.0. *)
Definition rising_year : DataFrame :=
  map (fun day => quote_at (Z.of_nat day) 100%float) (seq 0 200)
  ++ map (fun day => quote_at (Z.of_nat day) 120%float) (seq 200 50).

(** ** Statements about the page *)

(** Streamlit accepts every drawing call of the run. *)
Definition all_drawn (ui : Session) : Prop := forall p c, draws ui p c = Returns tt.

(** The world with more calls drawn. *)
Definition on_screen (w : World) (drawn : list (st.place * st.call)) : World :=
  mkWorld (cache w) (provider_calls w) (screen w ++ drawn).

(** What every run draws before the button is looked at. *)
Definition preamble : list (st.place * st.call) :=
  [ (st.page, st.set_page_config "Stock Analysis Pro" "wide");
    (st.page, st.title "📈 Stock Analysis Pro");
    (st.sidebar, st.header "⚙️ Settings");
    (st.sidebar, st.text_input "Stock Symbol" "AAPL");
    (st.sidebar, st.selectbox "Analysis Period" periods 5);
    (st.sidebar, st.selectbox "Analysis Type" analysis_types 0);
    (st.sidebar, st.button "🔍 Analyze") ].

Definition style_sheet : st.place * st.call := (st.page, st.markdown style true).

Definition prompt : st.place * st.call :=
  (st.page, st.info "👈 Enter a stock symbol and click 'Analyze' to get started").

(** The tabs and the first of them, up to the heading of the second. *)
Definition chart_part (symbol : string) (hist : DataFrame) : list (st.place * st.call) :=
  [ (st.page, st.tabs tab_names);
    (st.tab "📊 Price Chart", st.plotly_chart (create_stock_chart hist symbol));
    (st.tab "🏢 Company Info", st.subheader "📄 Company Overview") ].

(** The first two tabs of a report, up to the company table. *)
Definition chart_and_company (symbol : string) (hist : DataFrame) (company : Display)
  : list (st.place * st.call) :=
  chart_part symbol hist ++ [(st.tab "🏢 Company Info", st.dataframe (st.shown company))].

Definition financials_part (financials : Table) : list (st.place * st.call) :=
  if negb (table_empty financials)
  then [ (st.tab "🏢 Company Info", st.expander "📜 Financial Statements");
         (st.inside "🏢 Company Info" "📜 Financial Statements", st.write "Income Statement");
         (st.inside "🏢 Company Info" "📜 Financial Statements",
          st.dataframe (st.table financials)) ]
  else [].

Definition recommendations_part (recommendations : Table) : list (st.place * st.call) :=
  if negb (table_empty recommendations)
  then [ (st.tab "📈 Investment Analysis", st.expander "📊 Analyst Recommendations");
         (st.inside "📈 Investment Analysis" "📊 Analyst Recommendations",
          st.dataframe (st.table (tail 10 recommendations))) ]
  else [].

(** A result as get_stock_data makes them: an error with a message, or a
    success with rows. *)
Definition sound_result (r : FetchResult) : Prop :=
  match r with
  | Failure msg => msg <> ""
  | Success hist _ _ _ => hist <> []
  end.

Definition cache_sound (c : gmap (string * string) CacheEntry) : Prop :=
  map_Forall (fun _ en => sound_result (stored en)) c.

(** The exceptions a run of the script can end in. *)
Definition script_exception (e : exn) : Prop :=
  exn_class e = ValueError \/ exn_class e = TypeError \/ exn_class e = OverflowError
  \/ is_Exception e = false.

(** st.dataframe on the notice display_company_info returns for an empty
    profile. *)
Definition notice_frame : st.call :=
  st.dataframe (st.shown (Notice "No company information available")).

(** What a run of the script can end in: an exception of the script itself,
    or whatever a Streamlit call of the session raises. *)
Definition run_exception (ui : Session) (e : exn) : Prop :=
  script_exception e \/ exists p c, draws ui p c = Raises e.

(** A part of the script keeps the cache sound, ends in such exceptions
    only, and returns values with the property [post]. *)
Definition contained {A} (ui : Session) (m : Script A) (post : A -> Prop) : Prop :=
  forall w o w',
    cache_sound (cache w) -> m w = (o, w') ->
    cache_sound (cache w')
    /\ match o with
       | Returns a => post a
       | Raises e => run_exception ui e
       end.

(** Text made of ASCII characters. *)
Definition ascii_text (s : string) : bool :=
  forallb (fun c => (nat_of_ascii c <? 128)%nat) (list_ascii_of_string s).

Definition accepting (typed period : string) (clicked : bool) : Session :=
  mkSession typed period "Technical" clicked (fun _ _ => Returns tt).

(** A session in which Streamlit shows every call but st.dataframe on a
    text, which it cannot turn into a table (the wording of its message
    varies with the version). *)
Definition strict (typed period : string) (clicked : bool) : Session :=
  mkSession typed period "Technical" clicked
    (fun _ c =>
       match c with
       | st.dataframe (st.shown (Notice _)) =>
           Raises (Exn StreamlitError "Unable to convert object of type str to pandas.DataFrame")
       | _ => Returns tt
       end).

Definition fresh : World := mkWorld ∅ [] [].

(** A provider whose profile has a sector and no market cap. *)
Definition sector_only : Provider :=
  mkProvider (fun _ _ => Returns one_day) (fun _ _ => Returns [])
             (fun _ => Returns {["sector" := VStr "Technology"]})
             (fun _ => Returns []) (fun _ => Returns []).

(** ** The format model on sample values

    Each expected string is what CPython prints for the same value. *)

Example format_int_comma_samples :
  map Fmt.format_int_comma [0; 999; 1000; 1234567; 2500000000; -1000]
  = ["0"; "999"; "1,000"; "1,234,567"; "2,500,000,000"; "-1,000"].
Proof. reflexivity. Qed.

Example format_float_2f_samples :
  map Fmt.format_float_2f
    [100; 0.125; 0.375; 2.5; 1e22; (-0.5); (-0); infinity; neg_infinity; nan]%float
  = ["100.00"; "0.12"; "0.38"; "2.50"; "10000000000000000000000.00"; "-0.50"; "-0.00";
     "inf"; "-inf"; "nan"].
Proof. reflexivity. Qed.

Example float_repr_samples :
  map Fmt.float_repr
    [28.5; 100; 0.5; 1e16; 1e15; 2.5e9; 0x1.999999999999ap-4; 0x1.a36e2eb1c432dp-14;
     0x1.4f8b588e368f1p-17; 0x0.0000000000001p-1022; (-1234.5)]%float
  = ["28.5"; "100.0"; "0.5"; "1e+16"; "1000000000000000.0"; "2500000000.0"; "0.1"; "0.0001";
     "1e-05"; "5e-324"; "-1234.5"].
Proof. vm_compute. reflexivity. Qed.

Example format_float_comma_samples :
  map Fmt.format_float_comma [2.5e9; 1234567.5; 1e16; (-1234.5); 0.5]%float
  = ["2,500,000,000.0"; "1,234,567.5"; "1e+16"; "-1,234.5"; "0.5"].
Proof. vm_compute. reflexivity. Qed.

Example float_of_int_samples :
  Fmt.float_of_int (2 ^ 53 + 1) = Returns 9007199254740992%float
  /\ Fmt.float_of_int (2 ^ 1024)
       = Raises (Exn OverflowError "int too large to convert to float").
Proof. split; reflexivity. Qed.

Example rolling_mean_sample :
  rolling_mean 3 [1; 2; 3; 4; nan; 6; 7; 8; 9]%float
  = [nan; nan; 2; 3; nan; nan; nan; 7; 8]%float.
Proof. reflexivity. Qed.

(** The running sum carries rounding from rows that have left the window:
    the mean over 0.1, 0.2, 0.3 changes in its last places when a row comes
    before them. *)
Example rolling_mean_carries :
  last_value (rolling_mean 3 [0x1.999999999999ap-4; 0x1.999999999999ap-3;
                              0x1.3333333333333p-2]%float)
    = 0x1.9999999999999p-3%float
  /\ last_value (rolling_mean 3 [0x1.999999999999ap-4; 0x1.999999999999ap-4;
                                 0x1.999999999999ap-3; 0x1.3333333333333p-2]%float)
       = 0x1.999999999999bp-3%float.
Proof. split; reflexivity. Qed.

(** The report on the flat year, with the sample profile. *)
Example flat_year_report :
  exists report,
    generate_investment_analysis "AAPL" (Success flat_year apple_info [] []) = Returns report
    /\ contains "Current Price: $100.00  " report = true
    /\ contains "50-Day SMA: $100.00  " report = true
    /\ contains "200-Day SMA: $100.00  " report = true
    /\ contains "🔽 Bearish crossover signal" report = true
    /\ contains "- Sector: Technology  " report = true
    /\ contains "- Market Cap: $2,500,000,000  " report = true
    /\ contains "- P/E Ratio: N/A  " report = true.
Proof. eexists. split; [reflexivity|]. vm_compute. repeat split. Qed.

(** ** Substring search *)

Lemma prefix_append (s t : string) : String.prefix s (s +:+ t) = true.
Proof.
  induction s as [|c s IH]; simpl.
  - now destruct t.
  - destruct (ascii_dec c c) as [_|Hne]; [exact IH | now elim Hne].
Qed.

Lemma contains_prefix (sub s : string) : String.prefix sub s = true -> contains sub s = true.
Proof. intros H. destruct s; cbn [contains]; rewrite H; reflexivity. Qed.

Lemma prefix_refl (s : string) : String.prefix s s = true.
Proof.
  induction s as [|c s IH]; simpl; [reflexivity|].
  destruct (ascii_dec c c) as [_|Hne]; [exact IH | now elim Hne].
Qed.

Lemma contains_skip (sub before s : string) :
  contains sub s = true -> contains sub (before +:+ s) = true.
Proof.
  intros H. induction before as [|c before IH]; [exact H|].
  change (String c before +:+ s) with (String c (before +:+ s)).
  cbn [contains]. rewrite IH. apply orb_true_r.
Qed.

Lemma contains_middle (before sub after : string) :
  contains sub (before +:+ sub +:+ after) = true.
Proof. apply contains_skip, contains_prefix, prefix_append. Qed.

(** ** The fetch with fallback *)

Ltac run :=
  unfold get_stock_data, try_except_Exception, bind, ask, ret, getattr_if_hasattr;
  simpl.

Lemma empty_false {A} (l : list A) : l <> [] -> empty l = false.
Proof. destruct l; [congruence | reflexivity]. Qed.

Lemma both_empty_run (yf : Provider) (symbol period : string) (tr : list call) :
  Ticker_history yf symbol period = Returns [] ->
  yf_download yf symbol period = Returns [] ->
  get_stock_data yf symbol period tr
    = (Returns (Failure (no_data_message symbol)),
       tr ++ [CallHistory symbol period] ++ [CallDownload symbol period]).
Proof.
  intros Hprimary Hsecondary.
  run. rewrite Hprimary. simpl. rewrite Hsecondary. simpl.
  now rewrite <- app_assoc.
Qed.

(** C2: when both retrievals come back empty, the result is the error variant,
    its message names the requested symbol, and exactly the two retrieval calls
    were made. *)
Theorem both_empty_reports_symbol (yf : Provider) (symbol period : string) (tr : list call) :
  Ticker_history yf symbol period = Returns [] ->
  yf_download yf symbol period = Returns [] ->
  exists msg,
    get_stock_data yf symbol period tr
      = (Returns (Failure msg),
         tr ++ [CallHistory symbol period] ++ [CallDownload symbol period])
    /\ contains symbol msg = true.
Proof.
  intros Hprimary Hsecondary.
  exists (no_data_message symbol). split.
  - now apply both_empty_run.
  - apply contains_middle.
Qed.

Lemma both_empty_reports_symbol_witness :
  exists msg,
    get_stock_data unlisted "ZZZZ" "1y" []
      = (Returns (Failure msg), [CallHistory "ZZZZ" "1y"; CallDownload "ZZZZ" "1y"])
    /\ contains "ZZZZ" msg = true.
Proof. apply (both_empty_reports_symbol unlisted "ZZZZ" "1y" []); reflexivity. Defined.

Lemma getattr_quiet {A} (symbol attr : string) (o : outcome A) (d : A) (tr : list call) :
  quiet o ->
  getattr_if_hasattr symbol attr o d tr
    = (Returns (value_or d o), tr ++ attr_reads symbol attr o).
Proof.
  unfold getattr_if_hasattr, ask. destruct o as [a|e]; simpl; intros Hq.
  - now rewrite <- app_assoc.
  - now rewrite Hq.
Qed.

Lemma getattr_loud {A} (symbol attr : string) (e : exn) (d : A) (tr : list call) :
  is_AttributeError e = false ->
  getattr_if_hasattr symbol attr (Raises e) d tr
    = (Raises e, tr ++ [CallGetattr symbol attr]).
Proof. unfold getattr_if_hasattr, ask. simpl. now intros ->. Qed.

Lemma metadata_reads_no_download (yf : Provider) (symbol : string) :
  existsb is_download (metadata_reads yf symbol) = false.
Proof.
  unfold metadata_reads, attr_reads.
  destruct (Ticker_info yf symbol), (Ticker_financials yf symbol),
    (Ticker_recommendations yf symbol); reflexivity.
Qed.

(** The details once a history is in hand and the metadata reads are quiet. *)
Lemma details_quiet (yf : Provider) (symbol : string) (hist : DataFrame) (tr : list call) :
  quiet (Ticker_info yf symbol) ->
  quiet (Ticker_financials yf symbol) ->
  quiet (Ticker_recommendations yf symbol) ->
  fetch_details yf symbol hist tr
    = (Returns (assembled yf symbol hist), tr ++ metadata_reads yf symbol).
Proof.
  intros Hi Hf Hr. unfold fetch_details, bind, ret.
  rewrite (getattr_quiet _ _ _ _ _ Hi), (getattr_quiet _ _ _ _ _ Hf),
    (getattr_quiet _ _ _ _ _ Hr).
  unfold assembled, metadata_reads. now rewrite <- !app_assoc.
Qed.

(** Evaluation rules of the monad. *)
Lemma bind_ask_returns {A B} (c : call) (a : A) (k : A -> M B) (tr : list call) :
  bind (ask c (Returns a)) k tr = k a (tr ++ [c]).
Proof. reflexivity. Qed.

Lemma bind_ask_raises {A B} (c : call) (e : exn) (k : A -> M B) (tr : list call) :
  bind (ask c (Raises e)) k tr = (Raises e, tr ++ [c]).
Proof. reflexivity. Qed.

Lemma bind_ret {A B} (a : A) (k : A -> M B) (tr : list call) :
  bind (ret a) k tr = k a tr.
Proof. reflexivity. Qed.

Lemma try_returns {A} (body : M A) (handler : exn -> M A) (a : A) (tr tr' : list call) :
  body tr = (Returns a, tr') ->
  try_except_Exception body handler tr = (Returns a, tr').
Proof. unfold try_except_Exception. now intros ->. Qed.

Lemma try_raises {A} (body : M A) (handler : exn -> M A) (e : exn) (tr tr' : list call) :
  body tr = (Raises e, tr') ->
  try_except_Exception body handler tr
    = if is_Exception e then handler e tr' else (Raises e, tr').
Proof. unfold try_except_Exception. now intros ->. Qed.

(** A history with rows from the primary retrieval: the download is skipped. *)
Lemma primary_hit (yf : Provider) (symbol period : string) (hist : DataFrame) (tr : list call) :
  hist <> [] ->
  Ticker_history yf symbol period = Returns hist ->
  quiet (Ticker_info yf symbol) ->
  quiet (Ticker_financials yf symbol) ->
  quiet (Ticker_recommendations yf symbol) ->
  get_stock_data yf symbol period tr
    = (Returns (assembled yf symbol hist),
       tr ++ [CallHistory symbol period] ++ metadata_reads yf symbol).
Proof.
  intros Hrows Hprimary Hi Hf Hr.
  unfold get_stock_data. apply try_returns.
  rewrite Hprimary, bind_ask_returns, (empty_false _ Hrows), bind_ret,
    (empty_false _ Hrows).
  fold (fetch_details yf symbol hist).
  rewrite (details_quiet yf symbol hist _ Hi Hf Hr).
  now rewrite <- app_assoc.
Qed.

(** An empty primary result and a history with rows from the download. *)
Lemma secondary_hit (yf : Provider) (symbol period : string) (hist : DataFrame) (tr : list call) :
  hist <> [] ->
  Ticker_history yf symbol period = Returns [] ->
  yf_download yf symbol period = Returns hist ->
  quiet (Ticker_info yf symbol) ->
  quiet (Ticker_financials yf symbol) ->
  quiet (Ticker_recommendations yf symbol) ->
  get_stock_data yf symbol period tr
    = (Returns (assembled yf symbol hist),
       tr ++ [CallHistory symbol period; CallDownload symbol period]
          ++ metadata_reads yf symbol).
Proof.
  intros Hrows Hprimary Hsecondary Hi Hf Hr.
  unfold get_stock_data. apply try_returns.
  rewrite Hprimary, bind_ask_returns. cbn [empty].
  rewrite Hsecondary, bind_ask_returns, (empty_false _ Hrows).
  fold (fetch_details yf symbol hist).
  rewrite (details_quiet yf symbol hist _ Hi Hf Hr).
  now rewrite <- !app_assoc.
Qed.

(** C1, as amended: when no metadata read raises a fault other than an
    AttributeError absorbed by hasattr, a primary result with rows is returned
    as the history of a success and the download is never called; an empty
    primary result followed by a download with rows yields a success whose
    history is the downloaded one. *)
Theorem two_tier_retrieval (yf : Provider) (symbol period : string) (tr : list call) :
  quiet (Ticker_info yf symbol) ->
  quiet (Ticker_financials yf symbol) ->
  quiet (Ticker_recommendations yf symbol) ->
  (forall hist, hist <> [] ->
     Ticker_history yf symbol period = Returns hist ->
     exists calls,
       get_stock_data yf symbol period tr
         = (Returns (assembled yf symbol hist), tr ++ calls)
       /\ existsb is_download calls = false)
  /\
  (forall hist, hist <> [] ->
     Ticker_history yf symbol period = Returns [] ->
     yf_download yf symbol period = Returns hist ->
     exists calls,
       get_stock_data yf symbol period tr
         = (Returns (assembled yf symbol hist), tr ++ calls)).
Proof.
  intros Hi Hf Hr. split.
  - intros hist Hrows Hprimary.
    exists ([CallHistory symbol period] ++ metadata_reads yf symbol). split.
    + now apply primary_hit.
    + simpl. apply metadata_reads_no_download.
  - intros hist Hrows Hprimary Hsecondary. eexists.
    now apply secondary_hit.
Qed.

Lemma two_tier_retrieval_witness :
  (exists calls,
     get_stock_data healthy "AAPL" "1y" []
       = (Returns (Success one_day apple_info [] []), calls)
     /\ existsb is_download calls = false)
  /\
  (exists calls,
     get_stock_data download_only "AAPL" "1y" []
       = (Returns (Success one_day apple_info [] []), calls)).
Proof.
  split.
  - destruct (two_tier_retrieval healthy "AAPL" "1y" [] I I I) as [Hp _].
    apply (Hp one_day); [discriminate | reflexivity].
  - destruct (two_tier_retrieval download_only "AAPL" "1y" [] I I I) as [_ Hs].
    apply (Hs one_day); [discriminate | reflexivity | reflexivity].
Defined.

(** C1 as stated fails: the primary retrieval has rows, yet the result is the
    error variant, because the profile read raised. *)
Lemma primary_rows_yet_failure :
  Ticker_history rate_limited "AAPL" "1y" = Returns one_day
  /\ one_day <> []
  /\ get_stock_data rate_limited "AAPL" "1y" []
       = (Returns (Failure "⚠️ API Error: Too Many Requests"),
          [CallHistory "AAPL" "1y"; CallGetattr "AAPL" "info"]).
Proof. repeat split. discriminate. Qed.

(** ** Faults raised by the provider *)

Lemma details_info_loud yf symbol hist e tr :
  loud (Ticker_info yf symbol) e ->
  fetch_details yf symbol hist tr = (Raises e, tr ++ [CallGetattr symbol "info"]).
Proof.
  intros [Hraise Hloud]. unfold fetch_details, bind.
  now rewrite Hraise, (getattr_loud _ _ _ _ _ Hloud).
Qed.

Lemma details_financials_loud yf symbol hist e tr :
  quiet (Ticker_info yf symbol) ->
  loud (Ticker_financials yf symbol) e ->
  exists tr', fetch_details yf symbol hist tr = (Raises e, tr').
Proof.
  intros Hi [Hraise Hloud]. unfold fetch_details, bind.
  rewrite (getattr_quiet _ _ _ _ _ Hi), Hraise, (getattr_loud _ _ _ _ _ Hloud).
  eauto.
Qed.

Lemma details_recommendations_loud yf symbol hist e tr :
  quiet (Ticker_info yf symbol) ->
  quiet (Ticker_financials yf symbol) ->
  loud (Ticker_recommendations yf symbol) e ->
  exists tr', fetch_details yf symbol hist tr = (Raises e, tr').
Proof.
  intros Hi Hf [Hraise Hloud]. unfold fetch_details, bind.
  rewrite (getattr_quiet _ _ _ _ _ Hi), (getattr_quiet _ _ _ _ _ Hf), Hraise,
    (getattr_loud _ _ _ _ _ Hloud).
  eauto.
Qed.

(** A read is quiet or loud. *)
Lemma quiet_or_loud {A} (o : outcome A) : quiet o \/ exists e, loud o e.
Proof.
  destruct o as [a|e]; [now left|].
  destruct (is_AttributeError e) eqn:He; [now left | right; now exists e].
Qed.

Lemma quiet_not_loud {A} (o : outcome A) (e : exn) : quiet o -> loud o e -> False.
Proof. intros Hq [-> Hl]. simpl in Hq. congruence. Qed.

Lemma loud_unique {A} (o : outcome A) (e e' : exn) : loud o e -> loud o e' -> e = e'.
Proof. intros [-> _] [He _]. congruence. Qed.

Lemma loud_Exception {A} (o : outcome A) (e : exn) :
  raises_Exception o -> loud o e -> is_Exception e = true.
Proof. intros Hx [-> _]. exact Hx. Qed.

(** The guarded block of lines 27 to 38, under its handler: every Exception
    is turned into the error variant, absorbed AttributeErrors leave defaults. *)
Lemma details_contained yf symbol hist tr :
  raises_Exception (Ticker_info yf symbol) ->
  raises_Exception (Ticker_financials yf symbol) ->
  raises_Exception (Ticker_recommendations yf symbol) ->
  exists r tr',
    try_except_Exception (fetch_details yf symbol hist) on_Exception tr = (Returns r, tr')
    /\ (forall e, loud (Ticker_info yf symbol) e -> r = Failure (api_error_message e))
    /\ (forall e, quiet (Ticker_info yf symbol) ->
                  loud (Ticker_financials yf symbol) e ->
                  r = Failure (api_error_message e))
    /\ (forall e, quiet (Ticker_info yf symbol) ->
                  quiet (Ticker_financials yf symbol) ->
                  loud (Ticker_recommendations yf symbol) e ->
                  r = Failure (api_error_message e))
    /\ (quiet (Ticker_info yf symbol) ->
        quiet (Ticker_financials yf symbol) ->
        quiet (Ticker_recommendations yf symbol) ->
        r = assembled yf symbol hist).
Proof.
  intros Xi Xf Xr.
  destruct (quiet_or_loud (Ticker_info yf symbol)) as [Qi|[e Li]].
  2:{ exists (Failure (api_error_message e)), (tr ++ [CallGetattr symbol "info"]).
      split.
      - rewrite (try_raises _ _ _ _ _ (details_info_loud yf symbol hist e tr Li)).
        now rewrite (loud_Exception _ _ Xi Li).
      - repeat split; intros.
        + f_equal. f_equal. eauto using loud_unique.
        + exfalso; eauto using quiet_not_loud.
        + exfalso; eauto using quiet_not_loud.
        + exfalso; eauto using quiet_not_loud. }
  destruct (quiet_or_loud (Ticker_financials yf symbol)) as [Qf|[e Lf]].
  2:{ destruct (details_financials_loud yf symbol hist e tr Qi Lf) as [tr' Hrun].
      exists (Failure (api_error_message e)), tr'. split.
      - rewrite (try_raises _ _ _ _ _ Hrun).
        now rewrite (loud_Exception _ _ Xf Lf).
      - repeat split; intros.
        + exfalso; eauto using quiet_not_loud.
        + f_equal. f_equal. eauto using loud_unique.
        + exfalso; eauto using quiet_not_loud.
        + exfalso; eauto using quiet_not_loud. }
  destruct (quiet_or_loud (Ticker_recommendations yf symbol)) as [Qr|[e Lr]].
  2:{ destruct (details_recommendations_loud yf symbol hist e tr Qi Qf Lr) as [tr' Hrun].
      exists (Failure (api_error_message e)), tr'. split.
      - rewrite (try_raises _ _ _ _ _ Hrun).
        now rewrite (loud_Exception _ _ Xr Lr).
      - repeat split; intros.
        + exfalso; eauto using quiet_not_loud.
        + exfalso; eauto using quiet_not_loud.
        + f_equal. f_equal. eauto using loud_unique.
        + exfalso; eauto using quiet_not_loud. }
  exists (assembled yf symbol hist), (tr ++ metadata_reads yf symbol). split.
  - apply try_returns. now apply details_quiet.
  - repeat split; intros; try reflexivity; exfalso; eauto using quiet_not_loud.
Qed.

(** Once the retrieval has settled on a history with rows, what remains of
    get_stock_data is the guarded block under the handler. *)
Lemma after_retrieval yf symbol period hist tr :
  retrieved yf symbol period hist ->
  exists calls,
    get_stock_data yf symbol period tr
      = try_except_Exception (fetch_details yf symbol hist) on_Exception (tr ++ calls).
Proof.
  intros [Hrows [Hprimary | [Hprimary Hsecondary]]].
  - exists [CallHistory symbol period].
    unfold get_stock_data, try_except_Exception.
    now rewrite Hprimary, bind_ask_returns, (empty_false _ Hrows), bind_ret,
      (empty_false _ Hrows).
  - exists [CallHistory symbol period; CallDownload symbol period].
    unfold get_stock_data, try_except_Exception.
    rewrite Hprimary, bind_ask_returns. cbn [empty].
    rewrite Hsecondary, bind_ask_returns, (empty_false _ Hrows).
    now rewrite <- app_assoc.
Qed.

Lemma retrieved_functional yf symbol period hist hist' :
  retrieved yf symbol period hist -> retrieved yf symbol period hist' -> hist = hist'.
Proof.
  intros [Hrows [H1 | [H1 H2]]] [Hrows' [H1' | [H1' H2']]]; congruence.
Qed.

(** X1: an exception that leaves get_stock_data is no instance of Exception:
    whatever the provider does, every Exception is turned into a result. *)
Lemma only_non_Exceptions_escape yf symbol period tr e tr' :
  get_stock_data yf symbol period tr = (Raises e, tr') -> is_Exception e = false.
Proof.
  unfold get_stock_data, try_except_Exception.
  match goal with |- context [match ?body tr with _ => _ end] => destruct (body tr) as [[r|e0] tr0] end.
  - discriminate.
  - destruct (is_Exception e0) eqn:He0; [discriminate|].
    intros [= <- _]. exact He0.
Qed.

(** C3, as amended: when the faults the provider raises are instances of
    Exception, get_stock_data always returns a result.  A fault raised by
    either retrieval, or by a metadata read unless it is an AttributeError
    absorbed by hasattr, becomes the error variant whose message is
    "API Error: " followed by the fault's text (after a warning sign); an
    absorbed AttributeError leaves the default in place of the attribute. *)
Theorem faults_contained (yf : Provider) (symbol period : string) (tr : list call) :
  raises_Exception (Ticker_history yf symbol period) ->
  raises_Exception (yf_download yf symbol period) ->
  raises_Exception (Ticker_info yf symbol) ->
  raises_Exception (Ticker_financials yf symbol) ->
  raises_Exception (Ticker_recommendations yf symbol) ->
  exists r tr',
    get_stock_data yf symbol period tr = (Returns r, tr')
    /\ (forall e, Ticker_history yf symbol period = Raises e ->
                  r = Failure (api_error_message e))
    /\ (forall e, Ticker_history yf symbol period = Returns [] ->
                  yf_download yf symbol period = Raises e ->
                  r = Failure (api_error_message e))
    /\ (forall hist e, retrieved yf symbol period hist ->
                  loud (Ticker_info yf symbol) e ->
                  r = Failure (api_error_message e))
    /\ (forall hist e, retrieved yf symbol period hist ->
                  quiet (Ticker_info yf symbol) ->
                  loud (Ticker_financials yf symbol) e ->
                  r = Failure (api_error_message e))
    /\ (forall hist e, retrieved yf symbol period hist ->
                  quiet (Ticker_info yf symbol) ->
                  quiet (Ticker_financials yf symbol) ->
                  loud (Ticker_recommendations yf symbol) e ->
                  r = Failure (api_error_message e))
    /\ (forall hist, retrieved yf symbol period hist ->
                  quiet (Ticker_info yf symbol) ->
                  quiet (Ticker_financials yf symbol) ->
                  quiet (Ticker_recommendations yf symbol) ->
                  r = assembled yf symbol hist)
    /\ (forall e, contains ("API Error: " +:+ exn_str e) (api_error_message e) = true).
Proof.
  intros Xh Xd Xi Xf Xr.
  assert (Hform : forall e, contains ("API Error: " +:+ exn_str e) (api_error_message e) = true).
  { intros e.
    change (api_error_message e) with ("⚠️ " +:+ ("API Error: " +:+ exn_str e)).
    apply contains_skip, contains_prefix, prefix_refl. }
  destruct (Ticker_history yf symbol period) as [primary|e] eqn:Hprimary.
  2:{ (* the primary retrieval raises *)
      exists (Failure (api_error_message e)), (tr ++ [CallHistory symbol period]).
      split.
      - unfold get_stock_data.
        erewrite try_raises by (rewrite Hprimary; apply bind_ask_raises).
        simpl in Xh. now rewrite Xh.
      - repeat split; try exact Hform; intros.
        + congruence.
        + congruence.
        + destruct H as [_ [?|[? _]]]; congruence.
        + destruct H as [_ [?|[? _]]]; congruence.
        + destruct H as [_ [?|[? _]]]; congruence.
        + destruct H as [_ [?|[? _]]]; congruence. }
  destruct primary as [|q primary].
  - destruct (yf_download yf symbol period) as [secondary|e] eqn:Hsecondary.
    2:{ (* the download raises *)
        exists (Failure (api_error_message e)),
          ((tr ++ [CallHistory symbol period]) ++ [CallDownload symbol period]).
        split.
        - unfold get_stock_data.
          erewrite try_raises.
          2:{ rewrite Hprimary, bind_ask_returns. cbn [empty]. rewrite Hsecondary.
              apply bind_ask_raises. }
          simpl in Xd. now rewrite Xd.
        - repeat split; try exact Hform; intros.
          + congruence.
          + congruence.
          + destruct H as [Hrows [?|[_ ?]]]; congruence.
          + destruct H as [Hrows [?|[_ ?]]]; congruence.
          + destruct H as [Hrows [?|[_ ?]]]; congruence.
          + destruct H as [Hrows [?|[_ ?]]]; congruence. }
    destruct secondary as [|q secondary].
    + (* both retrievals are empty *)
      exists (Failure (no_data_message symbol)). eexists.
      split; [exact (both_empty_run yf symbol period tr Hprimary Hsecondary)|].
      repeat split; try exact Hform; intros; try congruence;
        destruct H as [Hrows [?|[_ ?]]]; congruence.
    + (* the download has rows *)
      assert (Hret : retrieved yf symbol period (q :: secondary))
        by (split; [discriminate | right; split; [exact Hprimary | exact Hsecondary]]).
      rewrite <- Hprimary, <- Hsecondary in *.
      destruct (after_retrieval yf symbol period _ tr Hret) as [calls Hrun].
      destruct (details_contained yf symbol (q :: secondary) (tr ++ calls) Xi Xf Xr)
        as (r & tr' & Hdet & Ci & Cf & Cr & Cq).
      exists r, tr'. split; [now rewrite Hrun|].
      rewrite Hprimary, Hsecondary.
      repeat split; try exact Hform; intros; try congruence;
        try (rewrite <- (retrieved_functional _ _ _ _ _ Hret H)); eauto.
  - (* the primary retrieval has rows *)
    assert (Hret : retrieved yf symbol period (q :: primary))
      by (split; [discriminate | left; exact Hprimary]).
    rewrite <- Hprimary in *.
    destruct (after_retrieval yf symbol period _ tr Hret) as [calls Hrun].
    destruct (details_contained yf symbol (q :: primary) (tr ++ calls) Xi Xf Xr)
      as (r & tr' & Hdet & Ci & Cf & Cr & Cq).
    exists r, tr'. split; [now rewrite Hrun|].
    rewrite Hprimary.
    repeat split; try exact Hform; intros; try congruence;
      try (rewrite <- (retrieved_functional _ _ _ _ _ Hret H)); eauto.
Qed.

Lemma faults_contained_witness :
  exists r tr',
    get_stock_data rate_limited "AAPL" "1y" [] = (Returns r, tr')
    /\ r = Failure "⚠️ API Error: Too Many Requests".
Proof.
  destruct (faults_contained rate_limited "AAPL" "1y" [] I I eq_refl I I)
    as (r & tr' & Hrun & _ & _ & Hinfo & _).
  exists r, tr'. split; [exact Hrun|].
  apply (Hinfo one_day (Exn ProviderError "Too Many Requests")).
  - split; [discriminate | left; reflexivity].
  - split; reflexivity.
Defined.

(** C3 as stated fails: an AttributeError raised while the profile is read is
    a provider fault, yet the result is a success with an empty profile, not
    an "API Error" message. *)
Lemma absorbed_fault_is_no_api_error :
  Ticker_info malformed_profile "AAPL"
    = Raises (Exn AttributeError "'NoneType' object has no attribute 'get'")
  /\ get_stock_data malformed_profile "AAPL" "1y" []
       = (Returns (Success one_day ∅ [] []),
          [CallHistory "AAPL" "1y"; CallGetattr "AAPL" "info";
           CallGetattr "AAPL" "financials"; CallGetattr "AAPL" "financials";
           CallGetattr "AAPL" "recommendations"; CallGetattr "AAPL" "recommendations"]).
Proof. split; reflexivity. Qed.

(** ** Successes carry rows *)

(** What the guarded block returns is an error or a success on its history. *)
Lemma details_history yf symbol hist tr r tr' :
  try_except_Exception (fetch_details yf symbol hist) on_Exception tr = (Returns r, tr') ->
  (exists msg, r = Failure msg) \/ (exists i f rc, r = Success hist i f rc).
Proof.
  unfold try_except_Exception, fetch_details, on_Exception, bind, ret,
    getattr_if_hasattr, ask.
  destruct (Ticker_info yf symbol) as [i|ei]; [|destruct (is_AttributeError ei)];
    (destruct (Ticker_financials yf symbol) as [f|ef]; [|destruct (is_AttributeError ef)]);
    (destruct (Ticker_recommendations yf symbol) as [rc|er];
       [|destruct (is_AttributeError er)]);
    cbv beta iota;
    repeat match goal with
           | |- context [is_Exception ?e] => destruct (is_Exception e)
           end;
    intros [= <- _]; eauto.
Qed.

(** The three ways get_stock_data can end. *)
Lemma get_stock_data_cases yf symbol period tr :
  (exists hist calls,
     retrieved yf symbol period hist /\
     get_stock_data yf symbol period tr
       = try_except_Exception (fetch_details yf symbol hist) on_Exception (tr ++ calls))
  \/ (exists msg tr', get_stock_data yf symbol period tr = (Returns (Failure msg), tr'))
  \/ (exists e tr', get_stock_data yf symbol period tr = (Raises e, tr')).
Proof.
  destruct (Ticker_history yf symbol period) as [[|q primary]|e] eqn:Hprimary.
  - destruct (yf_download yf symbol period) as [[|q secondary]|e] eqn:Hsecondary.
    + right; left. eauto using both_empty_run.
    + left. exists (q :: secondary).
      assert (Hret : retrieved yf symbol period (q :: secondary))
        by (split; [discriminate | right; split; assumption]).
      destruct (after_retrieval yf symbol period _ tr Hret) as [calls Hrun]. eauto.
    + unfold get_stock_data.
      erewrite try_raises.
      2:{ rewrite Hprimary, bind_ask_returns. cbn [empty]. rewrite Hsecondary.
          apply bind_ask_raises. }
      destruct (is_Exception e); [right; left | right; right]; unfold ret; eauto.
  - left. exists (q :: primary).
    assert (Hret : retrieved yf symbol period (q :: primary))
      by (split; [discriminate | left; assumption]).
    destruct (after_retrieval yf symbol period _ tr Hret) as [calls Hrun]. eauto.
  - unfold get_stock_data.
    erewrite try_raises by (rewrite Hprimary; apply bind_ask_raises).
    destruct (is_Exception e); [right; left | right; right]; unfold ret; eauto.
Qed.

Lemma get_stock_data_well_formed yf symbol period tr r tr' :
  get_stock_data yf symbol period tr = (Returns r, tr') -> well_formed r.
Proof.
  intros Hrun.
  destruct (get_stock_data_cases yf symbol period tr)
    as [(hist & calls & [Hrows _] & Heq) | [(msg & tr0 & Heq) | (e & tr0 & Heq)]];
    rewrite Heq in Hrun.
  - destruct (details_history _ _ _ _ _ _ Hrun) as [[msg ->] | (i & f & rc & ->)];
      [exact I | exact Hrows].
  - injection Hrun as <- _. exact I.
  - discriminate.
Qed.

(** ** The cache *)

Lemma cache_hit ttl f now symbol period cache tr en :
  cache !! (symbol, period) = Some en ->
  live ttl now en = true ->
  cache_data ttl f now symbol period cache tr = (Returns (stored en), cache, tr).
Proof. unfold cache_data. now intros -> ->. Qed.

Lemma cache_miss ttl f now symbol period cache tr :
  stale ttl now cache (symbol, period) ->
  cache_data ttl f now symbol period cache tr
    = run_and_store f now symbol period cache tr.
Proof.
  unfold stale, cache_data, run_and_store.
  destruct (cache !! (symbol, period)) as [en|]; [now intros -> | reflexivity].
Qed.

Lemma live_or_stale ttl now cache key :
  (exists en, cache !! key = Some en /\ live ttl now en = true) \/ stale ttl now cache key.
Proof.
  unfold stale. destruct (cache !! key) as [en|]; [|now right].
  destruct (live ttl now en) eqn:Hl; [left; eauto | now right].
Qed.

(** A returning call leaves an entry that holds the value returned. *)
Lemma cache_data_stores ttl f now symbol period cache tr r cache' tr' :
  cache_data ttl f now symbol period cache tr = (Returns r, cache', tr') ->
  exists en, cache' !! (symbol, period) = Some en /\ stored en = r.
Proof.
  destruct (live_or_stale ttl now cache (symbol, period)) as [(en & Hen & Hl)|Hs].
  - rewrite (cache_hit _ _ _ _ _ _ _ _ Hen Hl). intros [= <- <- _]. eauto.
  - rewrite (cache_miss _ _ _ _ _ _ _ Hs). unfold run_and_store.
    destruct (f symbol period tr) as [[r0|e] tr0]; [|discriminate].
    intros [= <- <- _]. exists (mkEntry r0 now). split; [apply lookup_insert_eq | reflexivity].
Qed.

(** C4: get_stock_data never returns a success whose history is empty, and
    the cached function, started from a cache of well-formed results, never
    does either and keeps the cache well formed. *)
Theorem success_has_rows :
  (forall yf symbol period tr hist info financials recommendations tr',
      get_stock_data yf symbol period tr
        = (Returns (Success hist info financials recommendations), tr') ->
      empty hist = false)
  /\
  (forall yf now symbol period cache tr r cache' tr',
      cache_well_formed cache ->
      cached_get_stock_data yf now symbol period cache tr = (Returns r, cache', tr') ->
      well_formed r /\ cache_well_formed cache').
Proof.
  split.
  - intros yf symbol period tr hist info financials recommendations tr' Hrun.
    apply get_stock_data_well_formed in Hrun. now apply empty_false.
  - intros yf now symbol period cache tr r cache' tr' Hwf.
    unfold cached_get_stock_data.
    destruct (live_or_stale 3600 now cache (symbol, period)) as [(en & Hen & Hl)|Hs].
    + rewrite (cache_hit _ _ _ _ _ _ _ _ Hen Hl). intros [= <- <- _].
      split; [exact (Hwf _ _ Hen) | exact Hwf].
    + rewrite (cache_miss _ _ _ _ _ _ _ Hs). unfold run_and_store.
      destruct (get_stock_data yf symbol period tr) as [[r0|e] tr0] eqn:Hrun;
        [|discriminate].
      intros [= <- <- _].
      pose proof (get_stock_data_well_formed _ _ _ _ _ _ Hrun) as Hr0.
      split; [exact Hr0|]. now apply map_Forall_insert_2.
Qed.

Lemma success_has_rows_witness :
  empty one_day = false
  /\ well_formed (Success one_day apple_info [] []).
Proof.
  destruct success_has_rows as [Hdirect Hcached]. split.
  - apply (Hdirect healthy "AAPL" "1y" [] one_day apple_info [] []
             [CallHistory "AAPL" "1y"; CallGetattr "AAPL" "info"; CallGetattr "AAPL" "info";
              CallGetattr "AAPL" "financials"; CallGetattr "AAPL" "financials";
              CallGetattr "AAPL" "recommendations"; CallGetattr "AAPL" "recommendations"]).
    reflexivity.
  - eapply (Hcached healthy 0 "AAPL" "1y" ∅ []).
    + apply map_Forall_empty.
    + reflexivity.
Defined.

(** *** Provider calls only accumulate *)

Lemma extends_ret {A} (a : A) : extends (ret a).
Proof. intros tr. exists []. simpl. now rewrite app_nil_r. Qed.

Lemma extends_ask {A} (c : call) (o : outcome A) : extends (ask c o).
Proof. intros tr. now exists [c]. Qed.


Lemma extends_try {A} (body : M A) (handler : exn -> M A) :
  extends body -> (forall e, extends (handler e)) -> extends (try_except_Exception body handler).
Proof.
  intros Hb Hh tr. unfold try_except_Exception. destruct (Hb tr) as [calls Hcalls].
  destruct (body tr) as [[a|e] tr1]; simpl in Hcalls; subst tr1.
  - now exists calls.
  - destruct (is_Exception e); [|now exists calls].
    destruct (Hh e (tr ++ calls)) as [calls' Hcalls'].
    exists (calls ++ calls'). now rewrite Hcalls', app_assoc.
Qed.

Lemma extends_getattr {A} symbol attr (o : outcome A) (d : A) :
  extends (getattr_if_hasattr symbol attr o d).
Proof.
  intros tr. unfold getattr_if_hasattr, ask. destruct o as [a|e]; simpl.
  - exists [CallGetattr symbol attr; CallGetattr symbol attr]. now rewrite <- app_assoc.
  - destruct (is_AttributeError e); now exists [CallGetattr symbol attr].
Qed.

Create HintDb trace.
#[local] Hint Resolve extends_ret extends_ask extends_getattr : trace.






(** ** Moving averages *)

Lemma is_nan_Prim2SF (x : float) : is_nan x = true -> Prim2SF x = S754_nan.
Proof.
  unfold is_nan. rewrite FloatAxioms.eqb_spec.
  destruct (Prim2SF x) as [s|s| |s m e]; try reflexivity; unfold SFeqb, SFcompare.
  - discriminate.
  - destruct s; discriminate.
  - rewrite Z.compare_refl, Pos.compare_cont_refl. destruct s; discriminate.
Qed.

(** Nothing is below a NaN. *)
Lemma ltb_nan_r (x y : float) : is_nan y = true -> (x <? y)%float = false.
Proof.
  intros Hy. rewrite FloatAxioms.ltb_spec, (is_nan_Prim2SF y Hy).
  unfold SFltb, SFcompare. now destruct (Prim2SF x).
Qed.

(** Nor is a NaN below anything. *)
Lemma ltb_nan_l (x y : float) : is_nan x = true -> (x <? y)%float = false.
Proof.
  intros Hx. rewrite FloatAxioms.ltb_spec, (is_nan_Prim2SF x Hx). reflexivity.
Qed.

(** *** The running state of roll_mean *)

Lemma skipn_nth_cons {A} (n : nat) (l : list A) (d : A) :
  (n < length l)%nat -> skipn n l = nth n l d :: skipn (S n) l.
Proof.
  revert l. induction n as [|n IH]; intros [|a l] Hn; cbn in *; try lia; [reflexivity|].
  apply IH. lia.
Qed.

Lemma last_n_length {A} (n : nat) (l : list A) : (length (last_n n l) <= n)%nat.
Proof. unfold last_n. rewrite length_skipn. lia. Qed.

Lemma last_n_snoc {A} (n : nat) (l : list A) (x : A) :
  (1 <= n)%nat -> last_n n (l ++ [x]) = last_n (n - 1) l ++ [x].
Proof.
  intros Hn. unfold last_n. rewrite length_app, skipn_app. cbn [length].
  replace (length l + 1 - n)%nat with (length l - (n - 1))%nat by lia.
  replace (length l - (n - 1) - length l)%nat with 0%nat by lia. reflexivity.
Qed.

Lemma last_n_cons {A} (n : nat) (l : list A) (d : A) :
  (1 <= n <= length l)%nat ->
  last_n n l = nth (length l - n) l d :: last_n (n - 1) l.
Proof.
  intros Hn. unfold last_n. rewrite (skipn_nth_cons (length l - n) l d) by lia.
  do 2 f_equal. lia.
Qed.

Lemma last_n_short {A} (n : nat) (l : list A) :
  (length l < n)%nat -> last_n n l = last_n (n - 1) l.
Proof.
  intros Hn. unfold last_n.
  replace (length l - n)%nat with 0%nat by lia.
  replace (length l - (n - 1))%nat with 0%nat by lia. reflexivity.
Qed.

Lemma firstn_snoc {A} (i : nat) (l : list A) (d : A) :
  (i < length l)%nat -> firstn (S i) l = firstn i l ++ [nth i l d].
Proof.
  revert l. induction i as [|i IH]; intros [|a l] Hi; cbn in *; try lia; [reflexivity|].
  f_equal. apply IH. lia.
Qed.

Lemma nth_firstn_below {A} (j i : nat) (l : list A) (d : A) :
  (j < i)%nat -> nth j (firstn i l) d = nth j l d.
Proof.
  revert i l. induction j as [|j IH]; intros [|i] [|a l] Hj; cbn; try lia; try reflexivity.
  apply IH. lia.
Qed.

Lemma slice_one (values : list float) (i : nat) :
  (i < length values)%nat -> rolling.slice values i (S i) = [nth i values nan].
Proof.
  intros Hi. unfold rolling.slice.
  rewrite (skipn_nth_cons i values nan Hi).
  replace (S i - i)%nat with 1%nat by lia. reflexivity.
Qed.

Lemma slice_none (values : list float) (i : nat) : rolling.slice values i i = [].
Proof. unfold rolling.slice. now rewrite Nat.sub_diag. Qed.

Lemma not_nan_eqb (x : float) : not_nan x = (x =? x)%float.
Proof. unfold not_nan, is_nan. apply negb_involutive. Qed.

(** An observation entering the window, on the parts of the state that
    count. *)
Lemma add_mean_counts (val : float) (st : rolling.state) :
  rolling.nobs (rolling.add_mean val st)
    = rolling.nobs st + Z.of_nat (length (List.filter not_nan [val]))
  /\ (0 <= rolling.num_consecutive_same_value st ->
      0 <= rolling.num_consecutive_same_value (rolling.add_mean val st))
  /\ (is_nan val = false ->
      rolling.prev_value (rolling.add_mean val st) = val
      /\ 1 <= rolling.num_consecutive_same_value (rolling.add_mean val st)
         \/ 0 > rolling.num_consecutive_same_value st)
  /\ (is_nan val = false -> rolling.prev_value st = val ->
      rolling.num_consecutive_same_value (rolling.add_mean val st)
        = rolling.num_consecutive_same_value st + 1).
Proof.
  unfold rolling.add_mean. cbn [List.filter]. rewrite not_nan_eqb. unfold is_nan.
  destruct (val =? val)%float eqn:Hval; cbn [rolling.nobs rolling.prev_value
    rolling.num_consecutive_same_value length negb].
  - split; [lia|]. split; [|split].
    + intros H. destruct (val =? rolling.prev_value st)%float; lia.
    + intros _. destruct (val =? rolling.prev_value st)%float.
      * destruct (Z_lt_le_dec (rolling.num_consecutive_same_value st) 0); [right; lia|].
        left. split; [reflexivity | lia].
      * left. split; [reflexivity | lia].
    + intros _ ->. now rewrite Hval.
  - split; [lia|]. split; [auto|]. split; discriminate.
Qed.

(** An observation leaving the window. *)
Lemma remove_mean_counts (val : float) (st : rolling.state) :
  rolling.nobs (rolling.remove_mean val st)
    = rolling.nobs st - Z.of_nat (length (List.filter not_nan [val]))
  /\ rolling.num_consecutive_same_value (rolling.remove_mean val st)
       = rolling.num_consecutive_same_value st
  /\ rolling.prev_value (rolling.remove_mean val st) = rolling.prev_value st.
Proof.
  unfold rolling.remove_mean. cbn [List.filter]. rewrite not_nan_eqb.
  destruct (val =? val)%float; cbn; repeat split; lia.
Qed.

(** Past the first row, a window of at least two rows always shares rows
    with the one before: one row is added, and one removed once the window
    is full. *)
Lemma next_state_step (values : list float) (window i : nat) (st : rolling.state) :
  (2 <= window)%nat -> (1 <= i < length values)%nat ->
  rolling.next_state values window i st
    = rolling.add_mean (nth i values nan)
        (if (window <=? i)%nat
         then rolling.remove_mean (nth (i - window) values nan) st else st).
Proof.
  intros Hw Hi. unfold rolling.next_state, rolling.window_start, rolling.window_end.
  destruct (Nat.eqb_spec i 0) as [|_]; [lia|].
  destruct (Nat.leb_spec (i - 1 + 1) (i + 1 - window)) as [|_]; [lia|].
  cbn [orb].
  replace (i - 1 + 1)%nat with i by lia. replace (i + 1)%nat with (S i) by lia.
  rewrite (slice_one values i) by lia. cbn [fold_left].
  destruct (Nat.leb_spec window i) as [Hfull|Hfill].
  - replace (S i - window)%nat with (S (i - window)) by lia.
    rewrite (slice_one values (i - window)) by lia. reflexivity.
  - replace (i - window)%nat with 0%nat by lia.
    replace (S i - window)%nat with 0%nat by lia.
    now rewrite slice_none.
Qed.

Lemma next_state_first (values : list float) (window : nat) (st : rolling.state) :
  (0 < length values)%nat -> (1 <= window)%nat ->
  rolling.next_state values window 0 st
    = rolling.add_mean (nth 0 values nan) (rolling.setup values 0).
Proof.
  intros Hlen Hw. unfold rolling.next_state, rolling.window_start, rolling.window_end.
  cbn [Nat.eqb orb]. replace (0 + 1 - window)%nat with 0%nat by lia.
  replace (0 + 1)%nat with 1%nat by lia.
  now rewrite (slice_one values 0 Hlen).
Qed.

Lemma filter_length_app {A} (f : A -> bool) (l l' : list A) :
  length (List.filter f (l ++ l'))
    = (length (List.filter f l) + length (List.filter f l'))%nat.
Proof. now rewrite List.filter_app, length_app. Qed.

Lemma repeat_snoc {A} (v : A) (k : nat) : repeat v (S k) = repeat v k ++ [v].
Proof. induction k as [|k IH]; [reflexivity|]. cbn in *. now rewrite <- IH. Qed.

(** The state keeps track as the loop moves one row down. *)
Lemma tracks_step (values : list float) (window i : nat) (st : rolling.state) :
  (1 <= window)%nat -> (i < length values)%nat ->
  tracks window values i st ->
  tracks window values (S i)
    (rolling.add_mean (nth i values nan)
       (if (window <=? i)%nat
        then rolling.remove_mean (nth (i - window) values nan) st else st)).
Proof.
  intros Hw Hi (Hnobs & Hrun0 & Hrun).
  assert (Hlen : length (firstn i values) = i) by (rewrite length_firstn; lia).
  set (st1 := if (window <=? i)%nat
              then rolling.remove_mean (nth (i - window) values nan) st else st).
  assert (H1 : rolling.nobs st1
                 = Z.of_nat (length (List.filter not_nan
                                       (last_n (window - 1) (firstn i values))))
               /\ rolling.num_consecutive_same_value st1
                    = rolling.num_consecutive_same_value st
               /\ rolling.prev_value st1 = rolling.prev_value st).
  { subst st1. destruct (Nat.leb_spec window i) as [Hfull|Hfill].
    - destruct (remove_mean_counts (nth (i - window) values nan) st) as (Hn & Hc & Hp).
      split; [|auto]. rewrite Hn, Hnobs.
      rewrite (last_n_cons window (firstn i values) nan) by lia.
      rewrite Hlen, nth_firstn_below by lia.
      cbn [List.filter]. destruct (not_nan (nth (i - window) values nan)); cbn [length]; lia.
    - split; [|auto]. rewrite Hnobs. now rewrite last_n_short by lia. }
  destruct H1 as (Hnobs1 & Hc1 & Hp1).
  destruct (add_mean_counts (nth i values nan) st1) as (Hn & Hpos & Hnew & Hsame).
  unfold tracks. rewrite (firstn_snoc i values nan Hi).
  split; [|split].
  - rewrite Hn, Hnobs1, last_n_snoc, filter_length_app by lia. lia.
  - apply Hpos. lia.
  - intros v k Hk Hv Hlast.
    rewrite last_n_snoc in Hlast by lia.
    replace k with (S (k - 1)) in Hlast at 2 by lia.
    rewrite repeat_snoc in Hlast. apply app_inj_tail in Hlast as [Hbefore Hx].
    rewrite Hx in *.
    destruct (Nat.eq_dec k 1%nat) as [->|Hk1].
    + destruct (Hnew Hv) as [[Hp Hc]|Hneg]; [|lia]. split; [exact Hp | lia].
    + destruct (Hrun v (k - 1)%nat ltac:(lia) Hv Hbefore) as [Hp Hc].
      destruct (Hnew Hv) as [[Hp' _]|Hneg]; [|lia]. split; [exact Hp'|].
      rewrite Hsame by congruence. lia.
Qed.

Lemma tracks_first (values : list float) (window : nat) :
  (1 <= window)%nat -> (0 < length values)%nat ->
  tracks window values 1 (rolling.add_mean (nth 0 values nan) (rolling.setup values 0)).
Proof.
  intros Hw Hlen.
  assert (H0 : tracks window values 0 (rolling.setup values 0)).
  { split; [|split]; [reflexivity | cbn; lia | intros v k Hk; lia]. }
  pose proof (tracks_step values window 0 (rolling.setup values 0) Hw Hlen H0) as H.
  destruct (Nat.leb_spec window 0); [lia | exact H].
Qed.

(** The last mean the loop gives out is the mean of a state that tracks the
    whole series. *)
Lemma roll_loop_last (values : list float) (window : nat) (minp : Z) :
  (2 <= window)%nat ->
  forall n a st, (1 <= a)%nat -> (a + n)%nat = length values ->
    tracks window values a st ->
    exists st',
      tracks window values (length values) st'
      /\ List.last (rolling.calc_mean minp st
                      :: rolling.roll_loop values window minp (seq a n) st) nan
         = rolling.calc_mean minp st'.
Proof.
  intros Hw. induction n as [|n IH]; intros a st Ha Hlen Htracks.
  - exists st. replace (length values) with a by lia. auto.
  - cbn [seq rolling.roll_loop].
    rewrite (next_state_step values window a st Hw) by lia.
    pose proof (tracks_step values window a st ltac:(lia) ltac:(lia) Htracks) as Hnext.
    destruct (IH (S a) _ ltac:(lia) ltac:(lia) Hnext) as (st' & Hst' & Hlast).
    exists st'. split; [exact Hst'|]. exact Hlast.
Qed.

Lemma rolling_mean_last (window : nat) (xs : list float) :
  (2 <= window)%nat -> xs <> [] ->
  exists st,
    last_value (rolling_mean window xs) = rolling.calc_mean (Z.of_nat window) st
    /\ rolling.nobs st
         = Z.of_nat (length (List.filter not_nan (last_n window (rolling.prep_values xs))))
    /\ forall v k, (1 <= k <= length xs)%nat -> is_nan v = false ->
         last_n k (rolling.prep_values xs) = repeat v k ->
         rolling.prev_value st = v
         /\ Z.of_nat k <= rolling.num_consecutive_same_value st.
Proof.
  intros Hw Hne. unfold last_value, rolling_mean, rolling.roll_mean.
  set (values := rolling.prep_values xs).
  assert (Hlen : length values = length xs) by apply length_map.
  assert (Hsome : exists n, length values = S n).
  { destruct xs; [congruence|]. cbn in Hlen. eauto. }
  destruct Hsome as [n Hn]. rewrite Hn. cbn [seq rolling.roll_loop].
  rewrite next_state_first by lia.
  destruct (roll_loop_last values window (Z.of_nat window) Hw n 1
              (rolling.add_mean (nth 0 values nan) (rolling.setup values 0)))
    as (st & (Hnobs & _ & Hrun) & Hlast); [lia | lia | apply tracks_first; lia |].
  rewrite firstn_all in Hnobs, Hrun. rewrite Hlen in Hrun.
  exists st. auto.
Qed.

(** With fewer observations than the window, the last rolling mean is NaN. *)
Lemma rolling_mean_short (window : nat) (xs : list float) :
  (2 <= window)%nat -> (length xs < window)%nat ->
  last_value (rolling_mean window xs) = nan.
Proof.
  intros Hw Hshort. destruct xs as [|x xs]; [reflexivity|].
  destruct (rolling_mean_last window (x :: xs) Hw ltac:(discriminate))
    as (st & -> & Hnobs & _).
  unfold rolling.calc_mean.
  set (seen := last_n window (rolling.prep_values (x :: xs))) in *.
  pose proof (List.filter_length_le not_nan seen) as Hle.
  assert (Hlen : (length seen <= length (x :: xs))%nat).
  { subst seen. unfold last_n, rolling.prep_values. rewrite length_skipn, length_map. lia. }
  destruct (Z.leb_spec (Z.of_nat window) (rolling.nobs st)); [lia | reflexivity].
Qed.

Lemma last_all (xs : list float) (v : float) :
  Forall (fun m => m = v) xs -> List.last xs v = v.
Proof.
  induction 1 as [|x xs Hx _ IH]; [reflexivity|].
  destruct xs; [exact Hx | exact IH].
Qed.

Lemma closes_length (hist : DataFrame) : length (closes hist) = length hist.
Proof. apply length_map. Qed.

(** C6, as amended: with fewer than 50 observations the 50-row average is
    NaN, with fewer than 200 the 200-row average is NaN, and whenever either
    average is NaN the outlook printed is Bearish: the program has no third
    label. *)
Theorem short_history_outlook (hist : DataFrame) :
  ((length hist < 50)%nat -> sma_50 hist = nan)
  /\ ((length hist < 200)%nat -> sma_200 hist = nan)
  /\ (is_nan (sma_50 hist) = true \/ is_nan (sma_200 hist) = true ->
      outlook hist = Bearish).
Proof.
  repeat split.
  - intros Hshort. unfold sma_50.
    apply rolling_mean_short; [lia | now rewrite closes_length].
  - intros Hshort. unfold sma_200.
    apply rolling_mean_short; [lia | now rewrite closes_length].
  - unfold outlook. intros [H50 | H200].
    + now rewrite (ltb_nan_r _ _ H50).
    + now rewrite (ltb_nan_l _ _ H200).
Qed.

Lemma short_history_outlook_witness :
  sma_50 one_day = nan /\ sma_200 one_day = nan /\ outlook one_day = Bearish.
Proof.
  destruct (short_history_outlook one_day) as (H50 & H200 & Hout).
  split; [|split].
  - apply H50. simpl. lia.
  - apply H200. simpl. lia.
  - apply Hout. left. reflexivity.
Defined.

(** C6 as stated fails: a single observation leaves both averages NaN, and the
    label is Bearish, not a third "indeterminate" one. *)
Lemma short_history_is_bearish :
  is_nan (sma_50 one_day) = true
  /\ is_nan (sma_200 one_day) = true
  /\ outlook one_day = "🔽 Bearish".
Proof. repeat split. Qed.

Lemma map_constant {A B} (f : A -> B) (v : B) (l : list A) :
  Forall (fun a => f a = v) l -> map f l = repeat v (length l).
Proof. induction 1 as [|a l Ha _ IH]; simpl; congruence. Qed.

(** C7: on 250 observations that all close at 100.0, the latest close and
    both moving averages are exactly 100.0, and the tie makes the outlook
    Bearish. *)
Theorem flat_history_is_bearish (hist : DataFrame) :
  length hist = 250%nat ->
  Forall (fun q => Close q = 100%float) hist ->
  latest_close hist = 100%float
  /\ sma_50 hist = 100%float
  /\ sma_200 hist = 100%float
  /\ outlook hist = Bearish.
Proof.
  intros Hlen Hflat.
  assert (Hcloses : closes hist = repeat 100%float 250).
  { unfold closes. now rewrite (map_constant _ _ _ Hflat), Hlen. }
  unfold outlook, latest_close, sma_50, sma_200. rewrite Hcloses.
  now vm_compute.
Qed.

Lemma flat_history_is_bearish_witness :
  latest_close flat_year = 100%float
  /\ sma_50 flat_year = 100%float
  /\ sma_200 flat_year = 100%float
  /\ outlook flat_year = Bearish.
Proof.
  apply (flat_history_is_bearish flat_year).
  - reflexivity.
  - unfold flat_year. apply Forall_map, Forall_forall. reflexivity.
Defined.

(** ** Thousands separators *)

(** Induction that follows the recursion of group3. *)
Lemma by_threes (P : list ascii -> Prop) :
  P [] -> (forall a, P [a]) -> (forall a b, P [a; b]) -> (forall a b c, P [a; b; c]) ->
  (forall a b c d rest, P (d :: rest) -> P (a :: b :: c :: d :: rest)) ->
  forall l, P l.
Proof.
  intros H0 H1 H2 H3 Hstep l.
  assert (Hall : forall n l, (length l <= n)%nat -> P l).
  { induction n as [|n IH]; intros [|a [|b [|c [|d rest]]]] Hlen; auto.
    - simpl in Hlen. lia.
    - apply Hstep, IH. simpl in *. lia. }
  now apply (Hall (length l)).
Qed.

Lemma group3_step (a b c d : ascii) (rest : list ascii) :
  Fmt.group3 (a :: b :: c :: d :: rest)
    = a :: b :: c :: ","%char :: Fmt.group3 (d :: rest).
Proof. reflexivity. Qed.

Lemma digit_no_comma (c : ascii) : is_digit c = true -> is_comma c = false.
Proof.
  destruct c as [[] [] [] [] [] [] [] []]; vm_compute; congruence.
Qed.

Lemma digits_no_commas (l : list ascii) :
  forallb is_digit l = true -> forallb no_comma l = true.
Proof.
  induction l as [|c l IH]; [reflexivity|].
  cbn [forallb]. rewrite !andb_true_iff. intros [Hc Hl].
  split; [|now apply IH]. unfold no_comma. now rewrite (digit_no_comma c Hc).
Qed.

(** Dropping the commas of a grouped run that had none gives the run back. *)
Lemma group3_filter (l : list ascii) :
  forallb no_comma l = true -> List.filter no_comma (Fmt.group3 l) = l.
Proof.
  induction l as [| a | a b | a b c | a b c d rest IH] using by_threes;
    try reflexivity;
    cbn [forallb]; rewrite ?andb_true_iff.
  - intros [Ha _]. cbn [Fmt.group3 List.filter]. now rewrite Ha.
  - intros (Ha & Hb & _). cbn [Fmt.group3 List.filter]. now rewrite Ha, Hb.
  - intros (Ha & Hb & Hc & _). cbn [Fmt.group3 List.filter]. now rewrite Ha, Hb, Hc.
  - intros (Ha & Hb & Hc & Hd & Hrest).
    rewrite group3_step. cbn [List.filter]. rewrite Ha, Hb, Hc.
    change (no_comma ","%char) with false. cbv iota.
    f_equal. f_equal. f_equal. apply IH.
    cbn [forallb]. now rewrite Hd, Hrest.
Qed.

(** In a grouped run the commas sit at every fourth place, counted from the
    least significant digit, and nowhere else. *)
Lemma group3_commas (l : list ascii) :
  forallb no_comma l = true ->
  forall i x, nth_error (Fmt.group3 l) i = Some x -> is_comma x = (i mod 4 =? 3)%nat.
Proof.
  induction l as [| a | a b | a b c | a b c d rest IH] using by_threes;
    cbn [forallb]; rewrite ?andb_true_iff; unfold no_comma.
  - intros _ [|i] x; discriminate.
  - intros [Ha _] [|[|i]] x; cbn; intros [= <-]; now apply negb_true_iff.
  - intros (Ha & Hb & _) [|[|[|i]]] x; cbn; intros [= <-]; now apply negb_true_iff.
  - intros (Ha & Hb & Hc & _) [|[|[|[|i]]]] x; cbn; intros [= <-]; now apply negb_true_iff.
  - intros (Ha & Hb & Hc & Hd & Hrest) i x. rewrite group3_step.
    destruct i as [|[|[|[|i]]]].
    + cbn. intros [= <-]. now apply negb_true_iff.
    + cbn. intros [= <-]. now apply negb_true_iff.
    + cbn. intros [= <-]. now apply negb_true_iff.
    + cbn. now intros [= <-].
    + change (nth_error (a :: b :: c :: ","%char :: Fmt.group3 (d :: rest)) (S (S (S (S i)))))
        with (nth_error (Fmt.group3 (d :: rest)) i).
      intros Hnth.
      assert (Htail : forallb (fun c => negb (is_comma c)) (d :: rest) = true)
        by (cbn [forallb]; now rewrite Hd, Hrest).
      rewrite (IH Htail i x Hnth).
      replace (S (S (S (S i)))) with (i + 1 * 4)%nat by lia.
      now rewrite Nat.Div0.mod_add.
Qed.

Lemma group3_length (l : list ascii) :
  length (Fmt.group3 l) = (length l + (length l - 1) / 3)%nat.
Proof.
  induction l as [| a | a b | a b c | a b c d rest IH] using by_threes;
    try reflexivity.
  rewrite group3_step. cbn [length] in *. rewrite IH.
  replace (S (S (S (S (length rest)))) - 1)%nat with (length rest + 1 * 3)%nat by lia.
  rewrite Nat.div_add by lia.
  replace (S (length rest) - 1)%nat with (length rest) by lia. lia.
Qed.

Lemma uint_digits (d : Decimal.uint) :
  forallb is_digit (list_ascii_of_string (NilEmpty.string_of_uint d)) = true.
Proof. induction d; simpl; auto. Qed.

(** The decimal digits of a number: a run of digit characters that is not
    empty. *)
Lemma digits_spec (n : Z) :
  forallb is_digit (list_ascii_of_string (Fmt.digits n)) = true /\ Fmt.digits n <> "".
Proof.
  unfold Fmt.digits, NilZero.string_of_uint.
  destruct (N.to_uint (Z.to_N n)) as [|d|d|d|d|d|d|d|d|d|d] eqn:Hd;
    (split; [first [reflexivity | rewrite <- Hd; apply uint_digits] | discriminate]).
Qed.

Lemma string_length_list (s : string) :
  String.length s = length (list_ascii_of_string s).
Proof. induction s; simpl; congruence. Qed.

(** What inserting the thousands separators does to a run of digits: the
    digits are kept in order, and a comma stands at every fourth place counted
    from the right end, and only there. *)
Lemma insert_commas_spec (ds : string) :
  forallb is_digit (list_ascii_of_string ds) = true ->
  remove_commas (Fmt.insert_commas ds) = ds
  /\ (forall i x, from_right (Fmt.insert_commas ds) i = Some x ->
                  is_comma x = (i mod 4 =? 3)%nat)
  /\ String.length (Fmt.insert_commas ds)
       = (String.length ds + (String.length ds - 1) / 3)%nat.
Proof.
  intros Hdigits.
  assert (Hclean : forallb no_comma (rev (list_ascii_of_string ds)) = true).
  { apply digits_no_commas. rewrite forallb_forall in *.
    intros x Hx. apply Hdigits. now apply in_rev. }
  unfold remove_commas, from_right, Fmt.insert_commas.
  rewrite list_ascii_of_string_of_list_ascii. repeat split.
  - change (fun c => negb (is_comma c)) with no_comma.
    rewrite filter_rev, (group3_filter _ Hclean), rev_involutive.
    apply string_of_list_ascii_of_string.
  - intros i x. rewrite rev_involutive. now apply group3_commas.
  - rewrite !string_length_list, list_ascii_of_string_of_list_ascii.
    now rewrite length_rev, group3_length, length_rev.
Qed.

(** ** Two decimal places *)

Lemma round_half_even_nearest (num den : Z) :
  0 < den -> 2 * Z.abs (num - Fmt.round_half_even num den * den) <= den.
Proof.
  intros Hden. unfold Fmt.round_half_even.
  pose proof (Z.div_mod num den ltac:(lia)) as Hdm.
  pose proof (Z.mod_pos_bound num den Hden) as Hr.
  destruct (Z.compare_spec (2 * (num mod den)) den) as [Heq|Hlt|Hgt];
    [destruct (Z.even (num / den))| |]; nia.
Qed.

Lemma hundredths_nearest (m e : Z) : nearest_hundredths m e (Fmt.hundredths m e).
Proof.
  unfold nearest_hundredths, Fmt.hundredths.
  destruct (0 <=? e) eqn:He; [reflexivity|].
  apply round_half_even_nearest. apply Z.pow_pos_nonneg; lia.
Qed.

Lemma hundredths_nonneg (m e : Z) : 0 <= m -> 0 <= Fmt.hundredths m e.
Proof.
  intros Hm. unfold Fmt.hundredths, Fmt.round_half_even.
  destruct (0 <=? e) eqn:He.
  - apply Z.leb_le in He. pose proof (Z.pow_nonneg 2 e ltac:(lia)). nia.
  - assert (Hden : 0 < 2 ^ (- e)) by (apply Z.pow_pos_nonneg; lia).
    assert (0 <= m * 100 / 2 ^ (- e)) by (apply Z.div_pos; lia).
    destruct (2 * ((m * 100) mod 2 ^ (- e)) ?= 2 ^ (- e));
      [destruct (Z.even (m * 100 / 2 ^ (- e)))| |]; lia.
Qed.





(** ** The fundamentals table *)

Lemma nonempty_of_lookup (d : gmap string value) (k : string) (v : value) :
  d !! k = Some v -> nonempty_dict d = true.
Proof.
  intros Hk. unfold nonempty_dict. apply negb_true_iff, Nat.eqb_neq.
  intros Hsize. apply map_size_empty_iff in Hsize. subst d.
  rewrite lookup_empty in Hk. discriminate.
Qed.

Lemma display_empty : display_company_info ∅ = Returns (Notice "No company information available").
Proof. reflexivity. Qed.

(** On a profile that is not empty the table is built from the two formatted
    fields; it exists exactly when both format. *)
Lemma display_nonempty (info : gmap string value) :
  nonempty_dict info = true ->
  display_company_info info
  = (market_cap <- market_cap_metric info ;;;
     dividend_yield <- dividend_yield_metric info ;;;
     Returns (Metrics
       [ ("Sector", get info "sector" (VStr "N/A"));
         ("Industry", get info "industry" (VStr "N/A"));
         ("Market Cap", VStr market_cap);
         ("PE Ratio", get info "trailingPE" (VStr "N/A"));
         ("EPS", get info "trailingEps" (VStr "N/A"));
         ("Dividend Yield", VStr dividend_yield) ])).
Proof. unfold display_company_info. now intros ->. Qed.

Lemma market_cap_absent (info : gmap string value) :
  info !! "marketCap" = None -> market_cap_metric info = Returns "N/A".
Proof. unfold market_cap_metric, truthy_get. now intros ->. Qed.

Lemma market_cap_int (info : gmap string value) (z : Z) :
  info !! "marketCap" = Some (VInt z) -> z <> 0 ->
  market_cap_metric info = Returns ("$" +:+ Fmt.format_int_comma z).
Proof.
  unfold market_cap_metric, truthy_get, get. intros -> Hz. cbn [truthy].
  destruct (Z.eqb_spec z 0); [contradiction | reflexivity].
Qed.

Lemma market_cap_total (info : gmap string value) :
  falsy_or numeric info "marketCap" = true ->
  exists s, market_cap_metric info = Returns s.
Proof.
  unfold falsy_or, market_cap_metric, truthy_get, get.
  destruct (info !! "marketCap") as [v|]; [|eauto].
  destruct (truthy v); [|eauto]. cbn [negb orb].
  destruct v; cbn; intros; eauto; discriminate.
Qed.

Lemma dividend_yield_absent (info : gmap string value) :
  info !! "dividendYield" = None -> dividend_yield_metric info = Returns "0%".
Proof. unfold dividend_yield_metric, truthy_get. now intros ->. Qed.

Lemma dividend_yield_float (info : gmap string value) (y : float) :
  info !! "dividendYield" = Some (VFloat y) -> truthy (VFloat y) = true ->
  dividend_yield_metric info = Returns (Fmt.format_float_2f (y * 100) +:+ "%").
Proof.
  unfold dividend_yield_metric, truthy_get, get. now intros -> ->.
Qed.

Lemma dividend_yield_total (info : gmap string value) :
  falsy_or is_float info "dividendYield" = true ->
  exists s, dividend_yield_metric info = Returns s.
Proof.
  unfold falsy_or, dividend_yield_metric, truthy_get, get.
  destruct (info !! "dividendYield") as [v|]; [|eauto].
  destruct (truthy v); [|eauto]. cbn [negb orb].
  destruct v; cbn; intros; eauto; discriminate.
Qed.

Lemma falsy_or_absent (p : value -> bool) (d : gmap string value) (k : string) :
  d !! k = None -> falsy_or p d k = true.
Proof. unfold falsy_or. now intros ->. Qed.

(** The table of a profile whose two formatted fields format. *)
Lemma display_total (info : gmap string value) :
  nonempty_dict info = true ->
  falsy_or numeric info "marketCap" = true ->
  falsy_or is_float info "dividendYield" = true ->
  exists market_cap dividend_yield,
    market_cap_metric info = Returns market_cap
    /\ dividend_yield_metric info = Returns dividend_yield
    /\ display_company_info info = Returns (Metrics
         [ ("Sector", get info "sector" (VStr "N/A"));
           ("Industry", get info "industry" (VStr "N/A"));
           ("Market Cap", VStr market_cap);
           ("PE Ratio", get info "trailingPE" (VStr "N/A"));
           ("EPS", get info "trailingEps" (VStr "N/A"));
           ("Dividend Yield", VStr dividend_yield) ]).
Proof.
  intros Hne Hmc Hdy.
  destruct (market_cap_total info Hmc) as [mc Hmc'].
  destruct (dividend_yield_total info Hdy) as [dy Hdy'].
  exists mc, dy. rewrite (display_nonempty info Hne), Hmc', Hdy'. auto.
Qed.

Lemma get_absent (d : gmap string value) (k : string) (default : value) :
  d !! k = None -> get d k default = default.
Proof. unfold get. now intros ->. Qed.

Lemma display_table_inv (info : gmap string value) (rows : list (string * value)) :
  display_company_info info = Returns (Metrics rows) ->
  exists market_cap dividend_yield,
    market_cap_metric info = Returns market_cap
    /\ dividend_yield_metric info = Returns dividend_yield
    /\ rows = [ ("Sector", get info "sector" (VStr "N/A"));
                ("Industry", get info "industry" (VStr "N/A"));
                ("Market Cap", VStr market_cap);
                ("PE Ratio", get info "trailingPE" (VStr "N/A"));
                ("EPS", get info "trailingEps" (VStr "N/A"));
                ("Dividend Yield", VStr dividend_yield) ].
Proof.
  unfold display_company_info.
  destruct (nonempty_dict info); [|discriminate]. cbn [negb].
  destruct (market_cap_metric info) as [mc|e]; [|discriminate].
  destruct (dividend_yield_metric info) as [dy|e]; [|discriminate].
  cbn [obind]. intros [= <-]. eauto.
Qed.

Lemma float_of_int_raises (z : Z) (e : exn) :
  Fmt.float_of_int z = Raises e -> exn_class e = OverflowError.
Proof.
  unfold Fmt.float_of_int.
  destruct (is_infinity _); [|discriminate]. now intros [= <-].
Qed.

Lemma market_cap_raises (info : gmap string value) (e : exn) :
  market_cap_metric info = Raises e <->
  text_entry info "marketCap" /\ e = Exn ValueError "Cannot specify ',' with 's'.".
Proof.
  unfold market_cap_metric, truthy_get, get, text_entry.
  destruct (info !! "marketCap") as [[|b|z|x|s]|]; cbn.
  - split; [discriminate | intros [(s & Hs & _) _]; discriminate].
  - destruct b; (split; [discriminate | intros [(s & Hs & _) _]; discriminate]).
  - destruct (Z.eqb z 0); (split; [discriminate | intros [(s & Hs & _) _]; discriminate]).
  - destruct (PrimFloat.eqb x 0); cbn;
      (split; [discriminate | intros [(s & Hs & _) _]; discriminate]).
  - destruct (String.eqb_spec s ""); cbn.
    + split; [discriminate | intros [(s' & [= <-] & Hne) _]; contradiction].
    + split; [intros [= <-]; eauto | now intros [_ ->]].
  - split; [discriminate | intros [(s & Hs & _) _]; discriminate].
Qed.

Lemma float_of_int_hundred : Fmt.float_of_int (1 * 100) = Returns 100%float.
Proof. reflexivity. Qed.

Lemma dividend_yield_raises (info : gmap string value) (e : exn) :
  dividend_yield_metric info = Raises e <->
  (text_entry info "dividendYield"
   /\ e = Exn ValueError "Unknown format code 'f' for object of type 'str'")
  \/ (exists z, info !! "dividendYield" = Some (VInt z) /\ z <> 0
                /\ Fmt.float_of_int (z * 100) = Raises e).
Proof.
  unfold dividend_yield_metric, truthy_get, get, text_entry.
  destruct (info !! "dividendYield") as [[|b|z|x|s]|]; cbn [truthy].
  - split; [discriminate | intros [[(s & Hs & _) _] | (z & Hz & _)]; discriminate].
  - destruct b; cbn -[Fmt.float_of_int Z.mul]; rewrite ?float_of_int_hundred; cbn;
      (split; [discriminate | intros [[(s & Hs & _) _] | (z & Hz & _)]; discriminate]).
  - destruct (Z.eqb_spec z 0); cbn -[Fmt.float_of_int Z.mul].
    + split; [discriminate|].
      intros [[(s & Hs & _) _] | (z' & [= <-] & Hz & _)]; [discriminate | contradiction].
    + destruct (Fmt.float_of_int (z * 100)) as [x|e0] eqn:Hf; cbn.
      * split; [discriminate|].
        intros [[(s & Hs & _) _] | (z' & [= <-] & _ & Hr)]; [discriminate | congruence].
      * split.
        -- intros [= <-]. right. exists z. auto.
        -- intros [[(s & Hs & _) _] | (z' & [= <-] & _ & Hr)]; [discriminate | congruence].
  - destruct (PrimFloat.eqb x 0); cbn;
      (split; [discriminate | intros [[(s & Hs & _) _] | (z & Hz & _)]; discriminate]).
  - destruct (String.eqb_spec s ""); cbn.
    + split; [discriminate|].
      intros [[(s' & [= <-] & Hne) _] | (z & Hz & _)]; [contradiction | discriminate].
    + split; [intros [= <-]; left; eauto|].
      intros [[_ ->] | (z & Hz & _)]; [reflexivity | discriminate].
  - split; [discriminate | intros [[(s & Hs & _) _] | (z & Hz & _)]; discriminate].
Qed.

(** *** An int turned into a float is a finite float *)











(** The table is made on every profile, not empty, on which neither
    formatted field fails. *)
Lemma display_presentable (info : gmap string value) :
  nonempty_dict info = true -> presentable info ->
  exists market_cap dividend_yield,
    market_cap_metric info = Returns market_cap
    /\ dividend_yield_metric info = Returns dividend_yield
    /\ display_company_info info = Returns (Metrics
         [ ("Sector", get info "sector" (VStr "N/A"));
           ("Industry", get info "industry" (VStr "N/A"));
           ("Market Cap", VStr market_cap);
           ("PE Ratio", get info "trailingPE" (VStr "N/A"));
           ("EPS", get info "trailingEps" (VStr "N/A"));
           ("Dividend Yield", VStr dividend_yield) ]).
Proof.
  intros Hne (Hmc & Hdy & Hhuge).
  destruct (market_cap_metric info) as [mc|e] eqn:Emc.
  2:{ apply market_cap_raises in Emc as [Ht _]. contradiction. }
  destruct (dividend_yield_metric info) as [dy|e] eqn:Edy.
  2:{ apply dividend_yield_raises in Edy as [[Ht _]|(z & Hz & Hnz & Hf)]; [contradiction|].
      exfalso. apply Hhuge. exists z, e. auto. }
  exists mc, dy. rewrite (display_nonempty info Hne), Emc, Edy. auto.
Qed.

(** And on no other. *)
Lemma table_presentable (info : gmap string value) (rows : list (string * value)) :
  display_company_info info = Returns (Metrics rows) -> presentable info.
Proof.
  intros Hrun. destruct (display_table_inv info rows Hrun) as (mc & dy & Hmc & Hdy & _).
  split; [|split].
  - intros Ht.
    assert (H : market_cap_metric info
                = Raises (Exn ValueError "Cannot specify ',' with 's'."))
      by (apply market_cap_raises; auto).
    congruence.
  - intros Ht.
    assert (H : dividend_yield_metric info
                = Raises (Exn ValueError "Unknown format code 'f' for object of type 'str'"))
      by (apply dividend_yield_raises; auto).
    congruence.
  - intros (z & e & Hz & Hnz & Hf).
    assert (H : dividend_yield_metric info = Raises e)
      by (apply dividend_yield_raises; right; eauto).
    congruence.
Qed.



(** C8, as amended: on the empty profile display_company_info returns the
    notice "No company information available", not a table, and does not
    fail.  On a profile that is not empty it returns the table exactly when
    neither formatted field fails, that is, unless the market cap is text
    that is not empty, or the dividend yield is text that is not empty or an
    int too large for a float; in that table every field whose source key is
    absent shows its placeholder whatever the other keys hold; with all six
    keys absent the table holds the six placeholders. *)
Theorem placeholders_by_field :
  display_company_info ∅ = Returns (Notice "No company information available")
  /\ (forall info,
        nonempty_dict info = true ->
        ((exists rows, display_company_info info = Returns (Metrics rows))
         <-> presentable info))
  /\ (forall info,
        nonempty_dict info = true ->
        presentable info ->
        exists rows,
          display_company_info info = Returns (Metrics rows)
          /\ forall label key placeholder,
               In (label, key, placeholder) field_table ->
               info !! key = None ->
               row label rows = Some placeholder)
  /\ (forall info,
        nonempty_dict info = true ->
        (forall label key placeholder,
            In (label, key, placeholder) field_table -> info !! key = None) ->
        display_company_info info
          = Returns (Metrics (map (fun f => (fst (fst f), snd f)) field_table))).
Proof.
  split; [exact display_empty|]. split; [|split].
  - intros info Hne. split.
    + intros [rows Hrows]. exact (table_presentable info rows Hrows).
    + intros Hok. destruct (display_presentable info Hne Hok) as (mc & dy & _ & _ & ->).
      eauto.
  - intros info Hne Hok.
    destruct (display_presentable info Hne Hok) as (mc & dy & Hmc' & Hdy' & ->).
    eexists. split; [reflexivity|].
    intros label key placeholder Hin Habsent.
    cbn [In field_table] in Hin.
    repeat (destruct Hin as [[= <- <- <-]|Hin]); [..|contradiction];
      cbn -[get]; rewrite ?(get_absent _ _ _ Habsent); try reflexivity.
    + rewrite (market_cap_absent info Habsent) in Hmc'. congruence.
    + rewrite (dividend_yield_absent info Habsent) in Hdy'. congruence.
  - intros info Hne Habsent.
    assert (Hkey : forall label key placeholder,
               In (label, key, placeholder) field_table -> info !! key = None)
      by exact Habsent.
    rewrite (display_nonempty info Hne).
    rewrite (market_cap_absent info), (dividend_yield_absent info);
      try (eapply Hkey; cbn; eauto 10).
    cbn -[get].
    rewrite !get_absent; try reflexivity; eapply Hkey; cbn; eauto 10.
Qed.

(** A profile read from a table of samples is presentable when its two
    formatted entries are seen not to fail. *)
Ltac sample_presentable :=
  split; [|split];
  [ intros (s & Hs & _); vm_compute in Hs; discriminate
  | intros (s & Hs & _); vm_compute in Hs; discriminate
  | intros (z & e & Hz & _ & Hf); vm_compute in Hz;
    first [discriminate | injection Hz as <-; vm_compute in Hf; discriminate] ].

Lemma placeholders_by_field_witness :
  display_company_info only_employees
    = Returns (Metrics
        [ ("Sector", VStr "N/A"); ("Industry", VStr "N/A"); ("Market Cap", VStr "N/A");
          ("PE Ratio", VStr "N/A"); ("EPS", VStr "N/A"); ("Dividend Yield", VStr "0%") ])
  /\ (exists rows,
        display_company_info big_cap = Returns (Metrics rows)
        /\ row "Dividend Yield" rows = Some (VStr "0%")
        /\ row "Sector" rows = Some (VStr "N/A"))
  /\ (exists rows,
        display_company_info whole_yield = Returns (Metrics rows)
        /\ row "Market Cap" rows = Some (VStr "N/A")
        /\ row "EPS" rows = Some (VStr "N/A")).
Proof.
  destruct placeholders_by_field as (_ & _ & Heach & Hall). split; [|split].
  - apply (Hall only_employees); [reflexivity|].
    intros label key placeholder Hin. cbn in Hin.
    repeat (destruct Hin as [[= <- <- <-]|Hin]); [..|contradiction]; reflexivity.
  - destruct (Heach big_cap) as (rows & Hrows & Hfield);
      [reflexivity | sample_presentable |].
    exists rows. split; [exact Hrows|]. split.
    + apply (Hfield "Dividend Yield" "dividendYield"); [cbn; eauto 10 | reflexivity].
    + apply (Hfield "Sector" "sector"); [cbn; eauto 10 | reflexivity].
  - destruct (Heach whole_yield) as (rows & Hrows & Hfield);
      [reflexivity | sample_presentable |].
    exists rows. split; [exact Hrows|]. split.
    + apply (Hfield "Market Cap" "marketCap"); [cbn; eauto 10 | reflexivity].
    + apply (Hfield "EPS" "trailingEps"); [cbn; eauto 10 | reflexivity].
Defined.

(** C8 as stated fails: the empty profile yields a notice, not a table of
    placeholders. *)
Lemma empty_profile_is_a_notice :
  display_company_info ∅ = Returns (Notice "No company information available").
Proof. reflexivity. Qed.

(** Nor is the formatting total: a market cap given as text cannot take the
    thousands separator. *)
Example text_market_cap_raises :
  display_company_info named_cap
    = Raises (Exn ValueError "Cannot specify ',' with 's'.").
Proof. reflexivity. Qed.




(** ** The report *)

(** The report on a history with rows and a profile that is not empty: the
    technical section, the fundamental section if it formats, and the
    closing recommendation. *)
Lemma analysis_with_profile symbol hist info financials recommendations :
  hist <> [] -> nonempty_dict info = true ->
  generate_investment_analysis symbol (Success hist info financials recommendations)
  = (more <- fundamental_section info ;;;
     Returns ((technical_section symbol hist +:+ more) +:+ recommendation)).
Proof.
  intros Hrows Hne. unfold generate_investment_analysis.
  rewrite (empty_false _ Hrows), Hne.
  now destruct (fundamental_section info).
Qed.

Lemma format_comma_numeric (v : value) :
  numeric v = true -> exists s, format_comma v = Returns s.
Proof. destruct v; cbn; intros; eauto; discriminate. Qed.

Lemma format_comma_other (v : value) :
  numeric v = false -> exists e, format_comma v = Raises e.
Proof. destruct v; cbn; intros; eauto; discriminate. Qed.

(** C10, as amended: on a history with rows and a profile that is not empty,
    generate_investment_analysis raises ValueError when the profile has no
    'marketCap' key, because the placeholder 'N/A' meets the thousands
    separator; it also raises when the entry is None or text, and returns the
    report when the entry is a number, zero included. *)
Theorem analysis_needs_numeric_market_cap (symbol : string) (hist : DataFrame)
    (info : gmap string value) (financials recommendations : Table) :
  hist <> [] ->
  nonempty_dict info = true ->
  let data := Success hist info financials recommendations in
  (info !! "marketCap" = None ->
     generate_investment_analysis symbol data
       = Raises (Exn ValueError "Cannot specify ',' with 's'."))
  /\ (forall v, info !! "marketCap" = Some v -> numeric v = false ->
        exists e, generate_investment_analysis symbol data = Raises e)
  /\ (forall v, info !! "marketCap" = Some v -> numeric v = true ->
        exists report, generate_investment_analysis symbol data = Returns report).
Proof.
  intros Hrows Hne data. subst data.
  rewrite (analysis_with_profile symbol hist info _ _ Hrows Hne).
  unfold fundamental_section, get. repeat split.
  - now intros ->.
  - intros v -> Hv. destruct (format_comma_other v Hv) as [e ->]. eauto.
  - intros v -> Hv. destruct (format_comma_numeric v Hv) as [s ->]. cbn. eauto.
Qed.

Lemma analysis_needs_numeric_market_cap_witness :
  generate_investment_analysis "AAPL" (Success one_day only_employees [] [])
    = Raises (Exn ValueError "Cannot specify ',' with 's'.")
  /\ exists report,
       generate_investment_analysis "AAPL" (Success one_day big_cap [] []) = Returns report.
Proof.
  split.
  - apply (analysis_needs_numeric_market_cap "AAPL" one_day only_employees [] []);
      [discriminate | reflexivity | reflexivity].
  - apply (analysis_needs_numeric_market_cap "AAPL" one_day big_cap [] []
             ltac:(discriminate) eq_refl)
      with (v := VInt 2500000000); reflexivity.
Defined.

(** C10 as stated fails: a profile that is not empty and whose 'marketCap'
    entry is zero, hence not truthy, gets its report, the market cap printed
    as "$0". *)
Lemma zero_market_cap_gets_report :
  nonempty_dict zero_cap = true
  /\ truthy_get zero_cap "marketCap" = false
  /\ exists report,
       generate_investment_analysis "AAPL" (Success one_day zero_cap [] [])
         = Returns report
       /\ contains "Market Cap: $0  " report = true.
Proof. split; [|split]; [reflexivity..|]. eexists. split; reflexivity. Qed.

(** * Further properties of the program *)

(** ** What get_stock_data returns, and which calls it makes *)

Lemma only_non_Exceptions_escape_witness :
  is_Exception (Exn KeyboardInterrupt "") = false.
Proof.
  apply (only_non_Exceptions_escape interrupted "AAPL" "1y" [] _ [CallHistory "AAPL" "1y"]).
  reflexivity.
Defined.

(** What the guarded block under its handler returns: the assembled success
    when the three reads are quiet, otherwise the error made from the first
    loud read. *)
Lemma details_result yf symbol hist tr r tr' :
  try_except_Exception (fetch_details yf symbol hist) on_Exception tr = (Returns r, tr') ->
  (quiet (Ticker_info yf symbol) /\ quiet (Ticker_financials yf symbol)
   /\ quiet (Ticker_recommendations yf symbol) /\ r = assembled yf symbol hist)
  \/ (exists e,
        (Ticker_info yf symbol = Raises e \/ Ticker_financials yf symbol = Raises e
         \/ Ticker_recommendations yf symbol = Raises e)
        /\ is_Exception e = true /\ r = Failure (api_error_message e)).
Proof.
  intros Hrun.
  destruct (quiet_or_loud (Ticker_info yf symbol)) as [Qi|[e Li]].
  2:{ right. exists e. rewrite (try_raises _ _ _ _ _ (details_info_loud yf symbol hist e tr Li)) in Hrun.
      destruct Li as [Hi _]. destruct (is_Exception e); [|discriminate].
      injection Hrun as <- _. auto. }
  destruct (quiet_or_loud (Ticker_financials yf symbol)) as [Qf|[e Lf]].
  2:{ right. exists e.
      destruct (details_financials_loud yf symbol hist e tr Qi Lf) as [tr0 Hraise].
      rewrite (try_raises _ _ _ _ _ Hraise) in Hrun.
      destruct Lf as [Hf _]. destruct (is_Exception e); [|discriminate].
      injection Hrun as <- _. auto. }
  destruct (quiet_or_loud (Ticker_recommendations yf symbol)) as [Qr|[e Lr]].
  2:{ right. exists e.
      destruct (details_recommendations_loud yf symbol hist e tr Qi Qf Lr) as [tr0 Hraise].
      rewrite (try_raises _ _ _ _ _ Hraise) in Hrun.
      destruct Lr as [Hr _]. destruct (is_Exception e); [|discriminate].
      injection Hrun as <- _. auto. }
  left. rewrite (try_returns _ _ _ _ _ (details_quiet yf symbol hist tr Qi Qf Qr)) in Hrun.
  injection Hrun as <- _. auto.
Qed.

(** X2: a success returned by get_stock_data is the assembled one: its history
    is the primary result when that has rows, otherwise the downloaded one,
    every metadata read was quiet, and each attribute is what was read, or
    its empty default when hasattr answered False. *)
Theorem success_is_assembled (yf : Provider) (symbol period : string) (tr tr' : list call)
    (hist : DataFrame) (info : gmap string value) (financials recommendations : Table) :
  get_stock_data yf symbol period tr
    = (Returns (Success hist info financials recommendations), tr') ->
  retrieved yf symbol period hist
  /\ quiet (Ticker_info yf symbol)
  /\ quiet (Ticker_financials yf symbol)
  /\ quiet (Ticker_recommendations yf symbol)
  /\ info = value_or ∅ (Ticker_info yf symbol)
  /\ financials = value_or [] (Ticker_financials yf symbol)
  /\ recommendations = value_or [] (Ticker_recommendations yf symbol).
Proof.
  intros Hrun.
  destruct (get_stock_data_cases yf symbol period tr)
    as [(h & calls & Hret & Heq) | [(msg & tr0 & Heq) | (e & tr0 & Heq)]];
    rewrite Heq in Hrun; try discriminate.
  destruct (details_result _ _ _ _ _ _ Hrun) as [(Qi & Qf & Qr & Hr) | (e & _ & _ & Hr)];
    [|discriminate].
  unfold assembled in Hr. injection Hr as -> -> -> ->. auto 10.
Qed.

Lemma success_is_assembled_witness :
  retrieved download_only "AAPL" "1y" one_day
  /\ quiet (Ticker_info download_only "AAPL")
  /\ quiet (Ticker_financials download_only "AAPL")
  /\ quiet (Ticker_recommendations download_only "AAPL")
  /\ apple_info = value_or ∅ (Ticker_info download_only "AAPL")
  /\ @nil (list value) = value_or [] (Ticker_financials download_only "AAPL")
  /\ @nil (list value) = value_or [] (Ticker_recommendations download_only "AAPL").
Proof.
  apply (success_is_assembled download_only "AAPL" "1y" []
           ([CallHistory "AAPL" "1y"; CallDownload "AAPL" "1y"] ++ tl aapl_calls)).
  reflexivity.
Defined.

(** An error result is the no-data message after two empty retrievals, or the
    API error of an Exception raised by one of the provider reads. *)
Lemma failure_cases (yf : Provider) (symbol period : string) (tr tr' : list call)
    (msg : string) :
  get_stock_data yf symbol period tr = (Returns (Failure msg), tr') ->
  (msg = no_data_message symbol
     /\ Ticker_history yf symbol period = Returns []
     /\ yf_download yf symbol period = Returns [])
  \/ (exists e, msg = api_error_message e /\ is_Exception e = true
                /\ provider_raises yf symbol period e).
Proof.
  intros Hrun.
  unfold provider_raises.
  destruct (Ticker_history yf symbol period) as [[|q primary]|e] eqn:Hprimary.
  - destruct (yf_download yf symbol period) as [[|q secondary]|e] eqn:Hsecondary.
    + rewrite (both_empty_run yf symbol period tr Hprimary Hsecondary) in Hrun.
      injection Hrun as <- _. auto.
    + assert (Hret : retrieved yf symbol period (q :: secondary))
        by (split; [discriminate | right; split; assumption]).
      destruct (after_retrieval yf symbol period _ tr Hret) as [calls Heq].
      rewrite Heq in Hrun.
      destruct (details_result _ _ _ _ _ _ Hrun) as [(_ & _ & _ & Hr) | (e & He & Hx & Hr)];
        [discriminate|].
      injection Hr as ->. right. exists e. intuition.
    + unfold get_stock_data in Hrun. erewrite try_raises in Hrun.
      2:{ rewrite Hprimary, bind_ask_returns. cbn [empty]. rewrite Hsecondary.
          apply bind_ask_raises. }
      destruct (is_Exception e) eqn:Hx; [|discriminate].
      injection Hrun as <- _. right. exists e. auto.
  - assert (Hret : retrieved yf symbol period (q :: primary))
      by (split; [discriminate | left; assumption]).
    destruct (after_retrieval yf symbol period _ tr Hret) as [calls Heq].
    rewrite Heq in Hrun.
    destruct (details_result _ _ _ _ _ _ Hrun) as [(_ & _ & _ & Hr) | (e & He & Hx & Hr)];
      [discriminate|].
    injection Hr as ->. right. exists e. intuition.
  - unfold get_stock_data in Hrun.
    erewrite try_raises in Hrun by (rewrite Hprimary; apply bind_ask_raises).
    destruct (is_Exception e) eqn:Hx; [|discriminate].
    injection Hrun as <- _. right. exists e. auto.
Qed.

(** X3: an error returned by get_stock_data is one of two: the no-data
    message for the requested symbol, after both retrievals came back empty,
    or the API error made from an Exception that one of the provider reads
    raised.  In either case the message is not empty. *)
Theorem failure_is_explained (yf : Provider) (symbol period : string) (tr tr' : list call)
    (msg : string) :
  get_stock_data yf symbol period tr = (Returns (Failure msg), tr') ->
  msg <> ""
  /\ ((msg = no_data_message symbol
       /\ Ticker_history yf symbol period = Returns []
       /\ yf_download yf symbol period = Returns [])
      \/ (exists e, msg = api_error_message e /\ is_Exception e = true
                    /\ provider_raises yf symbol period e)).
Proof.
  intros Hrun. pose proof (failure_cases yf symbol period tr tr' msg Hrun) as Hcases.
  split; [|exact Hcases].
  destruct Hcases as [(-> & _) | (e & -> & _)]; discriminate.
Qed.

Lemma failure_is_explained_witness :
  "⚠️ API Error: Connection refused" <> ""
  /\ (("⚠️ API Error: Connection refused" = no_data_message "AAPL"
       /\ Ticker_history offline "AAPL" "1y" = Returns []
       /\ yf_download offline "AAPL" "1y" = Returns [])
      \/ (exists e, "⚠️ API Error: Connection refused" = api_error_message e
                    /\ is_Exception e = true
                    /\ provider_raises offline "AAPL" "1y" e)).
Proof.
  apply (failure_is_explained offline "AAPL" "1y" [] [CallHistory "AAPL" "1y"]).
  reflexivity.
Defined.

(** The guarded block makes between one and six provider calls, all of them
    attribute reads. *)
Lemma details_calls yf symbol hist tr :
  exists reads,
    snd (try_except_Exception (fetch_details yf symbol hist) on_Exception tr) = tr ++ reads
    /\ forallb is_getattr reads = true
    /\ (length reads <= 6)%nat
    /\ reads <> [].
Proof.
  unfold try_except_Exception, fetch_details, on_Exception, bind, ret,
    getattr_if_hasattr, ask.
  destruct (Ticker_info yf symbol) as [i|ei]; [|destruct (is_AttributeError ei)];
    (destruct (Ticker_financials yf symbol) as [f|ef]; [|destruct (is_AttributeError ef)]);
    (destruct (Ticker_recommendations yf symbol) as [rc|er];
       [|destruct (is_AttributeError er)]);
    cbv beta iota;
    repeat match goal with
           | |- context [is_Exception ?e] => destruct (is_Exception e)
           end;
    cbn [snd]; rewrite <- ?app_assoc; eexists;
    (split; [reflexivity|]); cbn; (split; [reflexivity|]); (split; [lia | discriminate]).
Qed.

Lemma after_primary yf symbol period hist tr :
  hist <> [] ->
  Ticker_history yf symbol period = Returns hist ->
  get_stock_data yf symbol period tr
    = try_except_Exception (fetch_details yf symbol hist) on_Exception
        (tr ++ [CallHistory symbol period]).
Proof.
  intros Hrows Hprimary. unfold get_stock_data, try_except_Exception.
  now rewrite Hprimary, bind_ask_returns, (empty_false _ Hrows), bind_ret,
    (empty_false _ Hrows).
Qed.

Lemma after_secondary yf symbol period hist tr :
  hist <> [] ->
  Ticker_history yf symbol period = Returns [] ->
  yf_download yf symbol period = Returns hist ->
  get_stock_data yf symbol period tr
    = try_except_Exception (fetch_details yf symbol hist) on_Exception
        ((tr ++ [CallHistory symbol period]) ++ [CallDownload symbol period]).
Proof.
  intros Hrows Hprimary Hsecondary. unfold get_stock_data, try_except_Exception.
  rewrite Hprimary, bind_ask_returns. cbn [empty].
  now rewrite Hsecondary, bind_ask_returns, (empty_false _ Hrows).
Qed.

(** X4: the provider calls of one run of get_stock_data.  The primary history
    is asked for first; the download is called next exactly when the primary
    result came back empty, not when it raised; attribute reads follow, at
    most six, and only when a history with rows was retrieved. *)
Theorem call_discipline (yf : Provider) (symbol period : string) (tr : list call) :
  exists reads,
    snd (get_stock_data yf symbol period tr)
      = tr ++ [CallHistory symbol period]
           ++ match Ticker_history yf symbol period with
              | Returns [] => [CallDownload symbol period]
              | _ => []
              end
           ++ reads
    /\ forallb is_getattr reads = true
    /\ (length reads <= 6)%nat
    /\ (reads <> [] <-> exists hist, retrieved yf symbol period hist).
Proof.
  destruct (Ticker_history yf symbol period) as [[|q primary]|e] eqn:Hprimary.
  - destruct (yf_download yf symbol period) as [[|q secondary]|e] eqn:Hsecondary.
    + exists []. rewrite (both_empty_run yf symbol period tr Hprimary Hsecondary).
      cbn [snd]. rewrite app_nil_r. repeat split; try reflexivity; try (cbn; lia).
      * congruence.
      * intros [hist [Hrows [H|[_ H]]]]; congruence.
    + assert (Hret : retrieved yf symbol period (q :: secondary))
        by (split; [discriminate | right; split; assumption]).
      rewrite (after_secondary yf symbol period (q :: secondary) tr
                 ltac:(discriminate) Hprimary Hsecondary).
      destruct (details_calls yf symbol (q :: secondary)
                  ((tr ++ [CallHistory symbol period]) ++ [CallDownload symbol period]))
        as (reads & -> & Hreads & Hlen & Hne).
      exists reads. rewrite <- !app_assoc. repeat split; eauto.
    + exists []. unfold get_stock_data. erewrite try_raises.
      2:{ rewrite Hprimary, bind_ask_returns. cbn [empty]. rewrite Hsecondary.
          apply bind_ask_raises. }
      assert (Hnone : ~ exists hist, retrieved yf symbol period hist)
        by (intros [hist [Hrows [H|[_ H]]]]; congruence).
      destruct (is_Exception e); cbn [snd ret]; rewrite <- !app_assoc;
        repeat split; try reflexivity; try (cbn; lia); try congruence; tauto.
  - assert (Hret : retrieved yf symbol period (q :: primary))
      by (split; [discriminate | left; assumption]).
    rewrite (after_primary yf symbol period (q :: primary) tr ltac:(discriminate) Hprimary).
    destruct (details_calls yf symbol (q :: primary) (tr ++ [CallHistory symbol period]))
      as (reads & -> & Hreads & Hlen & Hne).
    exists reads. rewrite <- !app_assoc. repeat split; eauto.
  - exists []. unfold get_stock_data.
    erewrite try_raises by (rewrite Hprimary; apply bind_ask_raises).
    assert (Hnone : ~ exists hist, retrieved yf symbol period hist)
      by (intros [hist [Hrows [H|[H _]]]]; congruence).
    destruct (is_Exception e); cbn [snd ret]; rewrite ?app_nil_r;
      repeat split; try reflexivity; try (cbn; lia); try congruence; tauto.
Qed.

(** ** More on the cache *)

(** X6: an error result is cached like a success.  When both retrievals come
    back empty and no live entry exists, the no-data error is stored, and for
    the next 3600 seconds the same request gets that error again without any
    provider call, even if the provider would now answer with prices. *)
Theorem failure_is_cached (yf1 yf2 : Provider) (now1 now2 : Z) (symbol period : string)
    (cache0 : gmap (string * string) CacheEntry) (tr0 : list call) :
  Ticker_history yf1 symbol period = Returns [] ->
  yf_download yf1 symbol period = Returns [] ->
  stale 3600 now1 cache0 (symbol, period) ->
  now2 < now1 + 3600 ->
  exists cache1 tr1,
    cached_get_stock_data yf1 now1 symbol period cache0 tr0
      = (Returns (Failure (no_data_message symbol)), cache1, tr1)
    /\ cached_get_stock_data yf2 now2 symbol period cache1 tr1
         = (Returns (Failure (no_data_message symbol)), cache1, tr1).
Proof.
  intros Hprimary Hsecondary Hstale Hsoon. unfold cached_get_stock_data.
  rewrite (cache_miss _ _ _ _ _ _ _ Hstale). unfold run_and_store.
  rewrite (both_empty_run yf1 symbol period tr0 Hprimary Hsecondary).
  eexists. eexists. split; [reflexivity|].
  rewrite (cache_hit 3600 (get_stock_data yf2) now2 symbol period _ _
             (mkEntry (Failure (no_data_message symbol)) now1));
    [reflexivity | apply lookup_insert_eq |].
  unfold live. cbn [created]. now apply Z.ltb_lt.
Qed.

Lemma failure_is_cached_witness :
  exists cache1 tr1,
    cached_get_stock_data unlisted 0 "ZZZZ" "1y" ∅ []
      = (Returns (Failure (no_data_message "ZZZZ")), cache1, tr1)
    /\ cached_get_stock_data healthy 3599 "ZZZZ" "1y" cache1 tr1
         = (Returns (Failure (no_data_message "ZZZZ")), cache1, tr1).
Proof.
  apply (failure_is_cached unlisted healthy 0 3599 "ZZZZ" "1y" ∅ []);
    [reflexivity | reflexivity | exact I | lia].
Defined.

Lemma entries_from_more (reqs reqs' : list Request) cache :
  entries_from reqs cache -> (forall rq, In rq reqs -> In rq reqs') ->
  entries_from reqs' cache.
Proof.
  intros Hinv Hsub key en Hen. destruct (Hinv key en Hen) as (Hwf & rq & Hin & Hkey & Ht).
  split; [exact Hwf|]. exists rq. auto.
Qed.

(** One call keeps the invariant, its own request added. *)
Lemma entries_from_step (seen : list Request) (rq : Request) cache tr o cache' tr' :
  entries_from seen cache ->
  cached_get_stock_data (req_provider rq) (req_now rq) (req_symbol rq) (req_period rq)
    cache tr = (o, cache', tr') ->
  entries_from (seen ++ [rq]) cache'.
Proof.
  intros Hinv Hrun.
  assert (Hold : entries_from (seen ++ [rq]) cache)
    by (apply (entries_from_more seen); [exact Hinv | intros; apply in_or_app; auto]).
  unfold cached_get_stock_data in Hrun.
  destruct (live_or_stale 3600 (req_now rq) cache (req_symbol rq, req_period rq))
    as [(en & Hen & Hl)|Hs].
  - rewrite (cache_hit _ _ _ _ _ _ _ _ Hen Hl) in Hrun. now injection Hrun as <- <- <-.
  - rewrite (cache_miss _ _ _ _ _ _ _ Hs) in Hrun. unfold run_and_store in Hrun.
    destruct (get_stock_data (req_provider rq) (req_symbol rq) (req_period rq) tr)
      as [[r|e] tr0] eqn:Hget; injection Hrun as <- <- <-; [|exact Hold].
    intros key en Hen.
    destruct (decide (key = (req_symbol rq, req_period rq))) as [->|Hne].
    + rewrite lookup_insert_eq in Hen. injection Hen as <-. cbn [stored created]. split.
      * exact (get_stock_data_well_formed _ _ _ _ _ _ Hget).
      * exists rq. split; [apply in_or_app; right; now left | auto].
    + rewrite lookup_insert_ne in Hen by congruence. exact (Hold key en Hen).
Qed.

Lemma serve_all_entries (reqs seen : list Request) cache tr :
  entries_from seen cache ->
  entries_from (seen ++ reqs) (fst (serve_all reqs cache tr)).
Proof.
  revert seen cache tr. induction reqs as [|rq reqs IH]; intros seen cache tr Hinv.
  - now rewrite app_nil_r.
  - cbn [serve_all].
    destruct (cached_get_stock_data (req_provider rq) (req_now rq) (req_symbol rq)
                (req_period rq) cache tr) as [[o cache'] tr'] eqn:Hrun.
    replace (seen ++ rq :: reqs) with ((seen ++ [rq]) ++ reqs)
      by (now rewrite <- app_assoc).
    apply IH. exact (entries_from_step seen rq cache tr o cache' tr' Hinv Hrun).
Qed.

(** X7: whatever series of calls the cached function serves, starting from an
    empty cache, every entry it leaves sits under a (symbol, period) that was
    requested, bears the time of a request for that key, and holds an error
    or a success whose history has rows. *)
Theorem cache_holds_requested_results (reqs : list Request) (tr : list call) :
  entries_from reqs (fst (serve_all reqs ∅ tr)).
Proof.
  apply (serve_all_entries reqs [] ∅ tr).
  intros key en Hen. rewrite lookup_empty in Hen. discriminate.
Qed.

Lemma serve_all_sample :
  entries_from busy_morning (fst (serve_all busy_morning ∅ [])).
Proof. apply (cache_holds_requested_results busy_morning []). Defined.

(** ** More on the fundamentals table *)

Lemma truthy_get_eq (d d' : gmap string value) (k : string) :
  d !! k = d' !! k -> truthy_get d k = truthy_get d' k.
Proof. unfold truthy_get. now intros ->. Qed.

Lemma get_eq (d d' : gmap string value) (k : string) (default : value) :
  d !! k = d' !! k -> get d k default = get d' k default.
Proof. unfold get. now intros ->. Qed.

(** X8: display_company_info looks at six keys only.  Two profiles that are
    not empty and agree on sector, industry, marketCap, trailingPE,
    trailingEps and dividendYield give the same table, or raise the same
    exception, whatever else they hold. *)
Theorem display_reads_six_keys (info info' : gmap string value) :
  nonempty_dict info = true ->
  nonempty_dict info' = true ->
  (forall key, In key keys_read -> info !! key = info' !! key) ->
  display_company_info info = display_company_info info'.
Proof.
  intros Hne Hne' Hsame.
  assert (Hk : forall key, In key keys_read -> info !! key = info' !! key) by exact Hsame.
  rewrite (display_nonempty info Hne), (display_nonempty info' Hne').
  unfold market_cap_metric, dividend_yield_metric.
  rewrite (truthy_get_eq info info' "marketCap"), (truthy_get_eq info info' "dividendYield"),
    (get_eq info info' "marketCap"), (get_eq info info' "dividendYield"),
    (get_eq info info' "sector"), (get_eq info info' "industry"),
    (get_eq info info' "trailingPE"), (get_eq info info' "trailingEps");
    try reflexivity; apply Hk; cbn; auto 10.
Qed.

Lemma display_reads_six_keys_witness :
  display_company_info noisy_cap = display_company_info big_cap.
Proof.
  apply (display_reads_six_keys noisy_cap big_cap); [reflexivity | reflexivity |].
  intros key Hin. cbn in Hin.
  repeat (destruct Hin as [<-|Hin]); [..|contradiction]; reflexivity.
Defined.

(** A table that is returned comes from a profile that is not empty and whose
    two formatted fields formatted. *)
(** X9: every table display_company_info returns has the six rows Sector,
    Industry, Market Cap, PE Ratio, EPS, Dividend Yield, in this order; the
    market cap and the dividend yield are shown as text; and Sector,
    Industry, PE Ratio and EPS show the stored value as it is whenever their
    key is present, be it None, zero or empty text: their placeholder
    stands for an absent key only. *)
Theorem table_shape (info : gmap string value) (rows : list (string * value)) :
  display_company_info info = Returns (Metrics rows) ->
  map fst rows = ["Sector"; "Industry"; "Market Cap"; "PE Ratio"; "EPS"; "Dividend Yield"]
  /\ (exists s, row "Market Cap" rows = Some (VStr s))
  /\ (exists s, row "Dividend Yield" rows = Some (VStr s))
  /\ (forall label key v,
        In (label, key) verbatim_fields -> info !! key = Some v ->
        row label rows = Some v).
Proof.
  intros Hrun. destruct (display_table_inv info rows Hrun) as (mc & dy & _ & _ & ->).
  split; [reflexivity|]. split; [now exists mc|]. split; [now exists dy|].
  intros label key v Hin Hkey. cbn in Hin.
  repeat (destruct Hin as [[= <- <-]|Hin]); [..|contradiction];
    cbn -[get]; unfold get; now rewrite Hkey.
Qed.

Lemma table_shape_witness :
  exists rows,
    display_company_info null_sector = Returns (Metrics rows)
    /\ map fst rows = ["Sector"; "Industry"; "Market Cap"; "PE Ratio"; "EPS"; "Dividend Yield"]
    /\ row "Sector" rows = Some VNone
    /\ row "PE Ratio" rows = Some (VFloat 28.5).
Proof.
  eexists. split; [reflexivity|].
  destruct (table_shape null_sector _ eq_refl) as (Hlabels & _ & _ & Hverbatim).
  split; [exact Hlabels|]. split.
  - apply (Hverbatim "Sector" "sector"); [cbn; auto | reflexivity].
  - apply (Hverbatim "PE Ratio" "trailingPE"); [cbn; auto 10 | reflexivity].
Defined.

(** X10: display_company_info raises in exactly three cases: the market cap
    is text that is not empty, the dividend yield is text that is not empty,
    or the dividend yield is an int so large that its hundredfold does not
    fit a float.  What it raises is a ValueError or an OverflowError; a
    missing key, None, or a number of ordinary size never makes it fail. *)
Theorem display_raises_iff (info : gmap string value) :
  ((exists e, display_company_info info = Raises e) <->
   text_entry info "marketCap" \/ text_entry info "dividendYield"
   \/ huge_int_entry info "dividendYield")
  /\ (forall e, display_company_info info = Raises e ->
                exn_class e = ValueError \/ exn_class e = OverflowError).
Proof.
  assert (Hinv : forall e, display_company_info info = Raises e ->
            nonempty_dict info = true
            /\ (market_cap_metric info = Raises e
                \/ dividend_yield_metric info = Raises e)).
  { intros e. unfold display_company_info.
    destruct (nonempty_dict info); [|discriminate]. cbn [negb].
    destruct (market_cap_metric info) as [mc|e0]; cbn [obind]; [|intros [= <-]; auto].
    destruct (dividend_yield_metric info) as [dy|e0]; cbn [obind];
      [discriminate | intros [= <-]; auto]. }
  split; [split|].
  - intros [e He]. destruct (Hinv e He) as [_ [Hmc | Hdy]].
    + left. now apply market_cap_raises in Hmc.
    + apply dividend_yield_raises in Hdy.
      destruct Hdy as [[Ht _] | (z & Hz & Hnz & Hf)]; [auto|].
      right; right. exists z, e. auto.
  - intros Hcase.
    assert (Hne : nonempty_dict info = true).
    { destruct Hcase as [(s & Hs & _) | [(s & Hs & _) | (z & e & Hz & _)]];
        eauto using nonempty_of_lookup. }
    rewrite (display_nonempty info Hne).
    destruct (market_cap_metric info) as [mc|e0] eqn:Hmc; [|cbn; eauto].
    cbn [obind].
    assert (Hdy : exists e, dividend_yield_metric info = Raises e).
    { destruct Hcase as [Ht | [Ht | (z & e & Hz & Hnz & Hf)]].
      - assert (Hr : market_cap_metric info
                     = Raises (Exn ValueError "Cannot specify ',' with 's'."))
          by (apply market_cap_raises; auto).
        congruence.
      - eexists. apply dividend_yield_raises. left. eauto.
      - exists e. apply dividend_yield_raises. right. eauto. }
    destruct Hdy as [e ->]. cbn. eauto.
  - intros e He. destruct (Hinv e He) as [_ [Hmc | Hdy]].
    + apply market_cap_raises in Hmc. destruct Hmc as [_ ->]. now left.
    + apply dividend_yield_raises in Hdy.
      destruct Hdy as [[_ ->] | (z & _ & _ & Hf)]; [now left | right].
      exact (float_of_int_raises _ _ Hf).
Qed.

Lemma display_raises_iff_witness :
  (exists e, display_company_info huge_yield = Raises e)
  /\ (exists e, display_company_info named_cap = Raises e).
Proof.
  split.
  - apply (proj1 (display_raises_iff huge_yield)). right; right.
    exists (10 ^ 400), (Exn OverflowError "int too large to convert to float").
    split; [reflexivity|]. split; [discriminate | reflexivity].
  - apply (proj1 (display_raises_iff named_cap)). left.
    exists "2.5B". split; [reflexivity | discriminate].
Defined.

Lemma to_uint_nonnil (n : N) : N.to_uint n <> Decimal.Nil.
Proof.
  destruct n as [|p]; [discriminate|]. apply DecimalPos.Unsigned.to_uint_nonnil.
Qed.

(** The decimal digits of a natural number read back as that number. *)
Lemma read_digits_digits (n : Z) : 0 <= n -> read_digits (Fmt.digits n) = Some n.
Proof.
  intros Hn. unfold read_digits, Fmt.digits.
  rewrite (NilZero.usu _ (to_uint_nonnil (Z.to_N n))).
  rewrite DecimalN.Unsigned.of_to. f_equal. lia.
Qed.

(** X11: the market cap is rendered without loss.  For a nonzero int, the
    field is a dollar sign, a minus sign if the number is negative, and a
    grouped run of digits; dropping the commas from that run and reading it
    as a decimal number gives back the magnitude of the market cap. *)
Theorem market_cap_round_trip (info : gmap string value) (z : Z) :
  info !! "marketCap" = Some (VInt z) -> z <> 0 ->
  falsy_or is_float info "dividendYield" = true ->
  exists rows grouped,
    display_company_info info = Returns (Metrics rows)
    /\ row "Market Cap" rows = Some (VStr ("$" +:+ Fmt.sign_str (z <? 0) +:+ grouped))
    /\ read_digits (remove_commas grouped) = Some (Z.abs z).
Proof.
  intros Hcap Hz Hdy.
  assert (Hmc : falsy_or numeric info "marketCap" = true)
    by (unfold falsy_or; rewrite Hcap; apply orb_true_r).
  destruct (display_total info (nonempty_of_lookup _ _ _ Hcap) Hmc Hdy)
    as (mc & dy & Hmc' & _ & ->).
  rewrite (market_cap_int info z Hcap Hz) in Hmc'. injection Hmc' as <-.
  eexists. exists (Fmt.insert_commas (Fmt.digits (Z.abs z))).
  split; [reflexivity|]. split; [reflexivity|].
  destruct (insert_commas_spec (Fmt.digits (Z.abs z))) as [-> _];
    [apply digits_spec | apply read_digits_digits; lia].
Qed.

Lemma market_cap_round_trip_witness :
  exists rows grouped,
    display_company_info big_cap = Returns (Metrics rows)
    /\ row "Market Cap" rows = Some (VStr ("$" +:+ grouped))
    /\ read_digits (remove_commas grouped) = Some 2500000000.
Proof.
  apply (market_cap_round_trip big_cap 2500000000); [reflexivity | discriminate | reflexivity].
Defined.

Lemma append_assoc (a b c : string) : (a +:+ b) +:+ c = a +:+ (b +:+ c).
Proof.
  induction a as [|x a IH]; [reflexivity|].
  change (String x (a +:+ b +:+ c)) with (String x (a +:+ (b +:+ c))).
  change ((String x a +:+ b) +:+ c) with (String x ((a +:+ b) +:+ c)).
  now rewrite IH.
Qed.

(** X12: the dividend yield shown is correctly rounded.  For a float yield
    whose hundredfold is a finite nonzero float of magnitude m * 2^e, the
    field is a minus sign if that product is negative, the decimal digits of
    h / 100, a point, the two digits of h mod 100 and a percent sign, where
    h hundredths is a nearest multiple of 0.01 to m * 2^e. *)
Theorem dividend_yield_is_rounded (info : gmap string value) (y : float)
    (s : bool) (m : positive) (e : Z) :
  info !! "dividendYield" = Some (VFloat y) ->
  Prim2SF (y * 100) = S754_finite s m e ->
  truthy (VFloat y) = true ->
  falsy_or numeric info "marketCap" = true ->
  exists rows h,
    display_company_info info = Returns (Metrics rows)
    /\ nearest_hundredths (Z.pos m) e h
    /\ 0 <= h
    /\ row "Dividend Yield" rows
         = Some (VStr (Fmt.sign_str s +:+ Fmt.digits (h / 100) +:+ "."
                         +:+ Fmt.two_digits (h mod 100) +:+ "%")).
Proof.
  intros Hyield Hfinite Htruthy Hmc.
  assert (Hdy : falsy_or is_float info "dividendYield" = true)
    by (unfold falsy_or; rewrite Hyield; apply orb_true_r).
  destruct (display_total info (nonempty_of_lookup _ _ _ Hyield) Hmc Hdy)
    as (mc & dy & _ & Hdy' & ->).
  rewrite (dividend_yield_float info y Hyield Htruthy) in Hdy'. injection Hdy' as <-.
  eexists. exists (Fmt.hundredths (Z.pos m) e).
  split; [reflexivity|]. split; [apply hundredths_nearest|].
  split; [apply hundredths_nonneg; lia|].
  cbn -[get Fmt.format_float_2f]. unfold Fmt.format_float_2f. rewrite Hfinite.
  f_equal. f_equal.
  generalize (Fmt.sign_str s) (Fmt.digits (Fmt.hundredths (Z.pos m) e / 100))
    (Fmt.two_digits (Fmt.hundredths (Z.pos m) e mod 100)).
  intros a b c. now rewrite !append_assoc.
Qed.

Lemma dividend_yield_is_rounded_witness :
  exists rows h,
    display_company_info cap_and_yield = Returns (Metrics rows)
    /\ nearest_hundredths 5539427541665710 (-52) h
    /\ 0 <= h
    /\ row "Dividend Yield" rows
         = Some (VStr ("" +:+ Fmt.digits (h / 100) +:+ "."
                         +:+ Fmt.two_digits (h mod 100) +:+ "%")).
Proof.
  apply (dividend_yield_is_rounded cap_and_yield 0x1.930be0ded288dp-7%float
           false 5539427541665710 (-52)); reflexivity.
Defined.

(** ** More on the moving averages and the report *)

Lemma filter_all {A} (f : A -> bool) (l : list A) :
  (length l <= length (List.filter f l))%nat -> forallb f l = true.
Proof.
  induction l as [|a l IH]; [reflexivity|]. cbn [List.filter forallb length].
  pose proof (List.filter_length_le f l) as Hle.
  destruct (f a); cbn [length andb]; intros H; [apply IH | ]; lia.
Qed.

Lemma last_n_map {A B} (f : A -> B) (n : nat) (l : list A) :
  last_n n (map f l) = map f (last_n n l).
Proof. unfold last_n. now rewrite length_map, skipn_map. Qed.

(** An observation that counts after the preparation counted before it. *)
Lemma prep_values_clean (xs : list float) :
  forallb not_nan (rolling.prep_values xs) = true -> forallb not_nan xs = true.
Proof.
  unfold rolling.prep_values. induction xs as [|x xs IH]; [reflexivity|].
  cbn [map forallb]. intros [Hx Hxs]%andb_prop. rewrite (IH Hxs), andb_true_r.
  destruct (is_infinity x); [discriminate | exact Hx].
Qed.

Lemma calc_mean_number (minp : Z) (st : rolling.state) :
  is_nan (rolling.calc_mean minp st) = false -> minp <= rolling.nobs st.
Proof.
  unfold rolling.calc_mean. destruct (Z.leb_spec minp (rolling.nobs st)); [auto|].
  cbn [andb]. discriminate.
Qed.

(** A last mean that is a number was taken over a full window without NaN. *)
Lemma sma_number (window : nat) (hist : DataFrame) :
  (2 <= window)%nat ->
  is_nan (last_value (rolling_mean window (closes hist))) = false ->
  (window <= length hist)%nat /\ forallb not_nan (last_n window (closes hist)) = true.
Proof.
  intros Hw Hnum. destruct hist as [|q hist]; [discriminate|].
  destruct (rolling_mean_last window (closes (q :: hist)) Hw ltac:(discriminate))
    as (st & Heq & Hnobs & _).
  rewrite Heq in Hnum. apply calc_mean_number in Hnum.
  set (seen := last_n window (rolling.prep_values (closes (q :: hist)))) in *.
  pose proof (List.filter_length_le not_nan seen) as Hle.
  pose proof (last_n_length window (rolling.prep_values (closes (q :: hist)))) as Hle'.
  fold seen in Hle'.
  assert (Hlen : (length seen <= length (q :: hist))%nat).
  { subst seen. unfold last_n, rolling.prep_values.
    rewrite length_skipn, length_map, closes_length. lia. }
  split; [lia|].
  apply prep_values_clean. unfold rolling.prep_values. rewrite <- last_n_map.
  apply filter_all. fold (rolling.prep_values (closes (q :: hist))). fold seen. lia.
Qed.

(** X14: a Bullish outlook is printed only on at least 200 rows whose last
    200 closes hold no NaN: with a shorter history, or with one missing close
    among the last 200, the label is Bearish. *)
Theorem bullish_needs_full_windows (hist : DataFrame) :
  outlook hist = Bullish ->
  (200 <= length hist)%nat
  /\ forallb not_nan (last_n 200 (closes hist)) = true
  /\ (sma_200 hist <? sma_50 hist)%float = true.
Proof.
  unfold outlook. destruct (sma_200 hist <? sma_50 hist)%float eqn:Hlt; [|discriminate].
  intros _.
  assert (Hnum : is_nan (sma_200 hist) = false).
  { destruct (is_nan (sma_200 hist)) eqn:Hnan; [|reflexivity].
    rewrite (ltb_nan_l _ _ Hnan) in Hlt. discriminate. }
  destruct (sma_number 200 hist ltac:(lia) Hnum) as [Hlen Hclean]. auto.
Qed.

Lemma bullish_needs_full_windows_witness :
  (200 <= length rising_year)%nat
  /\ forallb not_nan (last_n 200 (closes rising_year)) = true
  /\ (sma_200 rising_year <? sma_50 rising_year)%float = true.
Proof. apply (bullish_needs_full_windows rising_year). reflexivity. Defined.

Lemma last_n_repeat {A} (v : A) (n k : nat) :
  (n <= k)%nat -> last_n n (repeat v k) = repeat v n.
Proof.
  intros Hn. unfold last_n. rewrite repeat_length.
  replace k with ((k - n) + n)%nat at 2 by lia.
  rewrite repeat_app, skipn_app, repeat_length, Nat.sub_diag.
  rewrite skipn_all2 by (rewrite repeat_length; lia). reflexivity.
Qed.

Lemma last_n_last_n {A} (n k : nat) (l : list A) :
  (n <= k)%nat -> last_n n (last_n k l) = last_n n l.
Proof.
  intros Hn. unfold last_n. rewrite length_skipn, skipn_skipn. f_equal. lia.
Qed.

Lemma filter_repeat {A} (f : A -> bool) (v : A) (k : nat) :
  List.filter f (repeat v k) = if f v then repeat v k else [].
Proof.
  induction k as [|k IH]; [now destruct (f v)|]. cbn [repeat List.filter].
  rewrite IH. now destruct (f v).
Qed.

Lemma map_repeat {A B} (f : A -> B) (v : A) (k : nat) :
  map f (repeat v k) = repeat (f v) k.
Proof. induction k as [|k IH]; [reflexivity|]. cbn. now rewrite IH. Qed.

Lemma ltb_irrefl (x : float) : (x <? x)%float = false.
Proof.
  rewrite FloatAxioms.ltb_spec. unfold SFltb, SFcompare.
  destruct (Prim2SF x) as [s|s| |s m e]; try reflexivity.
  - now destruct s.
  - rewrite Z.compare_refl, Pos.compare_cont_refl. now destruct s.
Qed.

(** The window of the last row, after the preparation, when the last [k]
    observations are all [v]. *)
Lemma steady_window (window k : nat) (xs : list float) (v : float) :
  (window <= k)%nat -> last_n k xs = repeat v k ->
  last_n window (rolling.prep_values xs)
    = repeat (if is_infinity v then nan else v) window.
Proof.
  intros Hk Hlast. unfold rolling.prep_values.
  rewrite last_n_map, <- (last_n_last_n window k) by exact Hk.
  now rewrite Hlast, last_n_repeat, map_repeat.
Qed.

(** Over observations that have all been the same finite number for at least
    as long as the window, the last mean is that number itself, whatever the
    running sum has gathered from older rows. *)
Lemma rolling_mean_steady (window k : nat) (xs : list float) (v : float) :
  (2 <= window <= k)%nat -> finite v = true ->
  last_n k xs = repeat v k ->
  last_value (rolling_mean window xs) = v.
Proof.
  intros Hw Hv Hlast. unfold finite in Hv. apply andb_prop in Hv as [Hnan Hinf].
  apply negb_true_iff in Hnan, Hinf.
  assert (Hk : (k <= length xs)%nat).
  { pose proof (f_equal (@length float) Hlast) as Hl.
    unfold last_n in Hl. rewrite length_skipn, repeat_length in Hl. lia. }
  assert (Hne : xs <> []) by (destruct xs; [cbn in Hk; lia | discriminate]).
  destruct (rolling_mean_last window xs ltac:(lia) Hne) as (st & -> & Hnobs & Hrun).
  rewrite (steady_window window k xs v) in Hnobs by (lia || exact Hlast).
  rewrite Hinf, filter_repeat in Hnobs. unfold not_nan in Hnobs.
  rewrite Hnan in Hnobs. cbn [negb] in Hnobs. rewrite repeat_length in Hnobs.
  destruct (Hrun v k) as [Hprev Hcount].
  - lia.
  - exact Hnan.
  - rewrite (steady_window k k xs v) by (lia || exact Hlast). now rewrite Hinf.
  - unfold rolling.calc_mean. rewrite Hnobs.
    destruct (Z.leb_spec (Z.of_nat window) (Z.of_nat window)); [|lia].
    destruct (Z.ltb_spec 0 (Z.of_nat window)); [|lia].
    destruct (Z.leb_spec (Z.of_nat window) (rolling.num_consecutive_same_value st));
      [|lia].
    exact Hprev.
Qed.

(** Over a window of nothing but NaN or nothing but one infinity, the last
    mean is NaN. *)
Lemma rolling_mean_gap (window : nat) (xs : list float) (v : float) :
  (2 <= window)%nat -> finite v = false ->
  last_n window xs = repeat v window ->
  last_value (rolling_mean window xs) = nan.
Proof.
  intros Hw Hv Hlast.
  assert (Hk : (window <= length xs)%nat).
  { pose proof (f_equal (@length float) Hlast) as Hl.
    unfold last_n in Hl. rewrite length_skipn, repeat_length in Hl. lia. }
  assert (Hne : xs <> []) by (destruct xs; [cbn in Hk; lia | discriminate]).
  destruct (rolling_mean_last window xs Hw Hne) as (st & -> & Hnobs & _).
  rewrite (steady_window window window xs v) in Hnobs by (lia || exact Hlast).
  rewrite filter_repeat in Hnobs.
  assert (Hout : not_nan (if is_infinity v then nan else v) = false).
  { unfold finite in Hv. unfold not_nan. destruct (is_infinity v); [reflexivity|].
    now rewrite andb_true_r in Hv. }
  rewrite Hout in Hnobs. cbn [length] in Hnobs.
  unfold rolling.calc_mean. rewrite Hnobs.
  destruct (Z.ltb_spec 0 (Z.of_nat 0)); [lia|]. now rewrite andb_false_r.
Qed.

(** X15: a price that has stood still gives a Bearish outlook.  The running
    sum of roll_mean carries rounding from every older row into the
    averages, but when the last 200 closes are one and the same number, both
    averages are exactly that number, whatever the older rows were, so that
    the tie prints Bearish; and when they are all NaN or all one infinity,
    both averages are NaN and the outlook is Bearish as well. *)
Theorem steady_price_is_bearish (hist : DataFrame) (v : float) :
  last_n 200 (closes hist) = repeat v 200 ->
  outlook hist = Bearish
  /\ (finite v = true ->
      latest_close hist = v /\ sma_50 hist = v /\ sma_200 hist = v)
  /\ (finite v = false -> sma_50 hist = nan /\ sma_200 hist = nan).
Proof.
  intros Hlast.
  assert (H50 : last_n 50 (closes hist) = repeat v 50).
  { rewrite <- (last_n_last_n 50 200) by lia. rewrite Hlast. apply last_n_repeat. lia. }
  assert (Hsteady : finite v = true -> sma_50 hist = v /\ sma_200 hist = v).
  { intros Hv. split.
    - apply (rolling_mean_steady 50 200); [lia | exact Hv | exact Hlast].
    - apply (rolling_mean_steady 200 200); [lia | exact Hv | exact Hlast]. }
  assert (Hgap : finite v = false -> sma_50 hist = nan /\ sma_200 hist = nan).
  { intros Hv. split.
    - apply (rolling_mean_gap 50 _ v); [lia | exact Hv | exact H50].
    - apply (rolling_mean_gap 200 _ v); [lia | exact Hv | exact Hlast]. }
  split; [|split; [|exact Hgap]].
  - unfold outlook. destruct (finite v) eqn:Hv.
    + destruct (Hsteady eq_refl) as [-> ->]. now rewrite ltb_irrefl.
    + destruct (Hgap eq_refl) as [-> ->]. reflexivity.
  - intros Hv. split; [|exact (Hsteady Hv)].
    unfold latest_close, last_value.
    assert (H1 : last_n 1 (closes hist) = [v]).
    { rewrite <- (last_n_last_n 1 200) by lia. rewrite Hlast. apply (last_n_repeat v 1 200). lia. }
    unfold last_n in H1.
    rewrite <- (firstn_skipn (length (closes hist) - 1) (closes hist)), H1.
    apply last_last.
Qed.

Lemma steady_price_is_bearish_witness :
  outlook (rising_year ++ flat_year) = Bearish
  /\ latest_close (rising_year ++ flat_year) = 100%float
  /\ sma_50 (rising_year ++ flat_year) = 100%float
  /\ sma_200 (rising_year ++ flat_year) = 100%float.
Proof.
  destruct (steady_price_is_bearish (rising_year ++ flat_year) 100%float)
    as (Hout & Hsteady & _); [reflexivity|].
  split; [exact Hout | apply Hsteady; reflexivity].
Defined.

Lemma fundamental_section_raises (info : gmap string value) :
  (exists e, fundamental_section info = Raises e) <-> no_numeric_market_cap info.
Proof.
  unfold fundamental_section, no_numeric_market_cap, get.
  destruct (info !! "marketCap") as [v|].
  - destruct (numeric v) eqn:Hv.
    + destruct (format_comma_numeric v Hv) as [s ->]. cbn.
      split; [intros [e He]; discriminate | discriminate].
    + destruct (format_comma_other v Hv) as [e ->]. cbn. split; eauto.
  - cbn. split; eauto.
Qed.

Lemma format_comma_class (v : value) (e : exn) :
  format_comma v = Raises e -> exn_class e = ValueError \/ exn_class e = TypeError.
Proof. destruct v; cbn; intros [= <-]; auto. Qed.

(** X13: generate_investment_analysis raises in exactly two cases: it is
    given an error result, which has no 'history' key, or the history has
    rows, the profile is not empty and holds no number under 'marketCap'.
    An empty history or an empty profile never makes it fail. *)
Theorem analysis_raises_iff (symbol : string) (data : FetchResult) :
  (exists e, generate_investment_analysis symbol data = Raises e) <->
  match data with
  | Failure _ => True
  | Success hist info _ _ =>
      hist <> [] /\ nonempty_dict info = true /\ no_numeric_market_cap info
  end.
Proof.
  destruct data as [msg | hist info financials recommendations].
  - cbn. split; eauto.
  - destruct hist as [|q hist].
    + cbn. split; [intros [e He]; discriminate | intros [H _]; congruence].
    + destruct (nonempty_dict info) eqn:Hne.
      * rewrite (analysis_with_profile symbol (q :: hist) info _ _ ltac:(discriminate) Hne).
        rewrite <- fundamental_section_raises.
        destruct (fundamental_section info) as [more|e]; cbn.
        -- split; [intros [e He]; discriminate | intros (_ & _ & e & He); discriminate].
        -- split; [intros _; repeat split; [discriminate | eauto] | eauto].
      * unfold generate_investment_analysis. cbn [empty]. rewrite Hne. cbn.
        split; [intros [e He]; discriminate | intros (_ & H & _); discriminate].
Qed.

(** X16: the report on a fetched result.  For a success that get_stock_data
    returned, generate_investment_analysis never answers with the
    "Insufficient data" notice and never misses a key: it returns a report
    that opens with the technical section, or it raises a ValueError or
    TypeError from the market cap of a profile that is not empty. *)
Theorem analysis_of_fetched (yf : Provider) (symbol period : string) (tr tr' : list call)
    (hist : DataFrame) (info : gmap string value) (financials recommendations : Table) :
  get_stock_data yf symbol period tr
    = (Returns (Success hist info financials recommendations), tr') ->
  let data := Success hist info financials recommendations in
  (exists rest,
     generate_investment_analysis symbol data
       = Returns (technical_section symbol hist +:+ rest)
     /\ technical_section symbol hist +:+ rest <> "⚠️ Insufficient data for analysis")
  \/ (exists e,
        generate_investment_analysis symbol data = Raises e
        /\ (exn_class e = ValueError \/ exn_class e = TypeError)
        /\ nonempty_dict info = true).
Proof.
  intros Hrun data. subst data.
  assert (Hrows : hist <> []) by exact (get_stock_data_well_formed _ _ _ _ _ _ Hrun).
  assert (Hopen : forall rest,
            technical_section symbol hist +:+ rest <> "⚠️ Insufficient data for analysis").
  { intros rest. unfold technical_section, nl.
    change (String (ascii_of_nat 10) "" +:+ ?x) with (String (ascii_of_nat 10) x).
    discriminate. }
  unfold generate_investment_analysis. rewrite (empty_false _ Hrows).
  destruct (nonempty_dict info) eqn:Hne.
  - unfold fundamental_section.
    destruct (format_comma (get info "marketCap" (VStr "N/A"))) as [mc|e] eqn:Hmc.
    + left. cbn [obind]. rewrite append_assoc. eauto.
    + right. exists e. cbn [obind]. eauto using format_comma_class.
  - left. cbn [obind]. eauto.
Qed.

Lemma analysis_of_fetched_witness :
  (exists rest,
     generate_investment_analysis "AAPL" (Success one_day apple_info [] [])
       = Returns (technical_section "AAPL" one_day +:+ rest)
     /\ technical_section "AAPL" one_day +:+ rest <> "⚠️ Insufficient data for analysis")
  \/ (exists e,
        generate_investment_analysis "AAPL" (Success one_day apple_info [] []) = Raises e
        /\ (exn_class e = ValueError \/ exn_class e = TypeError)
        /\ nonempty_dict apple_info = true).
Proof.
  apply (analysis_of_fetched healthy "AAPL" "1y" [] aapl_calls one_day apple_info [] []).
  reflexivity.
Defined.

(** ** The chart *)

(** X17: the chart holds one candlestick trace, named Price, with one candle
    per row of the history in row order: the date, open, high, low and close
    of candle i are those of row i.  Its title is the symbol followed by
    " Stock Price"; an empty history gives an empty trace, not a failure. *)
Theorem chart_follows_rows (hist : DataFrame) (symbol : string) :
  exists candles,
    go.data (create_stock_chart hist symbol) = [candles]
    /\ go.name candles = "Price"
    /\ length (go.x candles) = length hist
    /\ (forall i q, nth_error hist i = Some q ->
          nth_error (go.x candles) i = Some (timestamp q)
          /\ nth_error (go.open candles) i = Some (Open q)
          /\ nth_error (go.high candles) i = Some (High q)
          /\ nth_error (go.low candles) i = Some (Low q)
          /\ nth_error (go.close candles) i = Some (Close q))
    /\ (forall i, nth_error hist i = None ->
          nth_error (go.x candles) i = None /\ nth_error (go.close candles) i = None)
    /\ go.layout (create_stock_chart hist symbol) !! "title"
         = Some (VStr (symbol +:+ " Stock Price")).
Proof.
  eexists. split; [reflexivity|]. cbn [go.name go.x go.open go.high go.low go.close].
  split; [reflexivity|]. split; [apply length_map|]. split; [|split].
  - intros i q Hq. unfold index. repeat split; now apply map_nth_error.
  - intros i Hnone. apply nth_error_None in Hnone. unfold index.
    split; apply nth_error_None; now rewrite length_map.
  - unfold create_stock_chart, go.update_layout. cbn [go.layout].
    rewrite lookup_union, lookup_insert_eq. reflexivity.
Qed.

(** ** The page *)

Lemma draw_accepted (ui : Session) (p : st.place) (c : st.call) (w : World) :
  all_drawn ui -> draw ui p c w = (Returns tt, on_screen w [(p, c)]).
Proof. intros Hall. unfold draw. now rewrite Hall. Qed.

Lemma on_screen_more (w : World) (l l' : list (st.place * st.call)) :
  on_screen (on_screen w l) l' = on_screen w (l ++ l').
Proof. unfold on_screen. cbn. now rewrite <- app_assoc. Qed.

Lemma sbind_returns {A B} (m : Script A) (k : A -> Script B) (a : A) (w w' : World) :
  m w = (Returns a, w') -> sbind m k w = k a w'.
Proof. unfold sbind. now intros ->. Qed.

Lemma sbind_raises {A B} (m : Script A) (k : A -> Script B) (e : exn) (w w' : World) :
  m w = (Raises e, w') -> sbind m k w = (Raises e, w').
Proof. unfold sbind. now intros ->. Qed.

Lemma widget_accepted {A} (ui : Session) (p : st.place) (c : st.call) (state : A) (w : World) :
  all_drawn ui -> widget ui p c state w = (Returns state, on_screen w [(p, c)]).
Proof.
  intros Hall. unfold widget. now rewrite (sbind_returns _ _ _ _ _ (draw_accepted ui p c w Hall)).
Qed.

(** The script is its preamble, the button's branch and the style sheet. *)
Lemma app_steps (ui : Session) (yf : Provider) (now : Z) (w : World) :
  all_drawn ui ->
  app ui yf now w
  = match analyze ui yf now (upper (typed ui)) (period_chosen ui) (clicked ui)
            (on_screen w preamble) with
    | (Returns _, w') => (Returns tt, on_screen w' [style_sheet])
    | (Raises e, w') => (Raises e, w')
    end.
Proof.
  intros Hall. unfold app.
  rewrite (sbind_returns _ _ _ _ _ (draw_accepted ui _ _ _ Hall)).
  rewrite (sbind_returns _ _ _ _ _ (draw_accepted ui _ _ _ Hall)).
  rewrite (sbind_returns _ _ _ _ _ (draw_accepted ui _ _ _ Hall)).
  rewrite (sbind_returns _ _ _ _ _ (widget_accepted ui _ _ _ _ Hall)).
  rewrite (sbind_returns _ _ _ _ _ (widget_accepted ui _ _ _ _ Hall)).
  rewrite (sbind_returns _ _ _ _ _ (widget_accepted ui _ _ _ _ Hall)).
  rewrite (sbind_returns _ _ _ _ _ (widget_accepted ui _ _ _ _ Hall)).
  rewrite !on_screen_more. cbn [app]. change (_ ++ _ ++ _ ++ _ ++ _ ++ _ ++ _) with preamble
    || change ([(st.page, st.set_page_config "Stock Analysis Pro" "wide")] ++ _) with preamble.
  unfold sbind.
  destruct (analyze ui yf now (upper (typed ui)) (period_chosen ui) (clicked ui)
              (on_screen w preamble)) as [[[]|e] w']; [|reflexivity].
  now rewrite (draw_accepted ui _ _ _ Hall).
Qed.

Lemma lift_run {A} (o : outcome A) (w : World) : lift o w = (o, w).
Proof. reflexivity. Qed.

Lemma financials_drawn (ui : Session) (financials : Table) (w : World) :
  all_drawn ui ->
  (if negb (table_empty financials)
   then exec draw ui (st.tab "🏢 Company Info") (st.expander "📜 Financial Statements") ;;
        exec draw ui (st.inside "🏢 Company Info" "📜 Financial Statements")
               (st.write "Income Statement") ;;
        draw ui (st.inside "🏢 Company Info" "📜 Financial Statements")
             (st.dataframe (st.table financials))
   else sret tt) w
  = (Returns tt, on_screen w (financials_part financials)).
Proof.
  intros Hall. unfold financials_part. destruct (negb (table_empty financials)).
  - rewrite (sbind_returns _ _ _ _ _ (draw_accepted ui _ _ _ Hall)).
    rewrite (sbind_returns _ _ _ _ _ (draw_accepted ui _ _ _ Hall)).
    rewrite (draw_accepted ui _ _ _ Hall). now rewrite !on_screen_more.
  - unfold sret, on_screen. rewrite app_nil_r. now destruct w.
Qed.

Lemma recommendations_drawn (ui : Session) (recommendations : Table) (w : World) :
  all_drawn ui ->
  (if negb (table_empty recommendations)
   then exec draw ui (st.tab "📈 Investment Analysis")
               (st.expander "📊 Analyst Recommendations") ;;
        draw ui (st.inside "📈 Investment Analysis" "📊 Analyst Recommendations")
             (st.dataframe (st.table (tail 10 recommendations)))
   else sret tt) w
  = (Returns tt, on_screen w (recommendations_part recommendations)).
Proof.
  intros Hall. unfold recommendations_part. destruct (negb (table_empty recommendations)).
  - rewrite (sbind_returns _ _ _ _ _ (draw_accepted ui _ _ _ Hall)).
    rewrite (draw_accepted ui _ _ _ Hall). now rewrite !on_screen_more.
  - unfold sret, on_screen. rewrite app_nil_r. now destruct w.
Qed.

(** The three tabs of a success, call by call. *)
Lemma show_report_success (ui : Session) (symbol : string) (hist : DataFrame)
    (info : gmap string value) (financials recommendations : Table) (w : World) :
  all_drawn ui ->
  show_report ui symbol (Success hist info financials recommendations) w
  = match display_company_info info with
    | Raises e => (Raises e, on_screen w (chart_part symbol hist))
    | Returns company =>
        match generate_investment_analysis symbol
                (Success hist info financials recommendations) with
        | Raises e =>
            (Raises e,
             on_screen w (chart_and_company symbol hist company ++ financials_part financials))
        | Returns analysis =>
            (Returns tt,
             on_screen w (chart_and_company symbol hist company
                          ++ financials_part financials
                          ++ [(st.tab "📈 Investment Analysis", st.markdown analysis false)]
                          ++ recommendations_part recommendations))
        end
    end.
Proof.
  intros Hall. unfold show_report.
  rewrite (sbind_returns _ _ _ _ _ (draw_accepted ui _ _ _ Hall)).
  rewrite (sbind_returns _ _ _ _ _ (draw_accepted ui _ _ _ Hall)).
  rewrite (sbind_returns _ _ _ _ _ (draw_accepted ui _ _ _ Hall)).
  rewrite !on_screen_more.
  destruct (display_company_info info) as [company|e].
  2:{ now rewrite (sbind_raises _ _ _ _ _ (lift_run _ _)). }
  rewrite (sbind_returns _ _ _ _ _ (lift_run _ _)).
  rewrite (sbind_returns _ _ _ _ _ (draw_accepted ui _ _ _ Hall)).
  rewrite (sbind_returns _ _ _ _ _ (financials_drawn ui financials _ Hall)).
  rewrite !on_screen_more.
  destruct (generate_investment_analysis symbol
              (Success hist info financials recommendations)) as [analysis|e].
  2:{ rewrite (sbind_raises _ _ _ _ _ (lift_run _ _)).
      unfold chart_and_company. now rewrite <- ?app_assoc. }
  rewrite (sbind_returns _ _ _ _ _ (lift_run _ _)).
  rewrite (sbind_returns _ _ _ _ _ (draw_accepted ui _ _ _ Hall)).
  rewrite (recommendations_drawn ui recommendations _ Hall).
  rewrite !on_screen_more. unfold chart_and_company. now rewrite <- ?app_assoc.
Qed.

(** The branch of a pressed button, on what the cached function answered. *)
Lemma analyze_pressed (ui : Session) (yf : Provider) (now : Z) (symbol period : string)
    (w : World) :
  analyze ui yf now symbol period true w
  = match cached_get_stock_data yf now symbol period (cache w) (provider_calls w) with
    | (Returns data, cache', tr') =>
        (if truthy (error_of data)
         then draw ui st.page (st.error (str (error_of data)))
         else show_report ui symbol data) (mkWorld cache' tr' (screen w))
    | (Raises e, cache', tr') => (Raises e, mkWorld cache' tr' (screen w))
    end.
Proof.
  unfold analyze, sbind, fetch.
  now destruct (cached_get_stock_data yf now symbol period (cache w) (provider_calls w))
    as [[[data|e] cache'] tr'].
Qed.

(** X18: without a click on Analyze the script draws its widgets, the prompt
    and the style sheet, and nothing else happens: the provider is not
    called and the cache is not touched. *)
Theorem idle_run (ui : Session) (yf : Provider) (now : Z) (w : World) :
  all_drawn ui ->
  clicked ui = false ->
  app ui yf now w
    = (Returns tt,
       mkWorld (cache w) (provider_calls w) (screen w ++ preamble ++ [prompt; style_sheet])).
Proof.
  intros Hall Hidle. rewrite (app_steps ui yf now w Hall), Hidle.
  unfold analyze. rewrite (draw_accepted ui _ _ _ Hall), !on_screen_more.
  unfold on_screen. cbn. now rewrite <- ?app_assoc.
Qed.

Lemma idle_run_witness :
  app (accepting "aapl" "1y" false) offline 0 fresh
    = (Returns tt, mkWorld ∅ [] (preamble ++ [prompt; style_sheet])).
Proof.
  apply (idle_run (accepting "aapl" "1y" false) offline 0 fresh);
    [intros p c; reflexivity | reflexivity].
Defined.

Lemma escaped_is_not_Exception yf symbol period tr e tr' :
  get_stock_data yf symbol period tr = (Raises e, tr') -> is_Exception e = false.
Proof.
  intros Hrun.
  destruct (get_stock_data_cases yf symbol period tr)
    as [(h & calls & Hret & Heq) | [(msg & tr0 & Heq) | (e0 & tr0 & Heq)]].
  - rewrite Heq in Hrun. unfold try_except_Exception in Hrun.
    destruct (fetch_details yf symbol h (tr ++ calls)) as [[r|e1] tr1]; [discriminate|].
    destruct (is_Exception e1) eqn:He1; [discriminate | congruence].
  - congruence.
  - unfold get_stock_data, try_except_Exception in Hrun, Heq.
    match type of Hrun with
    | context [match ?body tr with _ => _ end] => destruct (body tr) as [[r|e1] tr1]
    end; [discriminate|].
    destruct (is_Exception e1) eqn:He1; [discriminate | congruence].
Qed.

Lemma get_stock_data_sound yf symbol period tr r tr' :
  get_stock_data yf symbol period tr = (Returns r, tr') -> sound_result r.
Proof.
  intros Hrun. destruct r as [msg | hist info financials recommendations].
  - destruct (failure_cases _ _ _ _ _ _ Hrun) as [(-> & _) | (e & -> & _)]; discriminate.
  - exact (get_stock_data_well_formed _ _ _ _ _ _ Hrun).
Qed.

(** The cached function keeps a sound cache sound, returns sound results, and
    lets only exceptions through that are no instances of Exception. *)
Lemma cached_sound yf now symbol period c tr o c' tr' :
  cache_sound c ->
  cached_get_stock_data yf now symbol period c tr = (o, c', tr') ->
  cache_sound c'
  /\ match o with
     | Returns r => sound_result r
     | Raises e => is_Exception e = false
     end.
Proof.
  intros Hc Hrun. unfold cached_get_stock_data in Hrun.
  destruct (live_or_stale 3600 now c (symbol, period)) as [(en & Hen & Hl)|Hs].
  - rewrite (cache_hit _ _ _ _ _ _ _ _ Hen Hl) in Hrun. injection Hrun as <- <- <-.
    split; [exact Hc | exact (Hc _ _ Hen)].
  - rewrite (cache_miss _ _ _ _ _ _ _ Hs) in Hrun. unfold run_and_store in Hrun.
    destruct (get_stock_data yf symbol period tr) as [[r|e] tr0] eqn:Hget;
      injection Hrun as <- <- <-.
    + pose proof (get_stock_data_sound _ _ _ _ _ _ Hget) as Hr.
      split; [now apply map_Forall_insert_2 | exact Hr].
    + split; [exact Hc | exact (escaped_is_not_Exception _ _ _ _ _ _ Hget)].
Qed.

Lemma display_raise_class (info : gmap string value) (e : exn) :
  display_company_info info = Raises e ->
  exn_class e = ValueError \/ exn_class e = OverflowError.
Proof.
  unfold display_company_info. destruct (nonempty_dict info); [|discriminate]. cbn [negb].
  destruct (market_cap_metric info) as [mc|e0] eqn:Hmc; cbn [obind].
  - destruct (dividend_yield_metric info) as [dy|e0] eqn:Hdy; cbn [obind]; [discriminate|].
    intros [= <-]. apply dividend_yield_raises in Hdy.
    destruct Hdy as [[_ ->] | (z & _ & _ & Hf)]; [now left | right].
    exact (float_of_int_raises _ _ Hf).
  - intros [= <-]. apply market_cap_raises in Hmc. destruct Hmc as [_ ->]. now left.
Qed.

Lemma analysis_raise_class symbol hist info financials recommendations e :
  generate_investment_analysis symbol (Success hist info financials recommendations)
    = Raises e ->
  exn_class e = ValueError \/ exn_class e = TypeError.
Proof.
  unfold generate_investment_analysis. destruct (empty hist); [discriminate|].
  destruct (nonempty_dict info); [|discriminate]. unfold fundamental_section.
  destruct (format_comma (get info "marketCap" (VStr "N/A"))) as [mc|e0] eqn:Hmc;
    cbn [obind]; [discriminate|].
  intros [= <-]. exact (format_comma_class _ _ Hmc).
Qed.

Lemma error_is_truthy (msg : string) : msg <> "" -> truthy (error_of (Failure msg)) = true.
Proof. intros Hne. cbn. now destruct (String.eqb_spec msg ""). Qed.

Lemma contained_sret {A} (ui : Session) (a : A) (post : A -> Prop) :
  post a -> contained ui (sret a) post.
Proof. intros Ha w o w' Hc [= <- <-]. auto. Qed.

Lemma contained_draw (ui : Session) (p : st.place) (c : st.call) :
  contained ui (draw ui p c) (fun _ => True).
Proof.
  intros w o w' Hc. unfold draw. destruct (draws ui p c) as [[]|e] eqn:Hdraw;
    intros [= <- <-]; (split; [exact Hc|]); [exact I|].
  right. eauto.
Qed.

Lemma contained_bind {A B} (ui : Session) (m : Script A) (k : A -> Script B)
    (mid : A -> Prop) (post : B -> Prop) :
  contained ui m mid -> (forall a, mid a -> contained ui (k a) post) ->
  contained ui (sbind m k) post.
Proof.
  intros Hm Hk w o w' Hc. unfold sbind.
  destruct (m w) as [[a|e] w1] eqn:Hrun; destruct (Hm w _ w1 Hc Hrun) as [Hc1 Hmid].
  - apply (Hk a Hmid w1 o w' Hc1).
  - intros [= <- <-]. auto.
Qed.

Lemma contained_widget {A} (ui : Session) (p : st.place) (c : st.call) (state : A) :
  contained ui (widget ui p c state) (fun _ => True).
Proof.
  unfold widget. eapply contained_bind; [apply contained_draw|].
  intros _ _. now apply contained_sret.
Qed.

Lemma contained_lift {A} (ui : Session) (o : outcome A) :
  (forall e, o = Raises e -> script_exception e) ->
  contained ui (lift o) (fun _ => True).
Proof.
  intros Ho w o' w' Hc [= <- <-]. split; [exact Hc|].
  destruct o as [a|e]; [exact I | left; auto].
Qed.

Lemma contained_fetch (ui : Session) (yf : Provider) (now : Z) (symbol period : string) :
  contained ui (fetch yf now symbol period) sound_result.
Proof.
  intros w o w' Hc. unfold fetch.
  destruct (cached_get_stock_data yf now symbol period (cache w) (provider_calls w))
    as [[o1 c1] tr1] eqn:Hfetch.
  destruct (cached_sound _ _ _ _ _ _ _ _ _ Hc Hfetch) as [Hc1 Ho1].
  intros [= <- <-]. split; [exact Hc1|].
  destruct o1 as [r|e]; [exact Ho1|]. left. unfold script_exception. auto.
Qed.

Ltac contained_step :=
  eapply contained_bind;
  [ first [apply contained_draw | apply contained_widget] | intros ? _ ].

Lemma show_report_contained (ui : Session) (symbol : string) (data : FetchResult) :
  sound_result data -> truthy (error_of data) = false ->
  contained ui (show_report ui symbol data) (fun _ => True).
Proof.
  intros Hdata Hfalsy. destruct data as [msg | hist info financials recommendations].
  { rewrite (error_is_truthy msg Hdata) in Hfalsy. discriminate. }
  unfold show_report. do 3 contained_step.
  eapply contained_bind.
  { apply contained_lift. intros e He. unfold script_exception.
    destruct (display_raise_class _ _ He); auto. }
  intros company _. contained_step.
  eapply contained_bind with (mid := fun _ => True).
  { destruct (negb (table_empty financials)); [|now apply contained_sret].
    do 2 contained_step. apply contained_draw. }
  intros _ _.
  eapply contained_bind.
  { apply contained_lift. intros e He. unfold script_exception.
    destruct (analysis_raise_class _ _ _ _ _ _ He); auto. }
  intros analysis _. contained_step.
  destruct (negb (table_empty recommendations)); [|now apply contained_sret].
  contained_step. apply contained_draw.
Qed.

Lemma app_contained (ui : Session) (yf : Provider) (now : Z) :
  contained ui (app ui yf now) (fun _ => True).
Proof.
  unfold app. do 7 contained_step.
  eapply contained_bind with (mid := fun _ => True); [|intros _ _; apply contained_draw].
  unfold analyze.
  match goal with |- contained _ (if ?pressed then _ else _) _ => destruct pressed end;
    [|apply contained_draw].
  eapply contained_bind; [apply contained_fetch|]. intros data Hdata.
  destruct (truthy (error_of data)) eqn:Herror; [apply contained_draw|].
  now apply show_report_contained.
Qed.

(** X19: every exception a run of the script ends in comes from one of three
    places: the formatting of the profile (a ValueError, TypeError or
    OverflowError), the provider (an exception that is no instance of
    Exception), or a Streamlit call that raised it, as st.dataframe may on
    the notice text of an empty profile.  The KeyError of data['history'] on
    an error result is never raised by the script: when the cache holds
    results that get_stock_data made, an error always has a message, so that
    the report is not entered; a run can end in a KeyError only if a
    Streamlit call raises one.  The cache afterwards again holds only
    results that get_stock_data made. *)
Theorem run_is_contained (ui : Session) (yf : Provider) (now : Z) (w w' : World)
    (o : outcome unit) :
  cache_sound (cache w) ->
  app ui yf now w = (o, w') ->
  cache_sound (cache w')
  /\ (forall e, o = Raises e ->
        script_exception e \/ exists p c, draws ui p c = Raises e)
  /\ (forall e, o = Raises e -> exn_class e = KeyError ->
        exists p c, draws ui p c = Raises e).
Proof.
  intros Hc Hrun. destruct (app_contained ui yf now w o w' Hc Hrun) as [Hc' Ho].
  split; [exact Hc'|]. split.
  - intros e ->. exact Ho.
  - intros e -> Hkey. destruct Ho as [Hown | Hdrawn]; [|exact Hdrawn].
    unfold script_exception, is_Exception in Hown. rewrite Hkey in Hown.
    destruct Hown as [H | [H | [H | H]]]; discriminate.
Qed.

Lemma accepting_all_drawn (text period : string) (pressed : bool) :
  all_drawn (accepting text period pressed).
Proof. intros p c. reflexivity. Qed.

Lemma fresh_sound : cache_sound (cache fresh).
Proof. apply map_Forall_empty. Qed.

Lemma run_is_contained_witness :
  script_exception (Exn ValueError "Cannot specify ',' with 's'.")
  /\ (script_exception
        (Exn StreamlitError "Unable to convert object of type str to pandas.DataFrame")
      \/ exists p c,
           draws (strict "aapl" "1y" true) p c
             = Raises (Exn StreamlitError
                         "Unable to convert object of type str to pandas.DataFrame")).
Proof.
  split.
  - destruct (run_is_contained (accepting "aapl" "1y" true) sector_only 0 fresh
                (snd (app (accepting "aapl" "1y" true) sector_only 0 fresh))
                (fst (app (accepting "aapl" "1y" true) sector_only 0 fresh))
                fresh_sound (surjective_pairing _)) as (_ & Hexn & _).
    destruct (Hexn _ eq_refl) as [Hown | (p & c & Hdrawn)]; [exact Hown | discriminate].
  - destruct (run_is_contained (strict "aapl" "1y" true) malformed_profile 0 fresh
                (snd (app (strict "aapl" "1y" true) malformed_profile 0 fresh))
                (fst (app (strict "aapl" "1y" true) malformed_profile 0 fresh))
                fresh_sound (surjective_pairing _)) as (_ & Hexn & _).
    apply Hexn. reflexivity.
Defined.

(** X20: a failed fetch shows its message and nothing of a report.  When the
    button is pressed and the cached function answers with an error whose
    message is not empty, the run draws the widgets, one st.error with that
    message and the style sheet, and returns. *)
Theorem failed_fetch_shows_error (ui : Session) (yf : Provider) (now : Z) (w : World)
    (msg : string) (cache' : gmap (string * string) CacheEntry) (tr' : list call) :
  all_drawn ui ->
  clicked ui = true ->
  msg <> "" ->
  cached_get_stock_data yf now (upper (typed ui)) (period_chosen ui)
    (cache w) (provider_calls w) = (Returns (Failure msg), cache', tr') ->
  app ui yf now w
    = (Returns tt,
       mkWorld cache' tr' (screen w ++ preamble ++ [(st.page, st.error msg); style_sheet])).
Proof.
  intros Hall Hclick Hmsg Hfetch.
  rewrite (app_steps ui yf now w Hall), Hclick, analyze_pressed.
  cbn [on_screen cache provider_calls screen]. rewrite Hfetch.
  rewrite (error_is_truthy msg Hmsg), (draw_accepted ui _ _ _ Hall).
  unfold on_screen. cbn. now rewrite <- ?app_assoc.
Qed.

Lemma failed_fetch_shows_error_witness :
  exists cache' tr',
    app (accepting "zzzz" "1y" true) unlisted 0 fresh
      = (Returns tt,
         mkWorld cache' tr'
           (preamble ++ [(st.page, st.error (no_data_message "ZZZZ")); style_sheet])).
Proof.
  eexists. eexists.
  apply (failed_fetch_shows_error (accepting "zzzz" "1y" true) unlisted 0 fresh
           (no_data_message "ZZZZ"));
    [apply accepting_all_drawn | reflexivity | discriminate | reflexivity].
Defined.

(** X21: a report is drawn tab by tab, and a failing analysis cuts the run
    short.  When the button is pressed, the fetch succeeds and the company
    table can be made, the run draws the chart and the company table (with
    the financial statements if there are any); then, if
    generate_investment_analysis raises, the run ends in that exception and
    neither the analysis nor the style sheet is drawn; otherwise it draws the
    analysis, the last ten recommendations if there are any, and the style
    sheet. *)
Theorem report_run (ui : Session) (yf : Provider) (now : Z) (w : World)
    (hist : DataFrame) (info : gmap string value) (financials recommendations : Table)
    (company : Display) (cache' : gmap (string * string) CacheEntry) (tr' : list call) :
  all_drawn ui ->
  clicked ui = true ->
  cached_get_stock_data yf now (upper (typed ui)) (period_chosen ui)
    (cache w) (provider_calls w)
    = (Returns (Success hist info financials recommendations), cache', tr') ->
  display_company_info info = Returns company ->
  let symbol := upper (typed ui) in
  let drawn := preamble ++ chart_and_company symbol hist company
                        ++ financials_part financials in
  app ui yf now w
  = match generate_investment_analysis symbol
            (Success hist info financials recommendations) with
    | Raises e => (Raises e, mkWorld cache' tr' (screen w ++ drawn))
    | Returns analysis =>
        (Returns tt,
         mkWorld cache' tr'
           (screen w ++ drawn
              ++ [(st.tab "📈 Investment Analysis", st.markdown analysis false)]
              ++ recommendations_part recommendations ++ [style_sheet]))
    end.
Proof.
  intros Hall Hclick Hfetch Hcompany symbol drawn. subst symbol drawn.
  rewrite (app_steps ui yf now w Hall), Hclick, analyze_pressed.
  cbn [on_screen cache provider_calls screen]. rewrite Hfetch.
  cbn [error_of truthy]. rewrite (show_report_success ui _ _ _ _ _ _ Hall), Hcompany.
  destruct (generate_investment_analysis _ _) as [analysis|e];
    unfold on_screen; cbn [cache provider_calls screen];
    repeat rewrite <- app_assoc; reflexivity.
Qed.

Lemma report_run_witness :
  exists cache' tr' company,
    app (accepting "aapl" "1y" true) sector_only 0 fresh
      = (Raises (Exn ValueError "Cannot specify ',' with 's'."),
         mkWorld cache' tr' (preamble ++ chart_and_company "AAPL" one_day company ++ [])).
Proof.
  eexists. eexists. eexists. etransitivity.
  - apply (report_run (accepting "aapl" "1y" true) sector_only 0 fresh one_day
             {["sector" := VStr "Technology"]} [] []);
      [apply accepting_all_drawn | reflexivity | reflexivity | reflexivity].
  - reflexivity.
Defined.

(** Drawing a report changes neither the cache nor the provider trace. *)
Lemma show_report_keeps (ui : Session) (symbol : string) (data : FetchResult) (w : World) :
  all_drawn ui ->
  cache (snd (show_report ui symbol data w)) = cache w
  /\ provider_calls (snd (show_report ui symbol data w)) = provider_calls w.
Proof.
  intros Hall. destruct data as [msg | hist info financials recommendations].
  - unfold show_report. rewrite (sbind_returns _ _ _ _ _ (draw_accepted ui _ _ _ Hall)).
    now rewrite lift_run.
  - rewrite (show_report_success ui _ _ _ _ _ _ Hall).
    destruct (display_company_info info); [|now split].
    destruct (generate_investment_analysis _ _); now split.
Qed.

(** A run with the button pressed calls the cached function once, with the
    upper-cased symbol and the period chosen: cache and provider trace end
    up as that call leaves them. *)
Lemma app_fetches_once (ui : Session) (yf : Provider) (now : Z) (w : World)
    (o : outcome FetchResult) (cache' : gmap (string * string) CacheEntry)
    (tr' : list call) :
  all_drawn ui ->
  clicked ui = true ->
  cached_get_stock_data yf now (upper (typed ui)) (period_chosen ui)
    (cache w) (provider_calls w) = (o, cache', tr') ->
  cache (snd (app ui yf now w)) = cache'
  /\ provider_calls (snd (app ui yf now w)) = tr'.
Proof.
  intros Hall Hclick Hfetch.
  rewrite (app_steps ui yf now w Hall), Hclick, analyze_pressed.
  cbn [on_screen cache provider_calls screen]. rewrite Hfetch.
  destruct o as [data|e]; [|now split].
  destruct (truthy (error_of data)).
  - rewrite (draw_accepted ui _ _ _ Hall). now split.
  - pose proof (show_report_keeps ui (upper (typed ui)) data
                  (mkWorld cache' tr' (screen w ++ preamble)) Hall) as [Hc Ht].
    destruct (show_report ui (upper (typed ui)) data _) as [[[]|e] w1];
      cbn [snd fst cache provider_calls on_screen] in *; now split.
Qed.

Lemma upper_char_idempotent (c : ascii) : upper_char (upper_char c) = upper_char c.
Proof. destruct c as [[] [] [] [] [] [] [] []]; reflexivity. Qed.

Lemma upper_idempotent (s : string) : upper (upper s) = upper s.
Proof.
  induction s as [|c s IH]; [reflexivity|].
  cbn [upper]. now rewrite upper_char_idempotent, IH.
Qed.

(** X22: the symbol is looked up in upper case, so its letter case does not
    matter to the cache.  After a run whose fetch returned, a second run with
    the button pressed, the same period and a symbol that upper-cases to the
    same text gets the cached result while the entry is less than 3600
    seconds old: it calls the provider not at all and leaves the cache as it
    is. *)
Theorem symbol_case_is_ignored (ui1 ui2 : Session) (yf1 yf2 : Provider) (now1 now2 : Z)
    (w : World) (r1 : FetchResult) (cache1 : gmap (string * string) CacheEntry)
    (tr1 : list call) :
  all_drawn ui1 -> all_drawn ui2 ->
  clicked ui1 = true -> clicked ui2 = true ->
  upper (typed ui1) = upper (typed ui2) ->
  period_chosen ui1 = period_chosen ui2 ->
  cached_get_stock_data yf1 now1 (upper (typed ui1)) (period_chosen ui1)
    (cache w) (provider_calls w) = (Returns r1, cache1, tr1) ->
  let w1 := snd (app ui1 yf1 now1 w) in
  cache w1 = cache1 /\ provider_calls w1 = tr1
  /\ exists en,
       cache1 !! (upper (typed ui1), period_chosen ui1) = Some en
       /\ (now2 < created en + 3600 ->
           cache (snd (app ui2 yf2 now2 w1)) = cache1
           /\ provider_calls (snd (app ui2 yf2 now2 w1)) = tr1).
Proof.
  intros Hall1 Hall2 Hclick1 Hclick2 Hsymbol Hperiod Hfetch w1. subst w1.
  destruct (app_fetches_once ui1 yf1 now1 w _ _ _ Hall1 Hclick1 Hfetch) as [Hc Ht].
  split; [exact Hc|]. split; [exact Ht|].
  destruct (cache_data_stores _ _ _ _ _ _ _ _ _ _ Hfetch) as (en & Hen & Hstored).
  exists en. split; [exact Hen|]. intros Hlive.
  apply (app_fetches_once ui2 yf2 now2 _ (Returns r1)); [exact Hall2 | exact Hclick2 |].
  rewrite Hc, Ht, <- Hsymbol, <- Hperiod. unfold cached_get_stock_data.
  rewrite (cache_hit _ _ _ _ _ _ _ _ Hen); [now rewrite Hstored|].
  unfold live. now apply Z.ltb_lt.
Qed.

Lemma symbol_case_is_ignored_witness :
  upper "aapl" = "AAPL"
  /\ exists en,
       aapl_cache !! ("AAPL", "1y") = Some en
       /\ (1800 < created en + 3600 ->
           cache (snd (app (accepting "AaPl" "1y" true) unlisted 1800
                         (snd (app (accepting "aapl" "1y" true) healthy 0 fresh))))
             = aapl_cache
           /\ provider_calls (snd (app (accepting "AaPl" "1y" true) unlisted 1800
                                     (snd (app (accepting "aapl" "1y" true) healthy 0 fresh))))
              = aapl_calls).
Proof.
  split; [reflexivity|].
  apply (symbol_case_is_ignored (accepting "aapl" "1y" true) (accepting "AaPl" "1y" true)
           healthy unlisted 0 1800 fresh (Success one_day apple_info [] []));
    try apply accepting_all_drawn; try reflexivity.
Defined.

(** ** An empty profile *)

Lemma draw_shown (ui : Session) (p : st.place) (c : st.call) (w : World) :
  draws ui p c = Returns tt -> draw ui p c w = (Returns tt, on_screen w [(p, c)]).
Proof. intros Hc. unfold draw. now rewrite Hc. Qed.

Lemma widget_shown {A} (ui : Session) (p : st.place) (c : st.call) (state : A) (w : World) :
  draws ui p c = Returns tt -> widget ui p c state w = (Returns state, on_screen w [(p, c)]).
Proof.
  intros Hc. unfold widget. now rewrite (sbind_returns _ _ _ _ _ (draw_shown ui p c w Hc)).
Qed.

(** The next call of the script is one of those the session is known to
    show. *)
Ltac shown_next Hshown :=
  match goal with
  | |- context [sbind (draw ?ui ?p ?c) ?k ?w] =>
      rewrite (sbind_returns (draw ui p c) k tt w _
                 (draw_shown ui p c w
                    ltac:(apply Hshown; apply in_or_app; cbn; auto 20)))
  | |- context [sbind (widget ?ui ?p ?c ?state) ?k ?w] =>
      rewrite (sbind_returns (widget ui p c state) k state w _
                 (widget_shown ui p c state w
                    ltac:(apply Hshown; apply in_or_app; cbn; auto 20)))
  end.

(** X23: a company without a profile breaks the page where Streamlit will not
    show text as a table.  When the button is pressed and the fetch succeeds
    with an empty profile, display_company_info returns its notice, a string,
    and the script hands that string to st.dataframe; if Streamlit raises on
    it, having shown the calls before it, the run ends in that exception once
    the chart and the heading of the company tab are drawn: no company
    table, no analysis and no style sheet follow, although the analysis of
    such a result would not fail. *)
Theorem empty_profile_run (ui : Session) (yf : Provider) (now : Z) (w : World)
    (hist : DataFrame) (info : gmap string value) (financials recommendations : Table)
    (cache' : gmap (string * string) CacheEntry) (tr' : list call) (e : exn) :
  (forall p c, In (p, c) (preamble ++ chart_part (upper (typed ui)) hist) ->
               draws ui p c = Returns tt) ->
  draws ui (st.tab "🏢 Company Info") notice_frame = Raises e ->
  clicked ui = true ->
  cached_get_stock_data yf now (upper (typed ui)) (period_chosen ui)
    (cache w) (provider_calls w)
    = (Returns (Success hist info financials recommendations), cache', tr') ->
  nonempty_dict info = false ->
  app ui yf now w
    = (Raises e,
       mkWorld cache' tr' (screen w ++ preamble ++ chart_part (upper (typed ui)) hist))
  /\ exists analysis,
       generate_investment_analysis (upper (typed ui))
         (Success hist info financials recommendations) = Returns analysis.
Proof.
  intros Hshown Hrefused Hclick Hfetch Hempty. split.
  - unfold app. do 7 shown_next Hshown.
    rewrite !on_screen_more, Hclick.
    apply sbind_raises. rewrite analyze_pressed.
    cbn [on_screen cache provider_calls screen]. rewrite Hfetch.
    cbn [error_of truthy]. unfold show_report. do 3 shown_next Hshown.
    rewrite !on_screen_more.
    unfold display_company_info. rewrite Hempty. cbn [negb].
    rewrite (sbind_returns _ _ _ _ _ (lift_run _ _)).
    apply sbind_raises. unfold draw. fold notice_frame. rewrite Hrefused.
    unfold on_screen, chart_part, preamble. cbn [cache provider_calls screen].
    repeat rewrite <- app_assoc. reflexivity.
  - unfold generate_investment_analysis. rewrite Hempty.
    destruct (empty hist); eauto.
Qed.

Lemma empty_profile_run_witness :
  app (strict "aapl" "1y" true) malformed_profile 0 fresh
    = (Raises (Exn StreamlitError "Unable to convert object of type str to pandas.DataFrame"),
       mkWorld (<[("AAPL", "1y") := mkEntry (Success one_day ∅ [] []) 0]> ∅)
               [CallHistory "AAPL" "1y"; CallGetattr "AAPL" "info";
                CallGetattr "AAPL" "financials"; CallGetattr "AAPL" "financials";
                CallGetattr "AAPL" "recommendations"; CallGetattr "AAPL" "recommendations"]
               (preamble ++ chart_part "AAPL" one_day)).
Proof.
  apply (empty_profile_run (strict "aapl" "1y" true) malformed_profile 0 fresh
           one_day ∅ [] []).
  - intros p c Hin. apply in_app_or in Hin. cbn in Hin.
    destruct Hin as [Hin | Hin];
      repeat (destruct Hin as [[= <- <-] | Hin]; [reflexivity|]); contradiction.
  - reflexivity.
  - reflexivity.
  - reflexivity.
  - reflexivity.
Defined.
